(** * Opportunity validation and risk gating of the arbitrage bot

    A shallow embedding of the validation pipeline of the bot
    (src/risk/CircuitBreakerManager.js, src/utils/PriceValidator.js,
    src/utils/LiquidityValidator.js, src/utils/ValidationManager.js and
    src/utils/EnhancedValidationManager.js) together with the properties
    its specification states about it, and of the places that feed it (the
    breaker's event handlers in src/bot/BotMonitoringIntegration.js, the
    scanner's test amounts in src/bot/EnhancedArbitrageBot.js) with further
    properties of the code.

    Conventions of the embedding:
    - a JavaScript [Number] is a rational ([Q]); rounding of IEEE doubles is
      not modelled, comparisons are exact;
    - a [BigInt] is an integer ([Z]); [/] on BigInt truncates toward zero
      ([Z.quot]) and throws a RangeError on a zero divisor;
    - [Date.now()] is an explicit argument: [now] where a call reads the
      clock once, a [Clock] giving its successive readings where it reads it
      more than once;
    - the one Number a candidate is known to carry as [NaN], its
      [spreadPercentage], is a [Js.Number];
    - [console.log] output is dropped; calls that leave the module
      (monitoring reports, provider calls, sub-validators) are recorded. *)

From Stdlib Require Import ZArith QArith Qround Qabs List String Ascii Bool Lia Lqa.
From Stdlib Require Import DecimalString.
Import ListNotations.

Set Warnings "-register-all".

Local Open Scope Q_scope.

(** ** JavaScript numbers *)

Module Js.

(** [x < y], [x > y], [x <= y], [x >= y] on Numbers. *)
Definition lt (x y : Q) : bool :=
  match x ?= y with Lt => true | _ => false end.
Definition gt (x y : Q) : bool := lt y x.
Definition le (x y : Q) : bool := Qle_bool x y.
Definition ge (x y : Q) : bool := Qle_bool y x.

(** Truthiness of a Number: [0] is falsy. *)
Definition truthy (x : Q) : bool := negb (Qeq_bool x 0).

(** [x || d] where [x] may be [undefined]. *)
Definition or_default (x : option Q) (d : Q) : Q :=
  match x with
  | Some q => if truthy q then q else d
  | None => d
  end.

(** [arr.slice(start)] for an integral [start]. *)
Definition slice_from {A} (start : Z) (l : list A) : list A :=
  let len := Z.of_nat (List.length l) in
  let k := if (start <? 0)%Z then Z.max (len + start) 0 else Z.min start len in
  skipn (Z.to_nat k) l.

(** The readings of [Date.now()] during one call, in the order they are
    taken: [clock 0] is the first. *)
Definition Clock : Type := nat -> Q.

(** The clock as a callee sees it after [k] readings were taken. *)
Definition later (k : nat) (clock : Clock) : Clock :=
  fun i => clock (k + i)%nat.

(** A call during which the clock does not advance. *)
Definition steady (now : Q) : Clock := fun _ => now.

(** A Number that may be [NaN]. *)
Inductive Number :=
| NaN
| Fin (q : Q).

(** [x > y] for such a Number: false on [NaN]. *)
Definition gt_number (x : Number) (y : Q) : bool :=
  match x with
  | Fin q => gt q y
  | NaN => false
  end.

(** Arithmetic on such a Number: [NaN] stays [NaN]. *)
Definition on_number (f : Q -> Q) (x : Number) : Number :=
  match x with
  | Fin q => Fin (f q)
  | NaN => NaN
  end.

End Js.

(** ** Values, objects and exceptions *)

Module JsObject.

(** A thrown [Error]: only its [message] is ever read. *)
Record Error := { message : string }.

(** A computation that returns or throws. *)
Definition Outcome (A : Type) : Type := (Error + A)%type.

Definition ret {A} (a : A) : Outcome A := inr a.
Definition throw {A} (msg : string) : Outcome A := inl {| message := msg |}.
Definition bind {A B} (c : Outcome A) (k : A -> Outcome B) : Outcome B :=
  match c with
  | inl e => inl e
  | inr a => k a
  end.

(** [try { c } catch (error) { h error }] *)
Definition try_catch {A} (c : Outcome A) (h : Error -> A) : A :=
  match c with
  | inl e => h e
  | inr a => a
  end.

(** BigInt division: truncating, and a RangeError on a zero divisor. *)
Definition bigint_div (a b : Z) : Outcome Z :=
  if (b =? 0)%Z then throw "Division by zero" else ret (Z.quot a b).

Inductive Value :=
| VUndefined
| VNull
| VBool (b : bool)
| VNum (q : Q)
| VNaN
| VBigInt (z : Z)
| VStr (s : string)
| VObj (fields : list (string * Value))
| VArr (items : list Value).

(** An object literal, fields in source order. *)
Definition Obj := list (string * Value).

Fixpoint get (k : string) (o : Obj) : Value :=
  match o with
  | [] => VUndefined
  | (k', v) :: o' => if String.eqb k k' then v else get k o'
  end.

Definition truthy (v : Value) : bool :=
  match v with
  | VUndefined | VNull | VNaN => false
  | VBool b => b
  | VNum q => Js.truthy q
  | VBigInt z => negb (z =? 0)%Z
  | VStr s => negb (String.eqb s ""%string)
  | VObj _ | VArr _ => true
  end.

(** [v.k]: reading a property of [undefined] or [null] throws a TypeError,
    a missing property is [undefined]. *)
Definition prop (v : Value) (k : string) : Outcome Value :=
  match v with
  | VObj o => ret (get k o)
  | VUndefined =>
      throw ("Cannot read properties of undefined (reading '" ++ k ++ "')")%string
  | VNull =>
      throw ("Cannot read properties of null (reading '" ++ k ++ "')")%string
  | _ => ret VUndefined
  end.

(** [v.isValid] and [v.details] of a result that is known to be an object. *)
Definition isValid (o : Obj) : bool := truthy (get "isValid" o).

Definition details (o : Obj) : Obj :=
  match get "details" o with
  | VObj d => d
  | _ => []
  end.

(** [list.includes(s)] on an array of strings. *)
Definition includes (l : list string) (s : string) : bool :=
  existsb (String.eqb s) l.

(** [s.includes(sub)] on strings. *)
Fixpoint str_includes (sub s : string) : bool :=
  String.prefix sub s ||
  match s with
  | EmptyString => false
  | String _ s' => str_includes sub s'
  end.

(** What the host provides and the embedding leaves open: the text of a
    Number ([toFixed], template interpolation), of a BigInt amount
    ([ethers.formatUnits]), of a date ([toISOString]) and [Math.sqrt]. *)
Class Runtime := {
  toFixed : nat -> Q -> string;
  numberToString : Q -> string;
  formatUnits : Z -> nat -> string;
  toISOString : Q -> string;
  Math_sqrt : Q -> Q
}.

(** A Number that may be [NaN], as a value and as text: [NaN.toFixed(d)]
    is ["NaN"]. *)
Definition numberValue (x : Js.Number) : Value :=
  match x with
  | Js.Fin q => VNum q
  | Js.NaN => VNaN
  end.

Definition toFixedNumber {rt : Runtime} (d : nat) (x : Js.Number) : string :=
  match x with
  | Js.Fin q => toFixed d q
  | Js.NaN => "NaN"%string
  end.

(** [x.toString()] of a Number: plain decimal text, or exponent notation
    from [1e21] on and below [1e-6]. *)
Inductive NumberText :=
| Plain (q : Q)
| Exponent (q : Q).

Definition toText (x : Q) : NumberText :=
  if Js.ge (Qabs x) 1000000000000000000000
     || (negb (Qeq_bool x 0) && Js.lt (Qabs x) (1 # 1000000))
  then Exponent x
  else Plain x.

(** The decimal digits of [|z|]. *)
Definition digits (z : Z) : string :=
  DecimalString.NilZero.string_of_uint (N.to_uint (Z.to_N (Z.abs z))).

(** [s] padded with zeros on the left to [n] characters. *)
Fixpoint pad_left (n : nat) (s : string) : string :=
  match n with
  | O => s
  | S n' => if (String.length s <? n)%nat then pad_left n' ("0" ++ s)%string else s
  end.

(** [q] with [d] decimals, rounded half away from zero. *)
Definition fixed (d : nat) (q : Q) : string :=
  let scaled := Qfloor (Qabs q * inject_Z (10 ^ Z.of_nat d) + (1 # 2)) in
  let whole := (scaled / 10 ^ Z.of_nat d)%Z in
  let frac := (scaled mod 10 ^ Z.of_nat d)%Z in
  let sign := (if Js.lt q 0 && negb (scaled =? 0)%Z then "-" else "")%string in
  match d with
  | O => (sign ++ digits whole)%string
  | _ => (sign ++ digits whole ++ "." ++ pad_left d (digits frac))%string
  end.

(** A runtime to run the model with: integers print as such, other Numbers
    with six decimals, a date prints as its milliseconds, and the square
    root is taken to six decimals. *)
Definition sampleRuntime : Runtime :=
  {| toFixed := fixed;
     numberToString := fun q =>
       if Qeq_bool (inject_Z (Qfloor q)) q then fixed 0 q else fixed 6 q;
     formatUnits := fun z d => fixed d (inject_Z z / inject_Z (10 ^ Z.of_nat d));
     toISOString := fun t => fixed 0 t;
     Math_sqrt := fun q =>
       inject_Z (Z.sqrt (Qfloor (q * 1000000000000))) / 1000000 |}.

End JsObject.

(** ** The circuit breaker (src/risk/CircuitBreakerManager.js) *)

Module CircuitBreakerManager.
Import JsObject.

Record Config := {
  enabled : bool;
  maxConsecutiveFailures : Z;
  maxDailyLoss : Z;                (* wei, a BigInt *)
  cooldownPeriodMinutes : Q;
  priceDeviationPercent : Q;
  liquidityThresholdPercent : Q
}.

Record Execution := {
  ex_timestamp : Q;
  ex_profit : Z;
  ex_gasUsed : Z;
  ex_netProfit : Z;
  ex_tokens : string * string
}.

(** The [details] object handed to [tripCircuitBreaker] by each caller. *)
Inductive BreachDetails :=
| MaxFailures (consecutiveFailures threshold : Z) (recentExecutions : list Execution)
| DailyLoss (dailyLoss threshold : Z) (executionCount : nat)
| PriceDeviation (deviationPercent threshold : Q)
| LowLiquidity (availablePercent threshold : Q)
| NoDetails.

Record Breach := {
  br_timestamp : Q;
  br_reason : string;
  br_details : BreachDetails;
  br_cooldownUntil : Q
}.

Record State := {
  active : bool;
  consecutiveFailures : Z;
  dailyLoss : Z;
  lastResetTime : Q;
  cooldownUntil : Q;
  executionHistory : list Execution;
  breaches : list Breach
}.

(** What [MonitoringService.logCircuitBreaker] was sent. *)
Inductive Report :=
| Tripped (reason : string) (b : Breach)
| CooldownExpired (previousBreaches : list Breach).

(** The singleton once its constructor has assigned [this.state]: that
    state and the reports it has sent so far. *)
Record Manager := {
  state : State;
  reports : list Report
}.

Definition initialState (now : Q) : State :=
  {| active := false;
     consecutiveFailures := 0;
     dailyLoss := 0;
     lastResetTime := now;
     cooldownUntil := 0;
     executionHistory := [];
     breaches := [] |}.

(** The singleton as the constructor leaves it when it runs to its end. *)
Definition fresh (now : Q) : Manager :=
  {| state := initialState now; reports := [] |}.

(** [new CircuitBreakerManager()]: with [circuitBreakers.enabled] unset the
    constructor returns before [this.state] is assigned, and the singleton
    it leaves has no state ([None]). *)
Definition create (cfg : Config) (now : Q) : option Manager :=
  if negb (enabled cfg) then None else Some (fresh now).

(** Not guarded by [this.enabled]: on a singleton without state the first
    assignment throws a TypeError. *)
Definition resetDailyStats (now : Q) (this : option Manager) : Outcome Manager :=
  match this with
  | None => throw "Cannot set properties of undefined (setting 'lastResetTime')"
  | Some m =>
      let s := state m in
      ret {| state :=
               {| active := active s;
                  consecutiveFailures := consecutiveFailures s;
                  dailyLoss := 0;
                  lastResetTime := now;
                  cooldownUntil := cooldownUntil s;
                  executionHistory := [];
                  breaches := Js.slice_from (-10) (breaches s) |};
             reports := reports m |}
  end.

Definition isTripped (cfg : Config) (now : Q) (m : Manager) : bool * Manager :=
  if negb (enabled cfg) then (false, m)
  else
    let s := state m in
    if active s && Js.lt now (cooldownUntil s) then (true, m)
    else if active s then
      (false,
       {| state :=
            {| active := false;
               consecutiveFailures := consecutiveFailures s;
               dailyLoss := dailyLoss s;
               lastResetTime := lastResetTime s;
               cooldownUntil := cooldownUntil s;
               executionHistory := executionHistory s;
               breaches := breaches s |};
          reports := reports m ++ [CooldownExpired (breaches s)] |})
    else (false, m).

(** [Date.now()] is read twice: for [cooldownUntil], then for the breach's
    [timestamp]. *)
Definition tripCircuitBreaker (cfg : Config) (clock : Js.Clock)
    (reason : string) (details : BreachDetails) (m : Manager) : Manager :=
  if negb (enabled cfg) then m
  else
    let s := state m in
    let until := clock 0%nat + cooldownPeriodMinutes cfg * 60 * 1000 in
    let breach :=
      {| br_timestamp := clock 1%nat; br_reason := reason;
         br_details := details; br_cooldownUntil := until |} in
    {| state :=
         {| active := true;
            consecutiveFailures := consecutiveFailures s;
            dailyLoss := dailyLoss s;
            lastResetTime := lastResetTime s;
            cooldownUntil := until;
            executionHistory := executionHistory s;
            breaches := breaches s ++ [breach] |};
       reports := reports m ++ [Tripped reason breach] |}.

(** The state after the history push and the success/failure branch,
    before any trip. *)
Definition recorded (now : Q) (profit gasUsed : Z) (tokens : string * string)
    (s : State) : State :=
  let netProfit := (profit - gasUsed)%Z in
  let history :=
    executionHistory s ++
      [{| ex_timestamp := now; ex_profit := profit; ex_gasUsed := gasUsed;
          ex_netProfit := netProfit; ex_tokens := tokens |}] in
  if (netProfit >? 0)%Z then
    {| active := active s;
       consecutiveFailures := 0;
       dailyLoss := dailyLoss s;
       lastResetTime := lastResetTime s;
       cooldownUntil := cooldownUntil s;
       executionHistory := history;
       breaches := breaches s |}
  else
    let absoluteLoss := if (netProfit <? 0)%Z then (- netProfit)%Z else netProfit in
    {| active := active s;
       consecutiveFailures := consecutiveFailures s + 1;
       dailyLoss := dailyLoss s + absoluteLoss;
       lastResetTime := lastResetTime s;
       cooldownUntil := cooldownUntil s;
       executionHistory := history;
       breaches := breaches s |}.

(** The first reading of the clock stamps the history entry; a trip for
    the failure count takes the next two, and a trip for the daily loss the
    two after those it finds taken ([read]). *)
Definition recordExecution (cfg : Config) (clock : Js.Clock)
    (profit gasUsed : Z) (tokens : string * string) (m : Manager) : Manager :=
  if negb (enabled cfg) then m
  else
    let netProfit := (profit - gasUsed)%Z in
    let m1 := {| state := recorded (clock 0%nat) profit gasUsed tokens (state m);
                 reports := reports m |} in
    let m2 :=
      if (netProfit >? 0)%Z then m1
      else if (consecutiveFailures (state m1) >=? maxConsecutiveFailures cfg)%Z then
        tripCircuitBreaker cfg (Js.later 1 clock) "Max consecutive failures reached"
          (MaxFailures (consecutiveFailures (state m1)) (maxConsecutiveFailures cfg)
             (Js.slice_from (- maxConsecutiveFailures cfg)
                (executionHistory (state m1))))
          m1
      else m1 in
    let read :=
      if (netProfit >? 0)%Z then 1%nat
      else if (consecutiveFailures (state m1) >=? maxConsecutiveFailures cfg)%Z
      then 3%nat
      else 1%nat in
    if (dailyLoss (state m2) >? maxDailyLoss cfg)%Z then
      tripCircuitBreaker cfg (Js.later read clock) "Daily loss threshold exceeded"
        (DailyLoss (dailyLoss (state m2)) (maxDailyLoss cfg)
           (List.length (executionHistory (state m2))))
        m2
    else m2.

(** [priceData] and [liquidityData] may be [null]; only the fields the
    decision reads are kept. *)
Definition checkMarketConditions (cfg : Config) (clock : Js.Clock)
    (deviationPercent availablePercent : option Q) (m : Manager)
  : bool * Manager :=
  if negb (enabled cfg) || active (state m) then (true, m)
  else
    match deviationPercent with
    | Some d =>
        if Js.gt d (priceDeviationPercent cfg) then
          (false,
           tripCircuitBreaker cfg clock "Excessive price deviation detected"
             (PriceDeviation d (priceDeviationPercent cfg)) m)
        else
          match availablePercent with
          | Some a =>
              if Js.lt a (liquidityThresholdPercent cfg) then
                (false,
                 tripCircuitBreaker cfg clock "Insufficient liquidity detected"
                   (LowLiquidity a (liquidityThresholdPercent cfg)) m)
              else (true, m)
          | None => (true, m)
          end
    | None =>
        match availablePercent with
        | Some a =>
            if Js.lt a (liquidityThresholdPercent cfg) then
              (false,
               tripCircuitBreaker cfg clock "Insufficient liquidity detected"
                 (LowLiquidity a (liquidityThresholdPercent cfg)) m)
            else (true, m)
        | None => (true, m)
        end
    end.

(** The snapshot returned by [getStatus]. *)
Record Status := {
  st_enabled : bool;
  st_active : bool;
  st_consecutiveFailures : Z;
  st_dailyLoss : Z;
  st_lastResetTime : Q;
  st_cooldownUntil : option Q;
  st_executionCount : nat;
  st_recentBreaches : list Breach
}.

(** Not guarded by [this.enabled]: on a singleton without state reading
    [this.state.active] throws a TypeError. *)
Definition getStatus (cfg : Config) (this : option Manager) : Outcome Status :=
  match this with
  | None => throw "Cannot read properties of undefined (reading 'active')"
  | Some m =>
      let s := state m in
      ret {| st_enabled := enabled cfg;
             st_active := active s;
             st_consecutiveFailures := consecutiveFailures s;
             st_dailyLoss := dailyLoss s;
             st_lastResetTime := lastResetTime s;
             st_cooldownUntil :=
               if Js.gt (cooldownUntil s) 0 then Some (cooldownUntil s) else None;
             st_executionCount := List.length (executionHistory s);
             st_recentBreaches := Js.slice_from (-3) (breaches s) |}
  end.

(** One call of [recordExecution] with the clock readings it saw. *)
Record Call := {
  c_clock : Js.Clock;
  c_profit : Z;
  c_gasUsed : Z;
  c_tokens : string * string
}.

Definition record (cfg : Config) (m : Manager) (c : Call) : Manager :=
  recordExecution cfg (c_clock c) (c_profit c) (c_gasUsed c) (c_tokens c) m.

Definition recordAll (cfg : Config) (cs : list Call) (m : Manager) : Manager :=
  fold_left (record cfg) cs m.

Definition netProfit (c : Call) : Z := (c_profit c - c_gasUsed c)%Z.

(** The manager after the history push and the first [if]/[else] of
    [recordExecution], before the daily-loss check. *)
Definition afterFailureCheck (cfg : Config) (c : Call) (m : Manager) : Manager :=
  let m1 := {| state := recorded (c_clock c 0%nat) (c_profit c) (c_gasUsed c)
                          (c_tokens c) (state m);
               reports := reports m |} in
  if (netProfit c >? 0)%Z then m1
  else if (consecutiveFailures (state m1) >=? maxConsecutiveFailures cfg)%Z then
    tripCircuitBreaker cfg (Js.later 1 (c_clock c)) "Max consecutive failures reached"
      (MaxFailures (consecutiveFailures (state m1)) (maxConsecutiveFailures cfg)
         (Js.slice_from (- maxConsecutiveFailures cfg)
            (executionHistory (state m1))))
      m1
  else m1.

(** The clock readings [recordExecution] has taken when it reaches the
    daily-loss check: one, and two more if the failure count tripped. *)
Definition readAtLossCheck (cfg : Config) (c : Call) (m : Manager) : nat :=
  let m1 := {| state := recorded (c_clock c 0%nat) (c_profit c) (c_gasUsed c)
                          (c_tokens c) (state m);
               reports := reports m |} in
  if (netProfit c >? 0)%Z then 1%nat
  else if (consecutiveFailures (state m1) >=? maxConsecutiveFailures cfg)%Z
  then 3%nat
  else 1%nat.

(** Sample configuration and calls used to exercise the model. *)
Definition sampleConfig : Config :=
  {| enabled := true;
     maxConsecutiveFailures := 3;
     maxDailyLoss := 1000000000000000000;
     cooldownPeriodMinutes := 30;
     priceDeviationPercent := 10;
     liquidityThresholdPercent := 50 |}.

Definition sampleCall (now : Q) (profit gasUsed : Z) : Call :=
  {| c_clock := Js.steady now; c_profit := profit; c_gasUsed := gasUsed;
     c_tokens := ("WETH"%string, "USDC"%string) |}.

End CircuitBreakerManager.

(** ** The candidate handed to the validators *)

Record Opportunity := {
  tokenA : string;
  tokenB : string;
  tokenAAddress : string;
  tokenBAddress : string;
  amountIn : Q;
  buyDex : string;
  sellDex : string;
  spreadPercentage : Js.Number;
  profitUsd : Q
}.

(** ** Price plausibility (src/utils/PriceValidator.js) *)

Module PriceValidator.
Import JsObject.

Record State := {
  marketPrices : list (string * Q);
  lastMarketPriceUpdate : Q
}.

Definition priceUpdateInterval : Q := 60000.

Definition create : State :=
  {| marketPrices := []; lastMarketPriceUpdate := 0 |}.

Definition stablecoins : list string :=
  ["USDC"; "USDT"; "DAI"; "BUSD"; "TUSD"; "FRAX"]%string.
Definition mainstream : list string :=
  ["WETH"; "WBTC"; "WBNB"; "MATIC"]%string.
Definition defi : list string :=
  ["AAVE"; "UNI"; "SUSHI"; "COMP"; "MKR"; "CRV"; "YFI"]%string.

(** The token classes the thresholds are keyed on. *)
Definition isStable (s : string) : bool := includes stablecoins s.
Definition isMainstream (s : string) : bool := includes mainstream s.
Definition isDefi (s : string) : bool := includes defi s.
(** The classes of [LiquidityValidator.validatePriceDifference]. *)
Definition isStableForDepth (s : string) : bool :=
  includes ["USDC"; "USDT"; "DAI"; "BUSD"; "TUSD"; "USDN"; "FRAX"]%string s.
Definition isMajor (s : string) : bool := includes ["WETH"; "WBTC"]%string s.

Definition getDeviationThreshold (tokenASymbol tokenBSymbol : string) : Q :=
  let threshold := 1.0 in
  if includes stablecoins tokenASymbol && includes stablecoins tokenBSymbol
  then 0.2
  else if includes mainstream tokenASymbol && includes mainstream tokenBSymbol
  then 0.5
  else if (includes stablecoins tokenASymbol && includes mainstream tokenBSymbol)
          || (includes stablecoins tokenBSymbol && includes mainstream tokenASymbol)
  then 0.75
  else if (includes defi tokenASymbol || includes defi tokenBSymbol)
          && (includes mainstream tokenASymbol || includes mainstream tokenBSymbol)
  then 1.25
  else threshold.

Definition getRecentSpreads (pairKey : string) : list Q :=
  let defaultSpreads := [0.2; 0.3; 0.25; 0.22; 0.18; 0.26; 0.21; 0.28] in
  if str_includes "USDC" pairKey || str_includes "USDT" pairKey
     || str_includes "DAI" pairKey
  then [0.05; 0.06; 0.04; 0.07; 0.05; 0.08; 0.06; 0.05]
  else defaultSpreads.

(** [xs.reduce((a, b) => a + b, 0)] *)
Definition sum (xs : list Q) : Q := fold_left Qplus xs 0.

Definition lengthQ {A} (xs : list A) : Q := inject_Z (Z.of_nat (List.length xs)).

Section WithRuntime.
Context {rt : Runtime}.

Definition checkAgainstRecentSpreads
    (tokenA tokenB buyDex sellDex : string) (currentSpread : Js.Number) : Obj :=
  let pairKey := (tokenA ++ "-" ++ tokenB ++ "-" ++ buyDex ++ "-" ++ sellDex)%string in
  let recentSpreads := getRecentSpreads pairKey in
  let ok := [("isValid", VBool true);
             ("reason", VStr "Spread consistent with historical data")]%string in
  if (0 <? List.length recentSpreads)%nat then
    let avg := sum recentSpreads / lengthQ recentSpreads in
    let squareDiffs :=
      map (fun spread => let diff := spread - avg in diff * diff) recentSpreads in
    let avgSquareDiff := sum squareDiffs / lengthQ squareDiffs in
    let stdDev := Math_sqrt avgSquareDiff in
    let maxStdDev := 3 in
    if Js.gt_number currentSpread (avg + stdDev * maxStdDev) then
      [("isValid", VBool false);
       ("reason",
        VStr ("Spread (" ++ toFixedNumber 2 currentSpread ++ "%) is "
              ++ toFixedNumber 1
                   (Js.on_number (fun spread => (spread - avg) / stdDev) currentSpread)
              ++ " standard deviations above average ("
              ++ toFixed 2 avg ++ "%)"))]%string
    else ok
  else ok.

Definition simulatedPrices : list (string * Q) :=
  [("WETH", 2500); ("WBTC", 40000); ("USDC", 1); ("USDT", 1); ("DAI", 1);
   ("WBNB", 300); ("MATIC", 0.8); ("AAVE", 80); ("UNI", 5); ("SUSHI", 1.2);
   ("COMP", 50); ("MKR", 1200); ("CRV", 0.5); ("YFI", 8000)]%string.

Definition updateMarketPrices (now : Q) (st : State) : State :=
  {| marketPrices := simulatedPrices; lastMarketPriceUpdate := now |}.

Fixpoint lookup (k : string) (m : list (string * Q)) : option Q :=
  match m with
  | [] => None
  | (k', v) :: m' => if String.eqb k k' then Some v else lookup k m'
  end.

(** The properties every object literal inherits from [Object.prototype];
    each is a function or an object. *)
Definition inherited : list string :=
  ["constructor"; "hasOwnProperty"; "isPrototypeOf"; "propertyIsEnumerable";
   "toLocaleString"; "toString"; "valueOf"; "__proto__"; "__defineGetter__";
   "__defineSetter__"; "__lookupGetter__"; "__lookupSetter__"]%string.

(** [this.marketPrices[token]] used as a condition: a price of the table
    that is not zero, or a property the table inherits. *)
Definition hasPrice (st : State) (token : string) : bool :=
  match lookup token (marketPrices st) with
  | Some p => Js.truthy p
  | None => includes inherited token
  end.

(** [Date.now()] is read for the age of the cache, and again by
    [updateMarketPrices] when it stamps the refreshed cache. *)
Definition compareWithMarketPrices (clock : Js.Clock)
    (tokenA tokenB : string) (spreadPercentage : Js.Number) (st : State)
  : Obj * State :=
  let st1 :=
    if Js.gt (clock 0%nat - lastMarketPriceUpdate st) priceUpdateInterval
    then updateMarketPrices (clock 1%nat) st else st in
  let ok := [("isValid", VBool true);
             ("reason", VStr "Spread consistent with market prices")]%string in
  if hasPrice st1 tokenA && hasPrice st1 tokenB then
    let maxMarketDeviation := 2.0 in
    if Js.gt_number spreadPercentage maxMarketDeviation then
      ([("isValid", VBool false);
        ("reason",
         VStr ("Spread (" ++ toFixedNumber 2 spreadPercentage
               ++ "%) exceeds maximum market deviation ("
               ++ numberToString maxMarketDeviation ++ "%)"))]%string, st1)
    else (ok, st1)
  else (ok, st1).

Definition checkForAttackPatterns (opportunity : Opportunity) : Obj :=
  let highSpreadThreshold := 5.0 in
  let largeAmountThreshold := 10000 in
  if Js.gt_number (spreadPercentage opportunity) highSpreadThreshold
     && Js.gt (amountIn opportunity) largeAmountThreshold
  then
    [("isValid", VBool false);
     ("reason",
      VStr ("Suspiciously high spread ("
            ++ toFixedNumber 2 (spreadPercentage opportunity)
            ++ "%) with large amount (" ++ numberToString (amountIn opportunity)
            ++ ")"))]%string
  else
    [("isValid", VBool true);
     ("reason", VStr "No suspicious attack patterns detected")]%string.

Definition validatePriceDifference (clock : Js.Clock) (opportunity : Opportunity)
    (st : State) : Obj * State :=
  let threshold := getDeviationThreshold (tokenA opportunity) (tokenB opportunity) in
  let spread := spreadPercentage opportunity in
  if Js.gt_number spread threshold then
    let recentSpreadsCheck :=
      checkAgainstRecentSpreads (tokenA opportunity) (tokenB opportunity)
        (buyDex opportunity) (sellDex opportunity) spread in
    if negb (isValid recentSpreadsCheck) then (recentSpreadsCheck, st)
    else
      let (marketPriceCheck, st1) :=
        compareWithMarketPrices clock (tokenA opportunity) (tokenB opportunity)
          spread st in
      if negb (isValid marketPriceCheck) then (marketPriceCheck, st1)
      else
        let attackPatternCheck := checkForAttackPatterns opportunity in
        if negb (isValid attackPatternCheck) then (attackPatternCheck, st1)
        else
          ([("isValid", VBool true);
            ("reason",
             VStr ("High spread (" ++ toFixedNumber 2 spread
                   ++ "%) but validated against market data"));
            ("warning",
             VStr ("Spread exceeds normal threshold (" ++ numberToString threshold
                   ++ "%) - proceed with caution"))]%string, st1)
  else
    ([("isValid", VBool true);
      ("reason",
       VStr ("Spread (" ++ toFixedNumber 2 spread
             ++ "%) within acceptable threshold ("
             ++ numberToString threshold ++ "%)"))]%string, st).

Definition validateOpportunity (clock : Js.Clock) (opportunity : Opportunity)
    (st : State) : Obj * State :=
  let (priceCheck, st1) := validatePriceDifference clock opportunity st in
  if negb (isValid priceCheck) then
    ([("isValid", VBool false);
      ("details", VObj [("reason", get "reason" priceCheck);
                        ("check", VStr "price_difference")])]%string, st1)
  else
    ([("isValid", VBool true);
      ("details",
       VObj [("threshold",
              VNum (getDeviationThreshold (tokenA opportunity) (tokenB opportunity)));
             ("spreadPercentage", numberValue (spreadPercentage opportunity));
             ("warning",
              if truthy (get "warning" priceCheck)
              then get "warning" priceCheck else VNull)])]%string, st1).

End WithRuntime.

End PriceValidator.

(** ** Liquidity depth (src/utils/LiquidityValidator.js) *)

Module LiquidityValidator.
Import JsObject.

Record TokenInfo := {
  symbol : string;
  address : string;
  decimals : nat
}.

Record Config := {
  tokens : list TokenInfo;
  slippageTolerance : option Q;
  minProfitUsd : option Q
}.

(** The [options] argument of [checkDexLiquidity]. *)
Record Options := {
  maxReserveRatio : option Q;
  maxPriceImpact : option Q;
  slippageCheck : bool;
  opt_slippageTolerance : option Q
}.

Definition noOptions : Options :=
  {| maxReserveRatio := None; maxPriceImpact := None;
     slippageCheck := false; opt_slippageTolerance := None |}.

(** What [getDexReserves] answers: [{success: false, error}] or the pool's
    reserves; [expectedOutput] is only set for Uniswap V3. *)
Inductive Reserves :=
| Unavailable (error : string)
| Available (reserveIn reserveOut swapRate : Z) (expectedOutput : option Z).

Notation "x <- c ;; k" := (bind c (fun x => k))
  (at level 61, c at next level, right associativity).

(** [expectedOutput] and [priceImpact] of the constant-product branch. *)
Definition constantProductQuote (reserveIn reserveOut amountIn : Z)
  : Outcome (Z * Q) :=
  let amountInWithFee := (amountIn * 997)%Z in
  let numerator := (amountInWithFee * reserveOut)%Z in
  let denominator := (reserveIn * 1000 + amountInWithFee)%Z in
  expectedOutput <- bigint_div numerator denominator ;;
  spotPrice <- bigint_div (reserveOut * 10000) reserveIn ;;
  executionPrice <- bigint_div (expectedOutput * 10000) amountIn ;;
  impact <- bigint_div ((spotPrice - executionPrice) * 10000) spotPrice ;;
  ret (expectedOutput, inject_Z impact / 100).

(** The Uniswap V3 branch, which takes [reserves.expectedOutput]. *)
Definition concentratedQuote (reserveIn reserveOut amountIn : Z)
    (quoted : option Z) : Outcome (Z * Q) :=
  expectedOutput <-
    match quoted with
    | Some e => ret e
    | None => throw "Cannot mix BigInt and other types, use explicit conversions"
    end ;;
  spotPrice <- bigint_div (reserveOut * 10000) reserveIn ;;
  executionPrice <- bigint_div (expectedOutput * 10000) amountIn ;;
  impact <- bigint_div ((spotPrice - executionPrice) * 10000) spotPrice ;;
  ret (expectedOutput, inject_Z impact / 100).

(** [Number(amountIn * 10000n / reserves.reserveIn) / 100] *)
Definition reserveRatioOf (reserveIn amountIn : Z) : Outcome Q :=
  q <- bigint_div (amountIn * 10000) reserveIn ;;
  ret (inject_Z q / 100).

Section WithPool.
Context {rt : Runtime}.
Variable config : Config.
(** The on-chain reads of [getDexReserves]. *)
Variable getDexReserves : string -> TokenInfo -> TokenInfo -> Reserves.

Definition checkDexLiquidity (dexName : string) (tokenIn tokenOut : TokenInfo)
    (amountIn : Z) (options : Options) : Obj :=
  try_catch
    (match getDexReserves dexName tokenIn tokenOut with
     | Unavailable error =>
         ret [("isValid", VBool false); ("reason", VStr error)]%string
     | Available reserveIn reserveOut swapRate quoted =>
         reserveRatio <- reserveRatioOf reserveIn amountIn ;;
         let MAX_RESERVE_RATIO := Js.or_default (maxReserveRatio options) 5 in
         if Js.gt reserveRatio MAX_RESERVE_RATIO then
           ret [("isValid", VBool false);
                ("reason",
                 VStr ("Trade size (" ++ toFixed 2 reserveRatio
                       ++ "%) exceeds maximum safe ratio ("
                       ++ numberToString MAX_RESERVE_RATIO ++ "%)"));
                ("reserveRatio", VNum reserveRatio)]%string
         else
           quote <-
             (if String.eqb dexName "Uniswap V3"
              then concentratedQuote reserveIn reserveOut amountIn quoted
              else constantProductQuote reserveIn reserveOut amountIn) ;;
           let expectedOutput := fst quote in
           let priceImpact := snd quote in
           let tolerance :=
             Js.or_default (opt_slippageTolerance options)
               (Js.or_default (slippageTolerance config) 0.5) in
           let minAcceptableOutput :=
             Z.quot (amountIn * swapRate * (100 - Qfloor (tolerance * 100))) 10000 in
           if slippageCheck options && (expectedOutput <? minAcceptableOutput)%Z then
             ret [("isValid", VBool false);
                  ("reason",
                   VStr ("High slippage detected: expected "
                         ++ formatUnits expectedOutput (decimals tokenOut)
                         ++ ", min acceptable: "
                         ++ formatUnits minAcceptableOutput (decimals tokenOut)));
                  ("expectedOutput", VBigInt expectedOutput);
                  ("minAcceptableOutput", VBigInt minAcceptableOutput);
                  ("slippage", VNum tolerance)]%string
           else
             let MAX_PRICE_IMPACT := Js.or_default (maxPriceImpact options) 3 in
             if Js.gt priceImpact MAX_PRICE_IMPACT then
               ret [("isValid", VBool false);
                    ("reason",
                     VStr ("Price impact too high: " ++ toFixed 2 priceImpact
                           ++ "% > " ++ numberToString MAX_PRICE_IMPACT ++ "%"));
                    ("priceImpact", VNum priceImpact)]%string
             else
               ret [("isValid", VBool true);
                    ("expectedOutput", VBigInt expectedOutput);
                    ("reserveIn", VBigInt reserveIn);
                    ("reserveOut", VBigInt reserveOut);
                    ("reserveRatio", VNum reserveRatio);
                    ("priceImpact", VNum priceImpact)]%string
     end)
    (fun error =>
       [("isValid", VBool false);
        ("reason", VStr ("Error checking DEX liquidity: " ++ message error))]%string).

End WithPool.

(** The token-class ceiling computed inside [validatePriceDifference]. *)
Definition maxAllowedDeviation (tokenA tokenB : TokenInfo) : Q :=
  let stablecoins := ["USDC"; "USDT"; "DAI"; "BUSD"; "TUSD"; "USDN"; "FRAX"]%string in
  let isStablePair :=
    includes stablecoins (symbol tokenA) && includes stablecoins (symbol tokenB) in
  if isStablePair then 0.25
  else if includes ["WETH"; "WBTC"]%string (symbol tokenA)
          || includes ["WETH"; "WBTC"]%string (symbol tokenB)
  then 0.75
  else 1.5.

Section WithRuntime.
Context {rt : Runtime}.

(** Not guarded by a [try] of its own: a zero [amountIn] or [buyAmount]
    throws to the caller. *)
Definition validatePriceDifference (tokenA tokenB : TokenInfo)
    (amountIn buyAmount sellAmount : Z) : Outcome Obj :=
  b <- bigint_div (buyAmount * 10000) amountIn ;;
  s <- bigint_div (sellAmount * 10000) buyAmount ;;
  let buyRate := inject_Z b / 10000 in
  let sellRate := inject_Z s / 10000 in
  let deviation := Qabs ((sellRate * buyRate - 1) * 100) in
  let limit := maxAllowedDeviation tokenA tokenB in
  if Js.gt deviation limit then
    ret [("isValid", VBool false);
         ("reason",
          VStr ("Price deviation (" ++ toFixed 2 deviation
                ++ "%) exceeds maximum allowed (" ++ numberToString limit
                ++ "%) for this token pair"));
         ("deviation", VNum deviation)]%string
  else
    ret [("isValid", VBool true); ("deviation", VNum deviation)]%string.

End WithRuntime.

(** A pool and tokens to run the model with. *)
Definition samplePool : string -> TokenInfo -> TokenInfo -> Reserves :=
  fun _ _ _ =>
    Available 1000000000000000000000000 1000000000000000000000000 10000 None.

Definition sampleToken (s : string) : TokenInfo :=
  {| symbol := s; address := ""; decimals := 18 |}.

Definition sampleConfig : Config :=
  {| tokens := [sampleToken "WETH"; sampleToken "DAI"];
     slippageTolerance := None; minProfitUsd := None |}.

End LiquidityValidator.

(** ** Calls that leave the orchestrator *)

Module Effects.
Import JsObject.

(** The collaborators an orchestrator reaches out to. *)
Inductive Component :=
| Provider          (* provider.getFeeData() *)
| LiquidityCheck    (* the liquidity validator *)
| PriceCheck        (* the price validator *)
| PriceFeed         (* a token price lookup *)
| Settings          (* a configuration read *)
| Breaker.          (* CircuitBreakerManager.isTripped() *)

Inductive Event :=
| Called (c : Component)
| Threw (c : Component) (e : Error)
| Emitted (event : string) (payload : Value).

(** The result of running a computation: what it returned or threw, the
    world it left and the calls it made, oldest first. *)
Record Run (W A : Type) := {
  outcome : Outcome A;
  world : W;
  trace : list Event
}.

Arguments outcome {W A}.
Arguments world {W A}.
Arguments trace {W A}.

Definition M (W A : Type) : Type := W -> list Event -> Run W A.

Definition mret {W A} (a : A) : M W A :=
  fun w tr => {| outcome := inr a; world := w; trace := tr |}.

Definition mthrow {W A} (e : Error) : M W A :=
  fun w tr => {| outcome := inl e; world := w; trace := tr |}.

Definition mbind {W A B} (c : M W A) (k : A -> M W B) : M W B :=
  fun w tr =>
    let r := c w tr in
    match outcome r with
    | inl e => {| outcome := inl e; world := world r; trace := trace r |}
    | inr a => k a (world r) (trace r)
    end.

(** [try { c } catch (error) { h error }]: the world and the trace keep what
    [c] did before it threw. *)
Definition mtry {W A} (c : M W A) (h : Error -> M W A) : M W A :=
  fun w tr =>
    let r := c w tr in
    match outcome r with
    | inl e => h e (world r) (trace r)
    | inr a => r
    end.

(** A pure computation that may throw. *)
Definition lift {W A} (c : Outcome A) : M W A :=
  fun w tr => {| outcome := c; world := w; trace := tr |}.

(** A call to collaborator [c], recorded with its exception if it throws. *)
Definition call {W A} (c : Component) (f : W -> Outcome A * W) : M W A :=
  fun w tr =>
    let (r, w') := f w in
    match r with
    | inl e => {| outcome := inl e; world := w'; trace := tr ++ [Called c; Threw c e] |}
    | inr a => {| outcome := inr a; world := w'; trace := tr ++ [Called c] |}
    end.

(** [this.emit(event, data)]: listener errors are swallowed by [emit]. *)
Definition emit {W} (event : string) (payload : Value) : M W unit :=
  fun w tr => {| outcome := inr tt; world := w; trace := tr ++ [Emitted event payload] |}.

Definition run {W A} (c : M W A) (w : W) : Run W A := c w [].

Definition evaluated {W A} (c : Component) (r : Run W A) : Prop :=
  In (Called c) (trace r).

Definition Component_eqb (a b : Component) : bool :=
  match a, b with
  | Provider, Provider | LiquidityCheck, LiquidityCheck
  | PriceCheck, PriceCheck | PriceFeed, PriceFeed
  | Settings, Settings | Breaker, Breaker => true
  | _, _ => false
  end.

(** Whether every call of [c2] in [tr] comes after a call of [c1]; [seen]
    says that [c1] was called before [tr] began. *)
Fixpoint ordered (c1 c2 : Component) (seen : bool) (tr : list Event) : bool :=
  match tr with
  | [] => true
  | Called c :: tr' =>
      (if Component_eqb c c2 then seen else true)
      && ordered c1 c2 (seen || Component_eqb c c1) tr'
  | _ :: tr' => ordered c1 c2 seen tr'
  end.

(** Every call of [c2] has a call of [c1] before it. *)
Definition preceded_by (c1 c2 : Component) (tr : list Event) : Prop :=
  forall pre post, tr = pre ++ Called c2 :: post -> In (Called c1) pre.

(** Properties of a computation's own events and outcome, whatever world
    and trace it starts from. *)
Definition spec {W A} (Q : list Event -> Outcome A -> Prop) (m : M W A) : Prop :=
  forall w tr, exists ev, trace (m w tr) = tr ++ ev /\ Q ev (outcome (m w tr)).

(** The sub-validators an orchestrator delegates to. *)
Definition isSubValidator (c : Component) : bool :=
  match c with
  | LiquidityCheck | PriceCheck => true
  | _ => false
  end.

(** The trace only grows. *)
Definition extends {W A} (m : M W A) : Prop :=
  spec (fun _ _ => True) m.

(** No sub-validator threw. *)
Definition quiet {W A} (m : M W A) : Prop :=
  spec (fun ev _ => forall c e, In (Threw c e) ev -> isSubValidator c = false) m.

(** [m] returns, and no sub-validator threw. *)
Definition total_quiet {W A} (m : M W A) : Prop :=
  spec (fun ev o => (exists a, o = inr a) /\
                    forall c e, In (Threw c e) ev -> isSubValidator c = false) m.

(** [m] returns [v] and nothing threw. *)
Definition returns {W A} (v : A) (m : M W A) : Prop :=
  spec (fun ev o => o = inr v /\ forall c e, ~ In (Threw c e) ev) m.

(** An exception of a sub-validator is the exception [m] ends with. *)
Definition faithful {W A} (m : M W A) : Prop :=
  spec (fun ev o => forall c e, In (Threw c e) ev -> isSubValidator c = true ->
                                o = inl e) m.

(** [m] returns, and an exception of a sub-validator is returned as [f e]. *)
Definition converted {W A} (f : Error -> A) (m : M W A) : Prop :=
  spec (fun ev o => (exists v, o = inr v) /\
                    forall c e, In (Threw c e) ev -> isSubValidator c = true ->
                                o = inr (f e)) m.

(** Among [m]'s own events no call of [c2] comes before a call of [c1]. *)
Definition safe {W A} (c1 c2 : Component) (m : M W A) : Prop :=
  spec (fun ev _ => ordered c1 c2 false ev = true) m.

End Effects.

(** ** The base orchestrator (src/utils/ValidationManager.js) *)

Module ValidationManager.
Import JsObject Effects.
Import LiquidityValidator (TokenInfo, symbol, address, decimals).

Notation "x <- c ;; k" := (mbind c (fun x => k))
  (at level 61, c at next level, right associativity).

Record Config := {
  cfg_maxGasPrice : option Q;
  tokens : list TokenInfo;
  aaveFee : option Q;            (* flashLoanProviders.aave.fee *)
  minProfitUsd : option Q;
  simulateBeforeExecution : bool
}.

Record Instance := {
  config : Config;
  marketVolatility : string;
  riskTolerance : string;
  maxGasPrice : Q;
  minProfitMultiplier : Q
}.

Definition create (cfg : Config) : Instance :=
  {| config := cfg;
     marketVolatility := "normal";
     riskTolerance := "medium";
     maxGasPrice := Js.or_default (cfg_maxGasPrice cfg) 100;
     minProfitMultiplier := 2.0 |}.

Definition setMarketConditions (volatility risk : string) (this : Instance)
  : Instance :=
  {| config := config this;
     marketVolatility := volatility;
     riskTolerance := risk;
     maxGasPrice := maxGasPrice this;
     minProfitMultiplier :=
       if String.eqb volatility "high" then 3.0
       else if String.eqb volatility "low" then 1.5
       else 2.0 |}.

(** [ethers.parseUnits(text, decimals)]: the amount in smallest units.
    Text in exponent notation is refused, and so are more than 80 decimals,
    an amount with more decimals than [decimals] and a result outside 512
    signed bits; of each error the message is given without the details
    ethers appends to it. *)
Definition parseUnits (text : NumberText) (decimals : nat) : Outcome Z :=
  match text with
  | Exponent _ => JsObject.throw "invalid FixedNumber string value"
  | Plain amount =>
      if (80 <? decimals)%nat then
        JsObject.throw "invalid FixedNumber decimals (too large)"
      else
        let scaled := amount * inject_Z (10 ^ Z.of_nat decimals) in
        if Qeq_bool (inject_Z (Qfloor scaled)) scaled then
          let value := Qfloor scaled in
          let limit := (2 ^ 511)%Z in
          if (- limit <=? value)%Z && (value <? limit)%Z then JsObject.ret value
          else JsObject.throw "overflow"
        else JsObject.throw "too many decimals for format"
  end.

(** [Number(ethers.formatUnits(x, decimals))] *)
Definition unitsToNumber (x : Z) (decimals : nat) : Q :=
  inject_Z x / inject_Z (10 ^ Z.of_nat decimals).

Definition getTokenPriceUsd (symbol : string) : option Q :=
  let prices := [("WETH", 2500); ("WBTC", 40000); ("USDC", 1); ("USDT", 1);
                 ("DAI", 1)]%string in
  match PriceValidator.lookup symbol prices with
  | Some p => if Js.truthy p then Some p else None
  | None => None
  end.

Definition getEthPriceUsd : option Q := Some 2500.

Definition estimatedGasLimit : Z := 500000.

(** The quantities [analyzeProfitability] derives before its gates. *)
Definition flashLoanFeeUsd (this : Instance) (amount : Z) (decimals : nat)
    (tokenPriceUsd : Q) : Q :=
  let flashLoanFeePercent := Js.or_default (aaveFee (config this)) 0.09 in
  let flashLoanFee := Z.quot (amount * Qfloor (flashLoanFeePercent * 100)) 10000 in
  unitsToNumber flashLoanFee decimals * tokenPriceUsd.

Definition gasCostUsd (gasPrice : Z) (ethPriceUsd : Q) : Q :=
  let gasCostWei := (gasPrice * estimatedGasLimit)%Z in
  let gasCostEth := unitsToNumber gasCostWei 18 in
  gasCostEth * ethPriceUsd.

Definition profitToGasRatio (netProfitUsd gasCostUsd : Q) : Q :=
  if Js.gt gasCostUsd 0 then netProfitUsd / gasCostUsd else 0.

Section WithRuntime.
Context {rt : Runtime}.

Definition rejectProfitability (reason : string) : Obj :=
  [("isValid", VBool false);
   ("details", VObj [("reason", VStr reason);
                     ("check", VStr "profitability")])]%string.

(** [gasPrice] is whatever [checkGasPrice] put into its details. *)
Definition analyzeProfitability (this : Instance) (opportunity : Opportunity)
    (gasPrice : Value) : Obj :=
  try_catch
    (match find (fun t => String.eqb (symbol t) (tokenA opportunity))
             (tokens (config this)) with
     | None =>
         JsObject.ret
           (rejectProfitability ("Token info not found for " ++ tokenA opportunity))
     | Some tokenInfo =>
         JsObject.bind
           (parseUnits (toText (amountIn opportunity)) (decimals tokenInfo))
           (fun amount =>
         match getTokenPriceUsd (tokenA opportunity) with
         | None =>
             JsObject.ret
               (rejectProfitability ("Could not get price for " ++ tokenA opportunity))
         | Some tokenPriceUsd =>
             let feeUsd := flashLoanFeeUsd this amount (decimals tokenInfo) tokenPriceUsd in
             JsObject.bind
               (match gasPrice with
                | VBigInt g => JsObject.ret g
                | _ => JsObject.throw
                         "Cannot mix BigInt and other types, use explicit conversions"
                end)
               (fun g =>
             match getEthPriceUsd with
             | None => JsObject.ret (rejectProfitability "Could not get ETH price")
             | Some ethPriceUsd =>
                 let gasUsd := gasCostUsd g ethPriceUsd in
                 let netProfitUsd := profitUsd opportunity - feeUsd - gasUsd in
                 let ratio := profitToGasRatio netProfitUsd gasUsd in
                 let minProfit := Js.or_default (minProfitUsd (config this)) 10 in
                 let requiredProfitMultiplier :=
                   Js.ge ratio (minProfitMultiplier this) in
                 if Js.le netProfitUsd minProfit then
                   JsObject.ret
                     [("isValid", VBool false);
                      ("details",
                       VObj [("reason",
                              VStr ("Net profit (" ++ toFixed 2 netProfitUsd
                                    ++ " USD) below minimum threshold ("
                                    ++ numberToString minProfit ++ " USD)"));
                             ("profitUsd", VNum (profitUsd opportunity));
                             ("flashLoanFeeUsd", VNum feeUsd);
                             ("gasCostUsd", VNum gasUsd);
                             ("netProfitUsd", VNum netProfitUsd);
                             ("profitToGasRatio", VNum ratio);
                             ("check", VStr "profitability")])]%string
                 else if negb requiredProfitMultiplier then
                   JsObject.ret
                     [("isValid", VBool false);
                      ("details",
                       VObj [("reason",
                              VStr ("Profit/gas ratio (" ++ toFixed 2 ratio
                                    ++ ") below required multiplier ("
                                    ++ numberToString (minProfitMultiplier this)
                                    ++ ")"));
                             ("profitUsd", VNum (profitUsd opportunity));
                             ("flashLoanFeeUsd", VNum feeUsd);
                             ("gasCostUsd", VNum gasUsd);
                             ("netProfitUsd", VNum netProfitUsd);
                             ("profitToGasRatio", VNum ratio);
                             ("requiredMultiplier", VNum (minProfitMultiplier this));
                             ("check", VStr "profitability")])]%string
                 else
                   JsObject.ret
                     [("isValid", VBool true);
                      ("details",
                       VObj [("profitUsd", VNum (profitUsd opportunity));
                             ("flashLoanFeeUsd", VNum feeUsd);
                             ("gasCostUsd", VNum gasUsd);
                             ("netProfitUsd", VNum netProfitUsd);
                             ("profitToGasRatio", VNum ratio);
                             ("ethPriceUsd", VNum ethPriceUsd);
                             ("tokenPriceUsd", VNum tokenPriceUsd)])]%string
             end)
         end)
     end)
    (fun error =>
       rejectProfitability ("Error calculating profitability: " ++ message error)).

Definition simulateArbitrage (opportunity : Opportunity) : Obj :=
  [("isValid", VBool true);
   ("details", VObj [("simulationResult", VStr "success")])]%string.

Section WithCollaborators.
Context {W : Type}.
Variable getFeeData : W -> Outcome Z * W.
Variable liquidityValidator : Opportunity -> W -> Outcome Value * W.
Variable priceValidator : Opportunity -> W -> Outcome Value * W.

Definition checkGasPrice (this : Instance) : M W Obj :=
  mtry
    (gasPrice <- call Provider getFeeData ;;
     let gasPriceGwei := unitsToNumber gasPrice 9 in
     if Js.gt gasPriceGwei (maxGasPrice this) then
       mret [("isValid", VBool false);
             ("details",
              VObj [("reason",
                     VStr ("Gas price too high: " ++ toFixed 2 gasPriceGwei
                           ++ " gwei > " ++ numberToString (maxGasPrice this)
                           ++ " gwei"));
                    ("gasPrice", VBigInt gasPrice);
                    ("gasPriceGwei", VNum gasPriceGwei);
                    ("maxGasPrice", VNum (maxGasPrice this));
                    ("check", VStr "gas_price")])]%string
     else
       mret [("isValid", VBool true);
             ("details", VObj [("gasPrice", VBigInt gasPrice);
                               ("gasPriceGwei", VNum gasPriceGwei)])]%string)
    (fun error =>
       mret [("isValid", VBool false);
             ("details",
              VObj [("reason", VStr ("Error checking gas price: " ++ message error));
                    ("check", VStr "gas_price")])]%string).

(** [cond ? [v] : []] *)
Definition optional (v : Value) : list Value :=
  if truthy v then [v] else [].

Definition errorResult (error : Error) : Value :=
  VObj [("isValid", VBool false);
        ("details",
         VObj [("reason", VStr ("Validation error: " ++ message error));
               ("error", VObj [("message", VStr (message error))])])]%string.

Definition validateOpportunity (this : Instance) (opportunity : Opportunity)
  : M W Value :=
  mtry
    (gasPriceCheck <- checkGasPrice this ;;
     if negb (isValid gasPriceCheck) then mret (VObj gasPriceCheck)
     else
       liquidityCheck <- call LiquidityCheck (liquidityValidator opportunity) ;;
       liquidityValid <- lift (prop liquidityCheck "isValid") ;;
       if negb (truthy liquidityValid) then mret liquidityCheck
       else
         priceCheck <- call PriceCheck (priceValidator opportunity) ;;
         priceValid <- lift (prop priceCheck "isValid") ;;
         if negb (truthy priceValid) then mret priceCheck
         else
           let profitabilityCheck :=
             analyzeProfitability this opportunity
               (get "gasPrice" (details gasPriceCheck)) in
           if negb (isValid profitabilityCheck) then mret (VObj profitabilityCheck)
           else
             let simulationCheck := simulateArbitrage opportunity in
             if simulateBeforeExecution (config this)
                && negb (isValid simulationCheck)
             then mret (VObj simulationCheck)
             else
               let d := details profitabilityCheck in
               priceDetails <- lift (prop priceCheck "details") ;;
               priceWarning <- lift (prop priceDetails "warning") ;;
               liquidityDetails <- lift (prop liquidityCheck "details") ;;
               liquidityWarning <- lift (prop liquidityDetails "warning") ;;
               mret (VObj
                       [("isValid", VBool true);
                        ("details",
                         VObj [("profitUsd", get "netProfitUsd" d);
                               ("gasCostUsd", get "gasCostUsd" d);
                               ("flashLoanFeeUsd", get "flashLoanFeeUsd" d);
                               ("netProfitUsd", get "netProfitUsd" d);
                               ("profitToGasRatio", get "profitToGasRatio" d);
                               ("warnings",
                                VArr (optional priceWarning
                                      ++ optional liquidityWarning))])]%string))
    (fun error => mret (errorResult error)).

End WithCollaborators.
End WithRuntime.

(** An instance and a candidate to run the model with. *)
Definition sampleInstance : Instance :=
  create {| cfg_maxGasPrice := None;
            tokens := [{| symbol := "WETH"; address := "0xC02a"; decimals := 18 |};
                       {| symbol := "USDC"; address := "0xA0b8"; decimals := 6 |}];
            aaveFee := None;
            minProfitUsd := None;
            simulateBeforeExecution := true |}.

Definition sampleOpportunity : Opportunity :=
  {| tokenA := "WETH"; tokenB := "USDC";
     tokenAAddress := "0xC02a"; tokenBAddress := "0xA0b8";
     amountIn := 1; buyDex := "Uniswap V3"; sellDex := "SushiSwap";
     spreadPercentage := Js.Fin 0.3; profitUsd := 100 |}.

(** Collaborators to run the orchestrator with: gas at [gwei] gwei, a
    liquidity validator and a price validator that answer as given. *)
Definition sampleFeeData (gwei : Z) : unit -> Outcome Z * unit :=
  fun w => (inr (gwei * 1000000000)%Z, w).

Definition answering (r : Outcome Value) : Opportunity -> unit -> Outcome Value * unit :=
  fun _ w => (r, w).

Definition accepted : Value :=
  VObj [("isValid", VBool true); ("details", VObj [])]%string.

Definition rejected (reason : string) : Value :=
  VObj [("isValid", VBool false); ("details", VObj [("reason", VStr reason)])]%string.

End ValidationManager.

(** ** The orchestrator with the circuit-breaker gate
       (src/utils/EnhancedValidationManager.js)

    The methods it calls on its validators ([validateLiquidity],
    [validatePrices], [getTokenPriceUsd], the validators' [config]) and the
    [config] package are collaborators here. *)

Module EnhancedValidationManager.
Import JsObject Effects.

Notation "x <- c ;; k" := (mbind c (fun x => k))
  (at level 61, c at next level, right associativity).

Record Instance := {
  validationEnabled : bool;
  strictMode : bool
}.

Definition create : Instance :=
  {| validationEnabled := true; strictMode := false |}.

Definition setValidationEnabled (enabled : bool) (this : Instance) : Instance :=
  {| validationEnabled := enabled; strictMode := strictMode this |}.

(** The heap the orchestrator works on: the breaker singleton and the state
    [X] of its collaborators. *)
Record World (X : Type) := {
  breaker : CircuitBreakerManager.Manager;
  ext : X
}.

Arguments breaker {X}.
Arguments ext {X}.

Definition _getDecimals (symbol : string) : nat :=
  if String.eqb symbol "WETH" then 18
  else if String.eqb symbol "WBTC" then 8
  else if includes ["USDC"; "USDT"]%string symbol then 6
  else 18.

(** The spread [...opportunity]. *)
Definition opportunityFields (o : Opportunity) : Obj :=
  [("tokenA", VStr (tokenA o)); ("tokenB", VStr (tokenB o));
   ("tokenAAddress", VStr (tokenAAddress o));
   ("tokenBAddress", VStr (tokenBAddress o));
   ("amountIn", VNum (amountIn o));
   ("buyDex", VStr (buyDex o)); ("sellDex", VStr (sellDex o));
   ("spreadPercentage", numberValue (spreadPercentage o));
   ("profitUsd", VNum (profitUsd o))]%string.

Section WithRuntime.
Context {rt : Runtime}.

Definition executionValue (e : CircuitBreakerManager.Execution) : Value :=
  VObj [("timestamp", VNum (CircuitBreakerManager.ex_timestamp e));
        ("profit", VBigInt (CircuitBreakerManager.ex_profit e));
        ("gasUsed", VBigInt (CircuitBreakerManager.ex_gasUsed e));
        ("netProfit", VBigInt (CircuitBreakerManager.ex_netProfit e));
        ("tokens",
         VObj [("token0Symbol", VStr (fst (CircuitBreakerManager.ex_tokens e)));
               ("token1Symbol", VStr (snd (CircuitBreakerManager.ex_tokens e)))])]%string.

Definition breachDetailsValue (d : CircuitBreakerManager.BreachDetails) : Value :=
  match d with
  | CircuitBreakerManager.MaxFailures n threshold recent =>
      VObj [("consecutiveFailures", VNum (inject_Z n));
            ("threshold", VNum (inject_Z threshold));
            ("recentExecutions", VArr (map executionValue recent))]%string
  | CircuitBreakerManager.DailyLoss loss threshold count =>
      VObj [("dailyLoss", VStr (formatUnits loss 18));
            ("threshold", VStr (formatUnits threshold 18));
            ("executionCount", VNum (inject_Z (Z.of_nat count)))]%string
  | CircuitBreakerManager.PriceDeviation deviation threshold =>
      VObj [("deviationPercent", VNum deviation); ("threshold", VNum threshold)]%string
  | CircuitBreakerManager.LowLiquidity available threshold =>
      VObj [("availablePercent", VNum available); ("threshold", VNum threshold)]%string
  | CircuitBreakerManager.NoDetails => VObj []
  end.

Definition breachValue (b : CircuitBreakerManager.Breach) : Value :=
  VObj [("timestamp", VNum (CircuitBreakerManager.br_timestamp b));
        ("reason", VStr (CircuitBreakerManager.br_reason b));
        ("details", breachDetailsValue (CircuitBreakerManager.br_details b));
        ("cooldownUntil", VNum (CircuitBreakerManager.br_cooldownUntil b))]%string.

(** [CircuitBreakerManager.getStatus()] as the object it is. *)
Definition statusValue (s : CircuitBreakerManager.Status) : Value :=
  VObj [("enabled", VBool (CircuitBreakerManager.st_enabled s));
        ("active", VBool (CircuitBreakerManager.st_active s));
        ("consecutiveFailures",
         VNum (inject_Z (CircuitBreakerManager.st_consecutiveFailures s)));
        ("dailyLoss", VStr (formatUnits (CircuitBreakerManager.st_dailyLoss s) 18));
        ("lastResetTime", VStr (toISOString (CircuitBreakerManager.st_lastResetTime s)));
        ("cooldownUntil",
         match CircuitBreakerManager.st_cooldownUntil s with
         | Some t => VStr (toISOString t)
         | None => VNull
         end);
        ("executionCount",
         VNum (inject_Z (Z.of_nat (CircuitBreakerManager.st_executionCount s))));
        ("recentBreaches",
         VArr (map breachValue (CircuitBreakerManager.st_recentBreaches s)))]%string.

Section WithCollaborators.
Context {X : Type}.
Variable breakerConfig : CircuitBreakerManager.Config.
(** [Date.now()] as the breaker reads it during this validation. *)
Variable now : Q.
Variable validateLiquidity : string -> string -> Z -> string -> X -> Outcome Value * X.
Variable validatePrices : string -> string -> string -> string -> Q -> X -> Outcome Value * X.
Variable getFeeData : X -> Outcome Z * X.
Variable getTokenPriceUsd : string -> X -> Outcome Q * X.
(** [config.get('validation.gas.maxGasPrice')], which throws on a missing key. *)
Variable configuredMaxGasPrice : X -> Outcome (option Q) * X.
(** [this.priceValidator.config.minProfitUsd] *)
Variable configuredMinProfitUsd : X -> Outcome Q * X.

Definition onExt {A} (f : X -> Outcome A * X) (w : World X) : Outcome A * World X :=
  let (r, x) := f (ext w) in (r, {| breaker := breaker w; ext := x |}).

Definition isTripped (w : World X) : Outcome bool * World X :=
  let (r, m) := CircuitBreakerManager.isTripped breakerConfig now (breaker w) in
  (inr r, {| breaker := m; ext := ext w |}).

(** Reading the breaker's status changes nothing. *)
Definition getStatus : M (World X) Value :=
  fun w tr =>
    {| outcome :=
         JsObject.bind
           (CircuitBreakerManager.getStatus breakerConfig (Some (breaker w)))
           (fun status => JsObject.ret (statusValue status));
       world := w; trace := tr |}.

Definition _validateGasCosts (opportunity : Opportunity) : M (World X) Obj :=
  mtry
    (gasPrice <- call Provider (onExt getFeeData) ;;
     let gasPriceGwei := ValidationManager.unitsToNumber gasPrice 9 in
     configured <- call Settings (onExt configuredMaxGasPrice) ;;
     let maxGasPrice := Js.or_default configured 100 in
     if Js.gt gasPriceGwei maxGasPrice then
       mret [("isValid", VBool false);
             ("details",
              VObj [("reason",
                     VStr ("Gas price too high: " ++ numberToString gasPriceGwei
                           ++ " gwei > " ++ numberToString maxGasPrice ++ " gwei"));
                    ("gasPrice", VNum gasPriceGwei);
                    ("maxGasPrice", VNum maxGasPrice)])]%string
     else
       let estimatedGasLimit := 1000000%Z in
       let gasCostWei := (gasPrice * estimatedGasLimit)%Z in
       let gasCostEth := ValidationManager.unitsToNumber gasCostWei 18 in
       ethPriceUsd <- call PriceFeed (onExt (getTokenPriceUsd "WETH")) ;;
       let gasCostUsd := gasCostEth * ethPriceUsd in
       let flashLoanFeePercent := 0.09 in
       let amountInEth :=
         amountIn opportunity *
         (if String.eqb (tokenA opportunity) "WETH" then 1
          else if String.eqb (tokenA opportunity) "WBTC" then ethPriceUsd / 20000
          else 1 / ethPriceUsd) in
       let flashLoanFeeEth := amountInEth * (flashLoanFeePercent / 100) in
       let flashLoanFeeUsd := flashLoanFeeEth * ethPriceUsd in
       let totalCostsUsd := gasCostUsd + flashLoanFeeUsd in
       let netProfitUsd := profitUsd opportunity - totalCostsUsd in
       minProfitUsd <- call Settings (onExt configuredMinProfitUsd) ;;
       if Js.le netProfitUsd minProfitUsd then
         mret [("isValid", VBool false);
               ("details",
                VObj [("reason",
                       VStr ("Not profitable after costs: $" ++ toFixed 2 netProfitUsd
                             ++ " <= $" ++ toFixed 2 minProfitUsd));
                      ("profitUsd", VNum (profitUsd opportunity));
                      ("gasCostUsd", VNum gasCostUsd);
                      ("flashLoanFeeUsd", VNum flashLoanFeeUsd);
                      ("totalCostsUsd", VNum totalCostsUsd);
                      ("netProfitUsd", VNum netProfitUsd);
                      ("minProfitUsd", VNum minProfitUsd)])]%string
       else
         mret [("isValid", VBool true);
               ("details",
                VObj [("gasPrice", VNum gasPriceGwei);
                      ("gasCostEth", VNum gasCostEth);
                      ("gasCostUsd", VNum gasCostUsd);
                      ("flashLoanFeeEth", VNum flashLoanFeeEth);
                      ("flashLoanFeeUsd", VNum flashLoanFeeUsd);
                      ("totalCostsUsd", VNum totalCostsUsd);
                      ("netProfitUsd", VNum netProfitUsd);
                      ("profitMarginPercent",
                       VNum (netProfitUsd / profitUsd opportunity * 100))])]%string)
    (fun error =>
       mret [("isValid", VBool false);
             ("details",
              VObj [("reason", VStr ("Gas validation error: " ++ message error));
                    ("error", VStr (message error))])]%string).

Definition disabledResult : Value :=
  VObj [("isValid", VBool true);
        ("details", VObj [("reason", VStr "Validation disabled")])]%string.

Definition errorResult (error : Error) : Value :=
  VObj [("isValid", VBool false);
        ("details",
         VObj [("reason", VStr ("Validation error: " ++ message error));
               ("error", VStr (message error))])]%string.

(** [opportunity.amountIn] is handed to [ethers.parseUnits] as it is: it is
    the decimal text the scanner builds its candidates with. *)
Definition validateOpportunity (this : Instance) (opportunity : Opportunity)
  : M (World X) Value :=
  if negb (validationEnabled this) then mret disabledResult
  else
    tripped <- call Breaker isTripped ;;
    if tripped : bool then
      status <- getStatus ;;
      let invalidResult :=
        VObj [("isValid", VBool false);
              ("details", VObj [("reason", VStr "Circuit breaker active");
                                ("circuitBreakerStatus", status)])]%string in
      _ <- emit "validationResult" invalidResult ;;
      mret invalidResult
    else
      mtry
        (let tokenA_ := tokenAAddress opportunity in
         let tokenB_ := tokenBAddress opportunity in
         amount <- lift (ValidationManager.parseUnits
                           (Plain (amountIn opportunity))
                           (_getDecimals (tokenA opportunity))) ;;
         liquidityValidation <-
           call LiquidityCheck
             (onExt (validateLiquidity tokenA_ tokenB_ amount (buyDex opportunity))) ;;
         _ <- emit "liquidityValidationResult" liquidityValidation ;;
         liquidityValid <- lift (prop liquidityValidation "isValid") ;;
         if negb (truthy liquidityValid) then mret liquidityValidation
         else
           priceValidation <-
             call PriceCheck
               (onExt (validatePrices (tokenA opportunity) (tokenB opportunity)
                         (buyDex opportunity) (sellDex opportunity)
                         (profitUsd opportunity))) ;;
           _ <- emit "priceValidationResult" priceValidation ;;
           priceValid <- lift (prop priceValidation "isValid") ;;
           if negb (truthy priceValid) then mret priceValidation
           else
             gasCostValidation <- _validateGasCosts opportunity ;;
             if negb (isValid gasCostValidation) then
               _ <- emit "validationResult" (VObj gasCostValidation) ;;
               mret (VObj gasCostValidation)
             else
               liquidityDetails <- lift (prop liquidityValidation "details") ;;
               priceDetails <- lift (prop priceValidation "details") ;;
               let validResult :=
                 VObj [("isValid", VBool true);
                       ("details",
                        VObj (opportunityFields opportunity ++
                              [("validatedBy",
                                VObj [("liquidity", liquidityDetails);
                                      ("price", priceDetails);
                                      ("gas", get "details" gasCostValidation)]);
                               ("netProfitUsd",
                                get "netProfitUsd" (details gasCostValidation))]))]%string in
               _ <- emit "validationResult" validResult ;;
               mret validResult)
        (fun error =>
           _ <- emit "validationResult" (errorResult error) ;;
           mret (errorResult error)).

End WithCollaborators.
End WithRuntime.

(** Collaborators to run the orchestrator with. *)
Definition sampleLiquidity (r : Outcome Value)
  : string -> string -> Z -> string -> unit -> Outcome Value * unit :=
  fun _ _ _ _ w => (r, w).

Definition samplePrices (r : Outcome Value)
  : string -> string -> string -> string -> Q -> unit -> Outcome Value * unit :=
  fun _ _ _ _ _ w => (r, w).

Definition samplePriceFeed : string -> unit -> Outcome Q * unit :=
  fun _ w => (inr 2500, w).

Definition sampleMaxGasPrice : unit -> Outcome (option Q) * unit :=
  fun w => (inr (Some 100), w).

Definition sampleMinProfitUsd : unit -> Outcome Q * unit :=
  fun w => (inr 10, w).

Definition freshWorld : World unit :=
  {| breaker := CircuitBreakerManager.fresh 0; ext := tt |}.

(** The breaker after three losing executions, in its cooldown. *)
Definition trippedWorld : World unit :=
  {| breaker :=
       CircuitBreakerManager.recordAll CircuitBreakerManager.sampleConfig
         [CircuitBreakerManager.sampleCall 1000 0 5000000000000000;
          CircuitBreakerManager.sampleCall 2000 0 5000000000000000;
          CircuitBreakerManager.sampleCall 3000 0 5000000000000000]
         (CircuitBreakerManager.fresh 0);
     ext := tt |}.

End EnhancedValidationManager.

(** ** Sequences of calls into the circuit breaker *)

Module BreakerTimeline.
Import JsObject CircuitBreakerManager.

(** One call into the singleton, with the clock readings it saw;
    [ResetDailyStats] is the midnight timer firing. *)
Inductive Op :=
| RecordExecution (c : Call)
| IsTripped (now : Q)
| CheckMarketConditions (clock : Js.Clock) (deviationPercent availablePercent : option Q)
| TripCircuitBreaker (clock : Js.Clock) (reason : string) (details : BreachDetails)
| ResetDailyStats (now : Q).

(** A call that throws leaves the singleton as it was. *)
Definition step (cfg : Config) (m : Manager) (op : Op) : Manager :=
  match op with
  | RecordExecution c => record cfg m c
  | IsTripped now => snd (isTripped cfg now m)
  | CheckMarketConditions clock d a => snd (checkMarketConditions cfg clock d a m)
  | TripCircuitBreaker clock reason details =>
      tripCircuitBreaker cfg clock reason details m
  | ResetDailyStats now => try_catch (resetDailyStats now (Some m)) (fun _ => m)
  end.

(** The singleton after the calls [ops], oldest first. *)
Definition after (cfg : Config) (ops : list Op) (m : Manager) : Manager :=
  fold_left (step cfg) ops m.

(** The calls that are guarded by [if (!this.enabled) return]. *)
Definition guarded (op : Op) : bool :=
  match op with
  | ResetDailyStats _ => false
  | _ => true
  end.

(** A clock that never runs backwards. *)
Definition monotone (clock : Js.Clock) : Prop :=
  forall i, clock i <= clock (S i).

(** A call during which the clock never runs backwards. *)
Definition orderly (op : Op) : Prop :=
  match op with
  | RecordExecution c => monotone (c_clock c)
  | CheckMarketConditions clock _ _ => monotone clock
  | TripCircuitBreaker clock _ _ => monotone clock
  | IsTripped _ | ResetDailyStats _ => True
  end.

(** What one recorded execution adds to [dailyLoss]. *)
Definition lossOf (e : Execution) : Z :=
  if (ex_netProfit e >? 0)%Z then 0%Z else Z.abs (ex_netProfit e).

Definition totalLoss (h : list Execution) : Z :=
  fold_right (fun e acc => (lossOf e + acc)%Z) 0%Z h.

(** A breach whose cooldown ends no later than one cooldown period after
    its timestamp. *)
Definition timed (cfg : Config) (b : Breach) : Prop :=
  br_cooldownUntil b <= br_timestamp b + cooldownPeriodMinutes cfg * 60 * 1000.

(** Every logged breach is [timed]. *)
Definition punctual (cfg : Config) (m : Manager) : Prop :=
  Forall (timed cfg) (breaches (state m)).

(** The ledger agrees with the history. *)
Definition balanced (m : Manager) : Prop :=
  dailyLoss (state m) = totalLoss (executionHistory (state m)).

(** The flag and the deadline agree with the breach log. *)
Definition audited (m : Manager) : Prop :=
  (active (state m) = true -> breaches (state m) <> []) /\
  (forall b, breaches (state m) <> [] ->
             cooldownUntil (state m) = br_cooldownUntil (last (breaches (state m)) b)).

End BreakerTimeline.

(** ** The breaker's event handlers (src/bot/BotMonitoringIntegration.js) *)

Module BotMonitoringIntegration.
Import JsObject.

(** The [result] of an [executionCompleted] event: [profit] is the amount
    [ethers.parseEther] reads from [result.profit], [gasCost] the one it
    reads from [result.gasCost] ([None] when that is missing or empty), and
    [tokens] is [None] when [result.tokens] is missing. *)
Record ExecutionResult := {
  success : bool;
  profit : Z;
  gasCost : option Z;
  tokens : option (string * string)
}.

(** [ethers.parseEther(result.gasCost || '0')] *)
Definition gasCostOrZero (result : ExecutionResult) : Z :=
  match gasCost result with
  | Some g => g
  | None => 0%Z
  end.

(** The [executionCompleted] handler; the monitoring reports are dropped.
    A successful result without [tokens] fails at the destructuring. *)
Definition executionCompleted (cfg : CircuitBreakerManager.Config)
    (clock : Js.Clock)
    (result : ExecutionResult) (m : CircuitBreakerManager.Manager)
  : Outcome CircuitBreakerManager.Manager :=
  if success result then
    match tokens result with
    | None =>
        throw "Cannot destructure property 'token0' of 'result.tokens' as it is undefined."
    | Some t =>
        ret (CircuitBreakerManager.recordExecution cfg clock (profit result)
               (gasCostOrZero result) t m)
    end
  else
    match tokens result with
    | Some t =>
        ret (CircuitBreakerManager.recordExecution cfg clock 0
               (gasCostOrZero result) t m)
    | None => ret m
    end.

(** What the handlers read of a [priceValidationResult] or
    [liquidityValidationResult] event: [validation.isValid] and two fields
    of [validation.details], [None] when the field is missing. *)
Record ValidationEvent := {
  ev_isValid : bool;
  ev_deviationPercent : option Q;
  ev_availablePercent : option Q
}.

(** [x > t] and [x < t] where [x] may be [undefined]. *)
Definition above (x : option Q) (t : Q) : bool :=
  match x with
  | Some q => Js.gt q t
  | None => false
  end.

Definition below (x : option Q) (t : Q) : bool :=
  match x with
  | Some q => Js.lt q t
  | None => false
  end.

(** The [priceValidationResult] handler; the answer of
    [checkMarketConditions] is not used. *)
Definition priceValidationResult (cfg : CircuitBreakerManager.Config)
    (clock : Js.Clock)
    (validation : ValidationEvent) (m : CircuitBreakerManager.Manager)
  : CircuitBreakerManager.Manager :=
  if negb (ev_isValid validation)
     && above (ev_deviationPercent validation)
          (CircuitBreakerManager.priceDeviationPercent cfg)
  then
    snd (CircuitBreakerManager.checkMarketConditions cfg clock
           (ev_deviationPercent validation) None m)
  else m.

(** The [liquidityValidationResult] handler. *)
Definition liquidityValidationResult (cfg : CircuitBreakerManager.Config)
    (clock : Js.Clock)
    (validation : ValidationEvent) (m : CircuitBreakerManager.Manager)
  : CircuitBreakerManager.Manager :=
  if negb (ev_isValid validation)
     && below (ev_availablePercent validation)
          (CircuitBreakerManager.liquidityThresholdPercent cfg)
  then
    snd (CircuitBreakerManager.checkMarketConditions cfg clock
           None (ev_availablePercent validation) m)
  else m.

End BotMonitoringIntegration.

(** ** The amounts the scanner tries (src/bot/EnhancedArbitrageBot.js) *)

Module EnhancedArbitrageBot.

(** The test amounts, as the Numbers their strings denote. *)
Definition _getTestAmounts (symbol : string) : list Q :=
  if String.eqb symbol "WETH" then [0.1; 1; 5; 10]
  else if String.eqb symbol "WBTC" then [0.01; 0.1; 0.5; 1]
  else if JsObject.includes ["USDC"; "USDT"; "DAI"]%string symbol
  then [100; 1000; 5000; 10000]
  else [10; 100; 1000].

End EnhancedArbitrageBot.

(** ** Pool reads and the liquidity verdict (src/utils/LiquidityValidator.js) *)

Module LiquidityPipeline.
Import JsObject LiquidityValidator.

(** The view functions the validator calls, on one snapshot of the chain;
    a call that reverts throws. *)
Record Chain := {
  getPair : string -> string -> Outcome string;
  getReserves : string -> Outcome (Z * Z);
  token0 : string -> Outcome string;
  getPool : string -> string -> Z -> Outcome string;
  liquidity : string -> Outcome Z;
  slot0 : string -> Outcome Z
}.

Definition ZeroAddress : string := "0x0000000000000000000000000000000000000000".

Definition lowerChar (c : ascii) : ascii :=
  let n := nat_of_ascii c in
  if ((65 <=? n) && (n <=? 90))%nat then ascii_of_nat (n + 32) else c.

Fixpoint toLowerCase (s : string) : string :=
  match s with
  | EmptyString => EmptyString
  | String c s' => String (lowerChar c) (toLowerCase s')
  end.

Definition feeTiers : list Z := [100; 500; 3000; 10000]%Z.

(** Arithmetic that mixes a BigInt with a Number or [undefined]. *)
Definition typeError {A} : Outcome A :=
  throw "Cannot mix BigInt and other types, use explicit conversions".

(** A value used as a BigInt operand. *)
Definition asBigInt (v : Value) : Outcome Z :=
  match v with
  | VBigInt z => ret z
  | _ => typeError
  end.

(** [options.gasLimit || 500000] *)
Definition gasLimitOr (gasLimit : option Z) : Z :=
  match gasLimit with
  | Some g => if (g =? 0)%Z then 500000%Z else g
  | None => 500000%Z
  end.

Section WithChain.
Context {rt : Runtime}.
Variable config : Config.
Variable chain : Chain.
(** [provider.getFeeData()]: its [gasPrice], which may be [null]. *)
Variable getFeeData : Outcome (option Z).

(** The body of the [try] of one fee tier: [bestLiquidity] as the body
    leaves it, and whether it threw.  [Number(sqrtPriceX96 * sqrtPriceX96)
    / (2n ** 192n)] divides a Number by a BigInt and throws a TypeError, so
    the assignments to [bestReserveIn], [bestReserveOut], [bestSwapRate]
    and [bestExpectedOutput] behind it are never reached. *)
Definition feeTierBody (tokenA tokenB : TokenInfo) (bestLiquidity feeTier : Z)
  : Z * Outcome unit :=
  match getPool chain (address tokenA) (address tokenB) feeTier with
  | inl e => (bestLiquidity, inl e)
  | inr poolAddress =>
      if String.eqb poolAddress ZeroAddress then (bestLiquidity, ret tt)
      else
        match liquidity chain poolAddress with
        | inl e => (bestLiquidity, inl e)
        | inr l =>
            if (l >? bestLiquidity)%Z then
              match slot0 chain poolAddress with
              | inl e => (l, inl e)
              | inr sqrtPriceX96 => (l, typeError)
              end
            else (bestLiquidity, ret tt)
        end
  end.

(** The fee-tier loop: each tier's exception is logged and dropped. *)
Definition bestLiquidity (tokenA tokenB : TokenInfo) : Z :=
  fold_left (fun best feeTier => fst (feeTierBody tokenA tokenB best feeTier))
    feeTiers 0%Z.

Definition getDexReserves (dexName : string) (tokenA tokenB : TokenInfo) : Reserves :=
  try_catch
    (if String.eqb dexName "Uniswap V3" then
       let bestReserveIn := 0%Z in
       let bestReserveOut := 0%Z in
       let bestExpectedOutput := 0%Z in
       let bestSwapRate := 0%Z in
       if (bestLiquidity tokenA tokenB =? 0)%Z then
         ret (Unavailable "No Uniswap V3 liquidity found for pair")
       else
         ret (Available bestReserveIn bestReserveOut bestSwapRate
                (Some bestExpectedOutput))
     else if String.eqb dexName "SushiSwap" then
       pairAddress <- getPair chain (address tokenA) (address tokenB) ;;
       if String.eqb pairAddress ZeroAddress then
         ret (Unavailable "No SushiSwap pair found")
       else
         reserves <- getReserves chain pairAddress ;;
         t0 <- token0 chain pairAddress ;;
         let isToken0 :=
           String.eqb (toLowerCase (address tokenA)) (toLowerCase t0) in
         let reserveIn := if isToken0 then fst reserves else snd reserves in
         let reserveOut := if isToken0 then snd reserves else fst reserves in
         swapRate <- bigint_div (reserveOut * 10000) reserveIn ;;
         ret (Available reserveIn reserveOut swapRate None)
     else ret (Unavailable ("Unsupported DEX: " ++ dexName)))
    (fun error => Unavailable ("Error getting reserves: " ++ message error)).

(** [checkDexLiquidity] on an amount read from an earlier result: anything
    but a BigInt throws inside its [try], after the reserves were read. *)
Definition checkDexLiquidityOn (dexName : string) (tokenIn tokenOut : TokenInfo)
    (amountIn : Value) (options : Options) : Obj :=
  match amountIn with
  | VBigInt a =>
      checkDexLiquidity config getDexReserves dexName tokenIn tokenOut a options
  | _ =>
      match getDexReserves dexName tokenIn tokenOut with
      | Unavailable error => [("isValid", VBool false); ("reason", VStr error)]%string
      | Available _ _ _ _ =>
          [("isValid", VBool false);
           ("reason",
            VStr ("Error checking DEX liquidity: "
                  ++ "Cannot mix BigInt and other types, use explicit conversions"))]%string
      end
  end.

Definition calculateProfitability (token : TokenInfo) (amountIn amountOut gasLimit : Z)
  : Obj :=
  try_catch
    (let profit := if (amountOut >? amountIn)%Z then (amountOut - amountIn)%Z else 0%Z in
     if (profit =? 0)%Z then
       ret [("isProfitable", VBool false);
            ("profit", VBigInt 0);
            ("profitUsd", VNum 0);
            ("reason", VStr "No profit")]%string
     else
       let flashLoanFee := Z.quot (amountIn * 9) 10000 in
       let tokenPriceUsd := 1.0 in
       let profitUsd :=
         ValidationManager.unitsToNumber profit (decimals token) * tokenPriceUsd in
       let flashLoanFeeUsd :=
         ValidationManager.unitsToNumber flashLoanFee (decimals token) * tokenPriceUsd in
       feeData <- getFeeData ;;
       gasPrice <- match feeData with Some g => ret g | None => typeError end ;;
       let gasCostWei := (gasPrice * gasLimit)%Z in
       let gasCostEth := ValidationManager.unitsToNumber gasCostWei 18 in
       let ethPriceUsd := 2000 in
       let gasCostUsd := gasCostEth * ethPriceUsd in
       let totalCostsUsd := flashLoanFeeUsd + gasCostUsd in
       let netProfitUsd := profitUsd - totalCostsUsd in
       let minProfitUsd := Js.or_default (minProfitUsd config) 10 in
       let isProfitable := Js.gt netProfitUsd minProfitUsd in
       ret [("isProfitable", VBool isProfitable);
            ("profit", VBigInt profit);
            ("profitUsd", VNum profitUsd);
            ("flashLoanFee", VBigInt flashLoanFee);
            ("flashLoanFeeUsd", VNum flashLoanFeeUsd);
            ("gasCostWei", VBigInt gasCostWei);
            ("gasCostEth", VNum gasCostEth);
            ("gasCostUsd", VNum gasCostUsd);
            ("totalCostsUsd", VNum totalCostsUsd);
            ("netProfitUsd", VNum netProfitUsd);
            ("reason",
             VStr (if isProfitable then "Profitable"
                   else "Net profit ($" ++ toFixed 2 netProfitUsd
                        ++ ") below threshold ($" ++ numberToString minProfitUsd
                        ++ ")"))]%string)
    (fun error =>
       [("isProfitable", VBool false);
        ("profit", VBigInt 0);
        ("reason",
         VStr ("Error calculating profitability: " ++ message error))]%string).

Definition invalidConfiguration : Obj :=
  [("isValid", VBool false);
   ("details", VObj [("reason", VStr "Invalid token configuration")])]%string.

(** [ethers.parseUnits] sits before the [try]: an amount it refuses is
    thrown to the caller. *)
Definition validateOpportunity (opportunity : Opportunity) (gasLimit : option Z)
  : Outcome Obj :=
  match find (fun t => String.eqb (symbol t) (tokenA opportunity)) (tokens config),
        find (fun t => String.eqb (symbol t) (tokenB opportunity)) (tokens config) with
  | Some tokenAInfo, Some tokenBInfo =>
      parsedAmountIn <-
        ValidationManager.parseUnits (toText (amountIn opportunity))
          (decimals tokenAInfo) ;;
      ret (try_catch
        (let buyLiquidity :=
           checkDexLiquidity config getDexReserves (buyDex opportunity)
             tokenAInfo tokenBInfo parsedAmountIn noOptions in
         if negb (isValid buyLiquidity) then
           ret [("isValid", VBool false);
                ("details",
                 VObj [("reason",
                        match get "reason" buyLiquidity with
                        | VStr r => VStr ("Insufficient buy-side liquidity: " ++ r)
                        | _ => VStr "Insufficient buy-side liquidity: undefined"
                        end);
                       ("dex", VStr (buyDex opportunity));
                       ("side", VStr "buy")])]%string
         else
           let expectedBuyAmount := get "expectedOutput" buyLiquidity in
           let sellLiquidity :=
             checkDexLiquidityOn (sellDex opportunity) tokenBInfo tokenAInfo
               expectedBuyAmount
               {| maxReserveRatio := None; maxPriceImpact := None;
                  slippageCheck := true; opt_slippageTolerance := None |} in
           if negb (isValid sellLiquidity) then
             ret [("isValid", VBool false);
                  ("details",
                   VObj [("reason",
                          match get "reason" sellLiquidity with
                          | VStr r => VStr ("Insufficient sell-side liquidity: " ++ r)
                          | _ => VStr "Insufficient sell-side liquidity: undefined"
                          end);
                         ("dex", VStr (sellDex opportunity));
                         ("side", VStr "sell")])]%string
           else
             buyAmount <- asBigInt expectedBuyAmount ;;
             sellAmount <- asBigInt (get "expectedOutput" sellLiquidity) ;;
             priceCheck <-
               validatePriceDifference tokenAInfo tokenBInfo parsedAmountIn
                 buyAmount sellAmount ;;
             if negb (isValid priceCheck) then
               ret [("isValid", VBool false);
                    ("details",
                     VObj [("reason",
                            match get "reason" priceCheck with
                            | VStr r => VStr ("Unrealistic price difference: " ++ r)
                            | _ => VStr "Unrealistic price difference: undefined"
                            end);
                           ("priceDeviation", get "deviation" priceCheck)])]%string
             else
               let profitability :=
                 calculateProfitability tokenAInfo parsedAmountIn sellAmount
                   (gasLimitOr gasLimit) in
               profit <- asBigInt (get "profit" profitability) ;;
               ret [("isValid", get "isProfitable" profitability);
                    ("details",
                     VObj [("buyAmount",
                            VStr (formatUnits buyAmount (decimals tokenBInfo)));
                           ("sellAmount",
                            VStr (formatUnits sellAmount (decimals tokenAInfo)));
                           ("reserveRatioBuy", get "reserveRatio" buyLiquidity);
                           ("reserveRatioSell", get "reserveRatio" sellLiquidity);
                           ("priceImpactBuy", get "priceImpact" buyLiquidity);
                           ("priceImpactSell", get "priceImpact" sellLiquidity);
                           ("profit", VStr (formatUnits profit (decimals tokenAInfo)));
                           ("profitUsd", get "profitUsd" profitability);
                           ("gasCostUsd", get "gasCostUsd" profitability);
                           ("netProfitUsd", get "netProfitUsd" profitability);
                           ("flashLoanFeeUsd", get "flashLoanFeeUsd" profitability);
                           ("isProfitable", get "isProfitable" profitability);
                           ("reason",
                            VStr (if truthy (get "isProfitable" profitability)
                                  then "Profitable"
                                  else "Not profitable after costs"))])]%string)
        (fun error =>
           [("isValid", VBool false);
            ("details",
             VObj [("reason",
                    VStr ("Error validating opportunity: " ++ message error));
                   ("error", VObj [("message", VStr (message error))])])]%string))
  | _, _ => ret invalidConfiguration
  end.

(** [ValidationManager.calculateMaxTradeSize]: two percent of the input
    reserve, [0n] on any failure. *)
Definition calculateMaxTradeSize (tokens : list TokenInfo)
    (tokenA tokenB dex : string) : Z :=
  try_catch
    (match find (fun t => String.eqb (symbol t) tokenA) tokens,
           find (fun t => String.eqb (symbol t) tokenB) tokens with
     | Some tokenAInfo, Some tokenBInfo =>
         match getDexReserves dex tokenAInfo tokenBInfo with
         | Unavailable error => throw error
         | Available reserveIn _ _ _ =>
             let safePercentage := 2%Z in
             ret (Z.quot (reserveIn * safePercentage) 100)
         end
     | _, _ => throw ("Token info not found for " ++ tokenA ++ " or " ++ tokenB)
     end)
    (fun _ => 0%Z).

End WithChain.

(** The liquidity validator as the collaborator of the base orchestrator. *)
Definition asCollaborator {rt : Runtime} {W : Type} (config : Config) (chain : Chain)
    (getFeeData : Outcome (option Z))
  : Opportunity -> W -> Outcome Value * W :=
  fun opportunity w =>
    (match validateOpportunity config chain getFeeData opportunity None with
     | inl e => inl e
     | inr o => inr (VObj o)
     end, w).

(** A chain with one SushiSwap pool of [reserve0] and [reserve1] to run the
    model with. *)
Definition sampleChain (reserve0 reserve1 : Z) : Chain :=
  {| getPair := fun _ _ => ret "0xPair"%string;
     getReserves := fun _ => ret (reserve0, reserve1);
     token0 := fun _ => ret "0xc02a"%string;
     getPool := fun _ _ _ => ret "0xPool"%string;
     liquidity := fun _ => ret 1000000%Z;
     slot0 := fun _ => ret 79228162514264337593543950336%Z |}.

Definition sampleWeth : TokenInfo :=
  {| symbol := "WETH"; address := "0xC02a"; decimals := 18 |}.

Definition sampleDai : TokenInfo :=
  {| symbol := "DAI"; address := "0x6B17"; decimals := 18 |}.

Definition sampleTokens : Config :=
  {| tokens := [sampleWeth; sampleDai];
     slippageTolerance := None; minProfitUsd := None |}.

End LiquidityPipeline.

(** * Properties *)

(** ** JavaScript comparisons *)

Module JsFacts.
Import Js.

Lemma lt_spec x y : lt x y = true <-> x < y.
Proof. unfold lt. rewrite Qlt_alt. destruct (x ?= y); intuition congruence. Qed.

Lemma lt_false x y : lt x y = false <-> y <= x.
Proof.
  split; intro H.
  - apply Qnot_lt_le. intro L. apply lt_spec in L. congruence.
  - destruct (lt x y) eqn:E; [|reflexivity].
    apply lt_spec in E. apply Qle_not_lt in H. contradiction.
Qed.

Lemma gt_spec x y : gt x y = true <-> y < x.
Proof. apply lt_spec. Qed.

Lemma gt_false x y : gt x y = false <-> x <= y.
Proof. apply lt_false. Qed.

Lemma le_spec x y : le x y = true <-> x <= y.
Proof. apply Qle_bool_iff. Qed.

Lemma le_false x y : le x y = false <-> y < x.
Proof.
  unfold le. split; intro H.
  - apply Qnot_le_lt. intro L. apply Qle_bool_iff in L. congruence.
  - destruct (Qle_bool x y) eqn:E; [|reflexivity].
    apply Qle_bool_iff in E. apply Qlt_not_le in H. contradiction.
Qed.

Lemma ge_spec x y : ge x y = true <-> y <= x.
Proof. apply le_spec. Qed.

Lemma ge_false x y : ge x y = false <-> x < y.
Proof. apply le_false. Qed.

End JsFacts.

(** ** Circuit breaker *)

Module CircuitBreakerFacts.
Import CircuitBreakerManager.

Section Enabled.
Variable cfg : Config.
Hypothesis on : enabled cfg = true.

(** *** What a trip changes *)

Lemma trip_active clock r d m :
  active (state (tripCircuitBreaker cfg clock r d m)) = true.
Proof. unfold tripCircuitBreaker. now rewrite on. Qed.

Lemma trip_cooldownUntil clock r d m :
  cooldownUntil (state (tripCircuitBreaker cfg clock r d m))
  = clock 0%nat + cooldownPeriodMinutes cfg * 60 * 1000.
Proof. unfold tripCircuitBreaker. now rewrite on. Qed.

Lemma trip_consecutiveFailures clock r d m :
  consecutiveFailures (state (tripCircuitBreaker cfg clock r d m))
  = consecutiveFailures (state m).
Proof. unfold tripCircuitBreaker. now rewrite on. Qed.

Lemma trip_dailyLoss clock r d m :
  dailyLoss (state (tripCircuitBreaker cfg clock r d m))
  = dailyLoss (state m).
Proof. unfold tripCircuitBreaker. now rewrite on. Qed.

Lemma trip_breaches clock r d m :
  breaches (state (tripCircuitBreaker cfg clock r d m))
  = breaches (state m)
      ++ [{| br_timestamp := clock 1%nat; br_reason := r; br_details := d;
             br_cooldownUntil :=
               clock 0%nat + cooldownPeriodMinutes cfg * 60 * 1000 |}].
Proof. unfold tripCircuitBreaker. now rewrite on. Qed.

(** *** The bookkeeping of one recording *)

Lemma recorded_failure now p g tk s :
  (p - g <= 0)%Z ->
  active (recorded now p g tk s) = active s /\
  consecutiveFailures (recorded now p g tk s) = (consecutiveFailures s + 1)%Z /\
  dailyLoss (recorded now p g tk s) = (dailyLoss s + - (p - g))%Z /\
  cooldownUntil (recorded now p g tk s) = cooldownUntil s /\
  breaches (recorded now p g tk s) = breaches s.
Proof.
  intro H. unfold recorded.
  destruct (p - g >? 0)%Z eqn:E; [lia|]. simpl.
  repeat split; try reflexivity.
  destruct (p - g <? 0)%Z eqn:F; lia.
Qed.

Lemma recorded_success now p g tk s :
  (0 < p - g)%Z ->
  active (recorded now p g tk s) = active s /\
  consecutiveFailures (recorded now p g tk s) = 0%Z /\
  dailyLoss (recorded now p g tk s) = dailyLoss s.
Proof.
  intro H. unfold recorded.
  destruct (p - g >? 0)%Z eqn:E; [|lia]. simpl. auto.
Qed.

Lemma record_eq m c :
  record cfg m c =
  let m2 := afterFailureCheck cfg c m in
  if (dailyLoss (state m2) >? maxDailyLoss cfg)%Z then
    tripCircuitBreaker cfg (Js.later (readAtLossCheck cfg c m) (c_clock c))
      "Daily loss threshold exceeded"
      (DailyLoss (dailyLoss (state m2)) (maxDailyLoss cfg)
         (List.length (executionHistory (state m2))))
      m2
  else m2.
Proof. unfold record, recordExecution. now rewrite on. Qed.

Lemma afterFailureCheck_failure m c :
  (netProfit c <= 0)%Z ->
  consecutiveFailures (state (afterFailureCheck cfg c m))
  = (consecutiveFailures (state m) + 1)%Z /\
  dailyLoss (state (afterFailureCheck cfg c m))
  = (dailyLoss (state m) + - netProfit c)%Z /\
  (if (consecutiveFailures (state m) + 1 >=? maxConsecutiveFailures cfg)%Z
   then active (state (afterFailureCheck cfg c m)) = true /\
        cooldownUntil (state (afterFailureCheck cfg c m))
        = c_clock c 1%nat + cooldownPeriodMinutes cfg * 60 * 1000 /\
        readAtLossCheck cfg c m = 3%nat
   else active (state (afterFailureCheck cfg c m)) = active (state m) /\
        readAtLossCheck cfg c m = 1%nat).
Proof.
  intro H. unfold netProfit in H.
  destruct (recorded_failure (c_clock c 0%nat) (c_profit c) (c_gasUsed c)
              (c_tokens c) (state m) H) as (A & F & D & U & _).
  unfold afterFailureCheck, readAtLossCheck, netProfit.
  destruct (c_profit c - c_gasUsed c >? 0)%Z eqn:E; [lia|].
  cbn [state]. rewrite F.
  destruct (consecutiveFailures (state m) + 1 >=? maxConsecutiveFailures cfg)%Z.
  - rewrite trip_consecutiveFailures, trip_dailyLoss, trip_active,
      trip_cooldownUntil. cbn [state]. auto.
  - cbn [state]. auto.
Qed.

Lemma afterFailureCheck_success m c :
  (0 < netProfit c)%Z ->
  consecutiveFailures (state (afterFailureCheck cfg c m)) = 0%Z /\
  active (state (afterFailureCheck cfg c m)) = active (state m).
Proof.
  intro H. unfold netProfit in H.
  destruct (recorded_success (c_clock c 0%nat) (c_profit c) (c_gasUsed c)
              (c_tokens c) (state m) H) as (A & F & D).
  unfold afterFailureCheck, netProfit.
  destruct (c_profit c - c_gasUsed c >? 0)%Z eqn:E; [|lia].
  cbn [state]. auto.
Qed.

Lemma record_failure_count m c :
  (netProfit c <= 0)%Z ->
  consecutiveFailures (state (record cfg m c))
  = (consecutiveFailures (state m) + 1)%Z.
Proof.
  intro H. rewrite record_eq. cbv zeta.
  destruct (afterFailureCheck_failure m c H) as (F & _).
  destruct (_ >? _)%Z; [rewrite trip_consecutiveFailures|]; exact F.
Qed.

Lemma record_success_count m c :
  (0 < netProfit c)%Z ->
  consecutiveFailures (state (record cfg m c)) = 0%Z.
Proof.
  intro H. rewrite record_eq. cbv zeta.
  destruct (afterFailureCheck_success m c H) as (F & _).
  destruct (_ >? _)%Z; [rewrite trip_consecutiveFailures|]; exact F.
Qed.

Lemma record_keeps_active m c :
  active (state m) = true -> active (state (record cfg m c)) = true.
Proof.
  intro H. rewrite record_eq. cbv zeta.
  destruct (_ >? _)%Z; [apply trip_active|].
  unfold afterFailureCheck.
  destruct (netProfit c >? 0)%Z.
  - cbn [state]. unfold recorded.
    destruct (_ >? _)%Z; exact H.
  - destruct (_ >=? _)%Z; [apply trip_active|].
    cbn [state]. unfold recorded.
    destruct (_ >? _)%Z; exact H.
Qed.

(** The failure that reaches the limit trips the breaker and starts the
    cooldown at the reading of the clock its last trip took: the call's
    second reading, or its fourth when the daily loss tripped as well. *)
Lemma record_failure_trips m c :
  (netProfit c <= 0)%Z ->
  (maxConsecutiveFailures cfg <= consecutiveFailures (state m) + 1)%Z ->
  active (state (record cfg m c)) = true /\
  cooldownUntil (state (record cfg m c))
  = c_clock c (if (dailyLoss (state (record cfg m c)) >? maxDailyLoss cfg)%Z
               then 3 else 1)%nat
    + cooldownPeriodMinutes cfg * 60 * 1000.
Proof.
  intros H L. rewrite record_eq. cbv zeta.
  destruct (afterFailureCheck_failure m c H) as (_ & _ & A).
  destruct (consecutiveFailures (state m) + 1 >=? maxConsecutiveFailures cfg)%Z
    eqn:F; [|lia].
  destruct A as (A & U & R).
  destruct (_ >? _)%Z eqn:D.
  - rewrite trip_active, trip_cooldownUntil, trip_dailyLoss, D, R. auto.
  - rewrite D. auto.
Qed.

(** A loss that neither reaches the failure limit nor exceeds the daily
    budget leaves the flag as it was. *)
Lemma record_failure_quiet m c :
  (netProfit c <= 0)%Z ->
  (consecutiveFailures (state m) + 1 < maxConsecutiveFailures cfg)%Z ->
  (dailyLoss (state m) + - netProfit c <= maxDailyLoss cfg)%Z ->
  active (state (record cfg m c)) = active (state m) /\
  consecutiveFailures (state (record cfg m c))
  = (consecutiveFailures (state m) + 1)%Z /\
  dailyLoss (state (record cfg m c))
  = (dailyLoss (state m) + - netProfit c)%Z /\
  breaches (state (record cfg m c)) = breaches (state m).
Proof.
  intros H L D. rewrite record_eq. cbv zeta.
  destruct (afterFailureCheck_failure m c H) as (F & DL & A).
  destruct (consecutiveFailures (state m) + 1 >=? maxConsecutiveFailures cfg)%Z
    eqn:G; [lia|].
  destruct A as (A & _).
  rewrite DL.
  destruct (_ >? _)%Z eqn:E; [lia|].
  repeat split; auto.
  unfold afterFailureCheck. unfold netProfit in *.
  destruct (c_profit c - c_gasUsed c >? 0)%Z eqn:P; [lia|].
  cbn [state] in *.
  destruct (recorded_failure (c_clock c 0%nat) (c_profit c) (c_gasUsed c)
              (c_tokens c) (state m) H) as (_ & F' & _ & _ & B).
  rewrite F', G. cbn [state]. exact B.
Qed.

(** A loss that pushes the accumulated daily loss over the budget trips. *)
Lemma record_loss_trips m c :
  (netProfit c <= 0)%Z ->
  (maxDailyLoss cfg < dailyLoss (state m) + - netProfit c)%Z ->
  active (state (record cfg m c)) = true /\
  exists b, br_reason b = "Daily loss threshold exceeded"%string /\
            last (breaches (state (record cfg m c))) b = b /\
            breaches (state (record cfg m c)) <> [].
Proof.
  intros H D. rewrite record_eq. cbv zeta.
  destruct (afterFailureCheck_failure m c H) as (_ & DL & _).
  rewrite DL.
  destruct (_ >? _)%Z eqn:E; [|lia].
  split; [apply trip_active|].
  rewrite trip_breaches. eexists. split; [|split].
  2: { rewrite last_last. reflexivity. }
  - reflexivity.
  - intro N. apply app_eq_nil in N. destruct N; discriminate.
Qed.

Lemma recordAll_failures cs : forall m,
  Forall (fun c => (netProfit c <= 0)%Z) cs ->
  consecutiveFailures (state (recordAll cfg cs m))
  = (consecutiveFailures (state m) + Z.of_nat (List.length cs))%Z.
Proof.
  induction cs as [|c cs IH]; intros m F.
  - simpl. lia.
  - inversion F; subst. unfold recordAll in *. cbn [fold_left].
    rewrite IH by assumption.
    rewrite record_failure_count by assumption.
    cbn [List.length]. lia.
Qed.

Lemma recordAll_snoc cs c m :
  recordAll cfg (cs ++ [c]) m = record cfg (recordAll cfg cs m) c.
Proof. unfold recordAll. now rewrite fold_left_app. Qed.

End Enabled.

(** C3. From the singleton the constructor builds, with
    [maxConsecutiveFailures = N >= 1] and a positive cooldown, [N]
    consecutive recordings with non-positive net profit leave
    [active = true] with [cooldownUntil] one cooldown period after the
    reading of the clock at which the last recording tripped (its second
    reading of [Date.now()], or its fourth when the daily loss tripped as
    well), hence later than that reading; a following recording with
    positive net profit resets [consecutiveFailures] to 0 and keeps
    [active]; and a later [isTripped()] at a clock not before
    [cooldownUntil] returns false and clears [active]. *)
Theorem trip_reset_cycle (cfg : Config) (t0 : Q) (m0 : Manager)
    (cs : list Call) (d : Call) :
  enabled cfg = true ->
  create cfg t0 = Some m0 ->
  (1 <= maxConsecutiveFailures cfg)%Z ->
  Z.of_nat (List.length cs) = maxConsecutiveFailures cfg ->
  0 < cooldownPeriodMinutes cfg ->
  Forall (fun c => (netProfit c <= 0)%Z) cs ->
  let m := recordAll cfg cs m0 in
  let tripped :=
    c_clock (last cs d)
      (if (dailyLoss (state m) >? maxDailyLoss cfg)%Z then 3 else 1)%nat in
  active (state m) = true /\
  cooldownUntil (state m) = tripped + cooldownPeriodMinutes cfg * 60 * 1000 /\
  tripped < cooldownUntil (state m) /\
  forall good : Call,
    (0 < netProfit good)%Z ->
    let m' := record cfg m good in
    consecutiveFailures (state m') = 0%Z /\
    active (state m') = true /\
    forall now : Q,
      cooldownUntil (state m') <= now ->
      fst (isTripped cfg now m') = false /\
      active (state (snd (isTripped cfg now m'))) = false.
Proof.
  intros on Built N1 Len Cool Fail m tripped.
  unfold create in Built. rewrite on in Built. cbn [negb] in Built.
  injection Built as <-.
  destruct (exists_last (l := cs)) as (cs' & c & ->).
  { intro E. subst cs. simpl in Len. lia. }
  assert (Hm : m = record cfg (recordAll cfg cs' (fresh t0)) c).
  { subst m. apply recordAll_snoc. }
  apply Forall_app in Fail. destruct Fail as [Fail' Fc].
  inversion Fc as [|? ? Hc _]; subst tripped.
  rewrite last_last.
  destruct (record_failure_trips cfg on (recordAll cfg cs' (fresh t0)) c Hc)
    as [A U].
  { rewrite recordAll_failures by assumption. simpl.
    rewrite length_app in Len. simpl in Len. lia. }
  rewrite <- Hm in A, U.
  split; [exact A|]. split; [exact U|]. split.
  { rewrite U.
    assert (0 < cooldownPeriodMinutes cfg * 60 * 1000) by nra.
    lra. }
  intros good G m'. split.
  { apply record_success_count; assumption. }
  assert (A' : active (state m') = true)
    by (apply record_keeps_active; assumption).
  split; [exact A'|].
  intros now Exp. unfold isTripped. rewrite on. simpl. rewrite A'. simpl.
  apply JsFacts.lt_false in Exp. rewrite Exp. simpl. auto.
Qed.

Lemma trip_reset_cycle_witness :
  let cs := [sampleCall 1000 0 5000000000000000;
             sampleCall 2000 0 5000000000000000;
             sampleCall 3000 0 5000000000000000] in
  active (state (recordAll sampleConfig cs (fresh 0))) = true.
Proof.
  intro cs.
  apply (trip_reset_cycle sampleConfig 0 (fresh 0) cs (sampleCall 0 0 0)).
  - reflexivity.
  - reflexivity.
  - simpl. lia.
  - reflexivity.
  - reflexivity.
  - repeat constructor; unfold netProfit; simpl; lia.
Defined.

(** C4. With the feature enabled, [isTripped()] returns true exactly when
    [active] holds and the clock is strictly before [cooldownUntil]; called
    with [active] set and the clock at or past [cooldownUntil] it clears
    [active] and returns false; so [active] survives the query only while
    the cooldown has not expired. *)
Theorem isTripped_lazy_transition (cfg : Config) (now : Q) (m : Manager) :
  enabled cfg = true ->
  let r := fst (isTripped cfg now m) in
  let m' := snd (isTripped cfg now m) in
  (r = true <-> active (state m) = true /\ now < cooldownUntil (state m)) /\
  (active (state m) = true -> cooldownUntil (state m) <= now ->
     r = false /\ active (state m') = false) /\
  (active (state m') = true ->
     now < cooldownUntil (state m') /\ m' = m).
Proof.
  intros on r m'. subst r m'. unfold isTripped. rewrite on. cbn [negb].
  destruct (active (state m)) eqn:A; cbn [andb].
  - destruct (Js.lt now (cooldownUntil (state m))) eqn:L;
      cbn [fst snd state active].
    + apply JsFacts.lt_spec in L. rewrite A.
      split; [tauto|]. split; [|auto].
      intros _ E. apply Qle_not_lt in E. contradiction.
    + apply JsFacts.lt_false in L.
      split; [|split; [auto | discriminate]].
      split; [discriminate|].
      intros [_ E]. apply Qle_not_lt in L. contradiction.
  - cbn [fst snd]. rewrite A.
    split; [|split; discriminate].
    split; [discriminate | intros [E _]; discriminate].
Qed.

Lemma isTripped_lazy_transition_witness :
  let m := recordAll sampleConfig
             [sampleCall 1000 0 5; sampleCall 2000 0 5; sampleCall 3000 0 5]
             (fresh 0) in
  (fst (isTripped sampleConfig 5000 m) = true <->
     active (state m) = true /\ 5000 < cooldownUntil (state m)) /\
  (active (state m) = true -> cooldownUntil (state m) <= 5000 ->
     fst (isTripped sampleConfig 5000 m) = false /\
     active (state (snd (isTripped sampleConfig 5000 m))) = false) /\
  (active (state (snd (isTripped sampleConfig 5000 m))) = true ->
     5000 < cooldownUntil (state (snd (isTripped sampleConfig 5000 m))) /\
     snd (isTripped sampleConfig 5000 m) = m).
Proof.
  intro m. apply (isTripped_lazy_transition sampleConfig 5000 m). reflexivity.
Defined.

(** C5. On a state with no accumulated daily loss, no failures and the
    breaker not active, two losing executions whose single losses are each
    at most [maxDailyLoss] and whose sum exceeds it, with
    [maxConsecutiveFailures > 2], leave the breaker untripped after the
    first recording and tripped (by the daily-loss breach) after the
    second; and in every state a recording appends the daily-loss breach
    exactly when the accumulated loss after the update is strictly greater
    than [maxDailyLoss]. *)
Theorem daily_loss_accumulation (cfg : Config) (m : Manager) (c1 c2 : Call) :
  enabled cfg = true ->
  active (state m) = false ->
  consecutiveFailures (state m) = 0%Z ->
  dailyLoss (state m) = 0%Z ->
  (2 < maxConsecutiveFailures cfg)%Z ->
  (netProfit c1 <= 0)%Z -> (netProfit c2 <= 0)%Z ->
  (- netProfit c1 <= maxDailyLoss cfg)%Z ->
  (- netProfit c2 <= maxDailyLoss cfg)%Z ->
  (maxDailyLoss cfg < - netProfit c1 + - netProfit c2)%Z ->
  let m1 := record cfg m c1 in
  let m2 := record cfg m1 c2 in
  (active (state m1) = false /\ breaches (state m1) = breaches (state m)) /\
  (active (state m2) = true /\
   exists b, br_reason b = "Daily loss threshold exceeded"%string /\
             breaches (state m2) <> [] /\
             last (breaches (state m2)) b = b) /\
  (forall (m0 : Manager) (c : Call),
     (exists b, br_reason b = "Daily loss threshold exceeded"%string /\
                breaches (state (record cfg m0 c))
                = breaches (state (afterFailureCheck cfg c m0)) ++ [b])
     <-> (maxDailyLoss cfg < dailyLoss (state (record cfg m0 c)))%Z).
Proof.
  intros on A F D N L1 L2 B1 B2 S m1 m2.
  destruct (record_failure_quiet cfg on m c1 L1) as (A1 & F1 & D1 & R1);
    [lia | lia |].
  fold m1 in A1, F1, D1, R1.
  split; [split; congruence|]. split.
  - destruct (record_loss_trips cfg on m1 c2 L2) as (A2 & b & Hr & Hl & Hn);
      [lia|].
    split; [exact A2|]. exists b. auto.
  - intros m0 c. rewrite (record_eq cfg on). cbv zeta.
    destruct (_ >? _)%Z eqn:E.
    + rewrite trip_breaches, trip_dailyLoss by assumption.
      split; [intros _; lia|]. intros _. eexists.
      split; [|reflexivity]. reflexivity.
    + split; [|lia]. intros (b & _ & Hb). exfalso.
      apply (f_equal (@List.length _)) in Hb. rewrite length_app in Hb.
      simpl in Hb. lia.
Qed.

Lemma daily_loss_accumulation_witness :
  let c1 := sampleCall 1000 0 600000000000000000 in
  let c2 := sampleCall 2000 0 700000000000000000 in
  let cfg :=
    {| enabled := true; maxConsecutiveFailures := 3;
       maxDailyLoss := 1000000000000000000; cooldownPeriodMinutes := 30;
       priceDeviationPercent := 10; liquidityThresholdPercent := 50 |} in
  active (state (record cfg (fresh 0) c1)) = false /\
  active (state (record cfg (record cfg (fresh 0) c1) c2)) = true.
Proof.
  intros c1 c2 cfg.
  pose proof (daily_loss_accumulation cfg (fresh 0) c1 c2
                eq_refl eq_refl eq_refl eq_refl eq_refl
                ltac:(unfold netProfit; simpl; lia)
                ltac:(unfold netProfit; simpl; lia)
                ltac:(unfold netProfit; simpl; lia)
                ltac:(unfold netProfit; simpl; lia)
                ltac:(unfold netProfit; simpl; lia)) as H.
  cbv zeta in H.
  split; [exact (proj1 (proj1 H)) | exact (proj1 (proj1 (proj2 H)))].
Defined.

End CircuitBreakerFacts.

(** ** Price plausibility *)

Module PriceValidatorFacts.
Import JsObject PriceValidator.

Ltac member_cases H :=
  unfold isStable, isMainstream, isDefi, includes, stablecoins, mainstream, defi in *;
  simpl in H;
  repeat (apply orb_true_iff in H; destruct H as [H|H]);
  try discriminate H;
  apply String.eqb_eq in H; subst; reflexivity.

Lemma stable_not_mainstream s : isStable s = true -> isMainstream s = false.
Proof. intro H. member_cases H. Qed.

Lemma stable_not_defi s : isStable s = true -> isDefi s = false.
Proof. intro H. member_cases H. Qed.

Lemma mainstream_not_defi s : isMainstream s = true -> isDefi s = false.
Proof. intro H. member_cases H. Qed.

(** C6 (as implemented). [PriceValidator.getDeviationThreshold] has five
    tiers, taken in this order: both tokens stablecoins 0.2; both mainstream
    0.5; one stablecoin and one mainstream 0.75; one DeFi token and one
    mainstream 1.25; every other pair 1.0. The liquidity validator's
    ceiling has three: both stablecoins 0.25; otherwise either token WETH or
    WBTC 0.75; otherwise 1.5. *)
Theorem deviation_threshold_tiers (a b : string) :
  let t := getDeviationThreshold a b in
  (isStable a && isStable b = true -> t = 0.2) /\
  (isMainstream a && isMainstream b = true -> t = 0.5) /\
  ((isStable a && isMainstream b) || (isMainstream a && isStable b) = true ->
     t = 0.75) /\
  ((isDefi a && isMainstream b) || (isMainstream a && isDefi b) = true ->
     t = 1.25) /\
  (isStable a && isStable b = false ->
   isMainstream a && isMainstream b = false ->
   (isStable a && isMainstream b) || (isMainstream a && isStable b) = false ->
   (isDefi a && isMainstream b) || (isMainstream a && isDefi b) = false ->
     t = 1.0) /\
  forall da db : nat,
    let ta := {| LiquidityValidator.symbol := a; LiquidityValidator.address := "";
                 LiquidityValidator.decimals := da |} in
    let tb := {| LiquidityValidator.symbol := b; LiquidityValidator.address := "";
                 LiquidityValidator.decimals := db |} in
    let m := LiquidityValidator.maxAllowedDeviation ta tb in
    (isStableForDepth a && isStableForDepth b = true -> m = 0.25) /\
    (isStableForDepth a && isStableForDepth b = false ->
     isMajor a || isMajor b = true -> m = 0.75) /\
    (isStableForDepth a && isStableForDepth b = false ->
     isMajor a || isMajor b = false -> m = 1.5).
Proof.
  pose proof (stable_not_mainstream a) as Sa.
  pose proof (stable_not_mainstream b) as Sb.
  pose proof (stable_not_defi a) as Da.
  pose proof (stable_not_defi b) as Db.
  pose proof (mainstream_not_defi a) as Ma.
  pose proof (mainstream_not_defi b) as Mb.
  cbv zeta. unfold getDeviationThreshold.
  fold (isStable a) (isStable b) (isMainstream a) (isMainstream b)
       (isDefi a) (isDefi b).
  repeat split.
  1-5: destruct (isStable a), (isStable b), (isMainstream a), (isMainstream b),
         (isDefi a), (isDefi b); simpl in *; intros;
       first [reflexivity | discriminate
             | exfalso; first [discriminate (Sa eq_refl) | discriminate (Sb eq_refl)
                              | discriminate (Da eq_refl) | discriminate (Db eq_refl)
                              | discriminate (Ma eq_refl) | discriminate (Mb eq_refl)]].
  all: unfold LiquidityValidator.maxAllowedDeviation, isStableForDepth, isMajor;
    cbn [LiquidityValidator.symbol]; intros.
  - rewrite H. reflexivity.
  - rewrite H, H0. reflexivity.
  - rewrite H, H0. reflexivity.
Qed.

(** C6 with three tiers does not hold: a stablecoin against a mainstream
    token is neither a stablecoin pair nor a mainstream pair, yet its
    threshold is 0.75, below the default tier; a DeFi token against a
    mainstream token gets 1.25 where another non-classified token gets 1.0;
    and the liquidity validator gives the moderate 0.75 to a pair with a
    single major token. *)
Lemma three_tier_threshold_fails :
  (isStable "USDC" && isStable "WETH" = false /\
   isMainstream "USDC" && isMainstream "WETH" = false /\
   ~ 1 <= getDeviationThreshold "USDC" "WETH") /\
  (getDeviationThreshold "AAVE" "WETH" = 1.25 /\
   getDeviationThreshold "LINK" "WETH" = 1.0) /\
  (isMajor "WETH" && isMajor "USDC" = false /\
   ~ 1 <= LiquidityValidator.maxAllowedDeviation
            {| LiquidityValidator.symbol := "WETH"; LiquidityValidator.address := "";
               LiquidityValidator.decimals := 18 |}
            {| LiquidityValidator.symbol := "USDC"; LiquidityValidator.address := "";
               LiquidityValidator.decimals := 6 |}).
Proof.
  repeat split; try reflexivity; intro H; vm_compute in H; apply H; reflexivity.
Qed.

Section WithRuntime.
Context {rt : Runtime}.

(** The warning attached to a validated high spread is never the empty text. *)
Lemma warning_not_empty (t : Q) :
  ("Spread exceeds normal threshold (" ++ numberToString t
     ++ "%) - proceed with caution")%string <> ""%string.
Proof. discriminate. Qed.

(** C7. A spread at or below the tier threshold is valid with a null
    warning. A spread above it is rejected only if the rolling-window check,
    the market-price check or the attack-pattern check fails, and if all
    three pass the result is valid and carries a non-null warning. A spread
    that is [NaN] is neither: it is valid with a null warning. *)
Theorem elevated_spread_needs_failed_check
    (clock : Js.Clock) (opportunity : Opportunity) (st : State) :
  let threshold := getDeviationThreshold (tokenA opportunity) (tokenB opportunity) in
  let spread := spreadPercentage opportunity in
  let verdict := fst (validateOpportunity clock opportunity st) in
  let secondary :=
    checkAgainstRecentSpreads (tokenA opportunity) (tokenB opportunity)
      (buyDex opportunity) (sellDex opportunity) spread in
  let tertiary :=
    fst (compareWithMarketPrices clock (tokenA opportunity) (tokenB opportunity)
           spread st) in
  let quaternary := checkForAttackPatterns opportunity in
  (forall s, spread = Js.Fin s -> s <= threshold ->
     isValid verdict = true /\ get "warning" (details verdict) = VNull) /\
  (forall s, spread = Js.Fin s -> threshold < s ->
     (isValid verdict = false ->
        isValid secondary = false \/ isValid tertiary = false
        \/ isValid quaternary = false) /\
     (isValid secondary = true -> isValid tertiary = true ->
      isValid quaternary = true ->
        isValid verdict = true /\
        exists w, get "warning" (details verdict) = VStr w /\ w <> ""%string)) /\
  (spread = Js.NaN ->
     isValid verdict = true /\ get "warning" (details verdict) = VNull).
Proof.
  cbv zeta. unfold validateOpportunity, validatePriceDifference.
  split; [|split].
  - intros s E Le. rewrite E. cbn [Js.gt_number].
    apply JsFacts.gt_false in Le. rewrite Le.
    split; reflexivity.
  - intros s E Lt. rewrite E. cbn [Js.gt_number].
    apply JsFacts.gt_spec in Lt. rewrite Lt.
    destruct (isValid (checkAgainstRecentSpreads _ _ _ _ _)) eqn:S2; cbn [negb].
    2: { split; [auto | discriminate]. }
    destruct (compareWithMarketPrices _ _ _ _ _) as [mp st1] eqn:S3.
    cbn [fst].
    destruct (isValid mp) eqn:V3; cbn [negb].
    2: { split; [auto | discriminate]. }
    destruct (isValid (checkForAttackPatterns opportunity)) eqn:S4; cbn [negb].
    2: { split; [auto | discriminate]. }
    split.
    + cbn. discriminate.
    + intros _ _ _. split; [reflexivity|].
      eexists. split; [reflexivity|]. apply warning_not_empty.
  - intro E. rewrite E. cbn [Js.gt_number]. split; reflexivity.
Qed.

End WithRuntime.

(** A TUSD/BUSD spread of 0.25% exceeds the stablecoin tier, passes the
    three further checks and comes back valid with its warning. *)
Lemma elevated_spread_needs_failed_check_witness :
  let opportunity :=
    {| tokenA := "BUSD"; tokenB := "TUSD"; tokenAAddress := "0x4Fabb145";
       tokenBAddress := "0x00000000"; amountIn := 1000; buyDex := "Uniswap V3";
       sellDex := "SushiSwap"; spreadPercentage := Js.Fin 0.25; profitUsd := 40 |} in
  let verdict :=
    fst (validateOpportunity (rt := sampleRuntime) (Js.steady 1700000000000)
           opportunity create) in
  isValid verdict = true /\
  exists w, get "warning" (details verdict) = VStr w /\ w <> ""%string.
Proof.
  intros opportunity verdict.
  apply (proj2 (proj1 (proj2 (elevated_spread_needs_failed_check
                                (rt := sampleRuntime) (Js.steady 1700000000000)
                                opportunity create))
                  0.25 eq_refl eq_refl));
    reflexivity.
Defined.

End PriceValidatorFacts.

(** ** Liquidity depth *)

Module LiquidityValidatorFacts.
Import JsObject LiquidityValidator.

Lemma reserveRatioOf_eq (reserveIn amountIn : Z) :
  (0 < reserveIn)%Z ->
  reserveRatioOf reserveIn amountIn
  = inr (inject_Z (Z.quot (amountIn * 10000) reserveIn) / 100).
Proof.
  intro H. unfold reserveRatioOf, bigint_div.
  destruct (reserveIn =? 0)%Z eqn:E; [lia|]. reflexivity.
Qed.

Lemma ratio_le (x y : Z) : (x <= y)%Z -> inject_Z x / 100 <= inject_Z y / 100.
Proof.
  intro H. unfold Qdiv. apply Qmult_le_compat_r; [|discriminate].
  rewrite <- Zle_Qle. exact H.
Qed.

Lemma ratio_lt (x : Z) (m : Q) : m * 100 < inject_Z x -> m < inject_Z x / 100.
Proof.
  intro H. apply Qlt_shift_div_l; [reflexivity | exact H].
Qed.

Section WithPool.
Context {rt : Runtime}.
Variable config : Config.
Variable getDexReserves : string -> TokenInfo -> TokenInfo -> Reserves.
Variables (dexName : string) (tokenIn tokenOut : TokenInfo) (options : Options).
Variables (reserveIn reserveOut swapRate : Z) (quoted : option Z).
Hypothesis pool :
  getDexReserves dexName tokenIn tokenOut
  = Available reserveIn reserveOut swapRate quoted.
Hypothesis funded : (0 < reserveIn)%Z.

Lemma ratio_gate_rejects (amountIn : Z) :
  Js.or_default (maxReserveRatio options) 5
  < inject_Z (Z.quot (amountIn * 10000) reserveIn) / 100 ->
  isValid (checkDexLiquidity config getDexReserves dexName tokenIn tokenOut
             amountIn options) = false.
Proof.
  intro H. unfold checkDexLiquidity. rewrite pool.
  rewrite (reserveRatioOf_eq reserveIn amountIn funded). cbn [bind].
  apply JsFacts.gt_spec in H. rewrite H. reflexivity.
Qed.

End WithPool.

(** C8 (as implemented). For a pool with positive [reserveIn],
    [reserveRatio] is non-decreasing in [amountIn]; an amount whose
    [reserveRatio] exceeds the ceiling is rejected together with every larger
    amount; and there is an amount from which on the depth check is always
    invalid. *)
Theorem reserve_ratio_gate_monotone {rt : Runtime}
    (config : Config)
    (getDexReserves : string -> TokenInfo -> TokenInfo -> Reserves)
    (dexName : string) (tokenIn tokenOut : TokenInfo) (options : Options)
    (reserveIn reserveOut swapRate : Z) (quoted : option Z) :
  getDexReserves dexName tokenIn tokenOut
  = Available reserveIn reserveOut swapRate quoted ->
  (0 < reserveIn)%Z ->
  let check amountIn :=
    checkDexLiquidity config getDexReserves dexName tokenIn tokenOut amountIn
      options in
  let ceiling := Js.or_default (maxReserveRatio options) 5 in
  (forall a a' : Z, (a <= a')%Z ->
     exists r r', reserveRatioOf reserveIn a = inr r /\
                  reserveRatioOf reserveIn a' = inr r' /\ r <= r') /\
  (forall (a a' : Z) (r : Q), (a <= a')%Z ->
     reserveRatioOf reserveIn a = inr r -> ceiling < r ->
     isValid (check a) = false /\ isValid (check a') = false) /\
  (exists threshold : Z, forall a : Z, (threshold <= a)%Z ->
     isValid (check a) = false).
Proof.
  intros pool funded check ceiling.
  assert (mono : forall a a', (a <= a')%Z ->
            inject_Z (Z.quot (a * 10000) reserveIn) / 100
            <= inject_Z (Z.quot (a' * 10000) reserveIn) / 100).
  { intros a a' L. apply ratio_le. apply Z.quot_le_mono; lia. }
  split; [|split].
  - intros a a' L. do 2 eexists.
    rewrite !reserveRatioOf_eq by assumption.
    split; [reflexivity|]. split; [reflexivity|]. apply mono, L.
  - intros a a' r L R C.
    rewrite reserveRatioOf_eq in R by assumption.
    injection R as <-.
    split; eapply ratio_gate_rejects; eauto.
    eapply Qlt_le_trans; [exact C | apply mono, L].
  - exists (Z.max 0 ((Qfloor (ceiling * 100) + 1) * reserveIn)).
    intros a L. eapply ratio_gate_rejects; eauto.
    apply ratio_lt. fold ceiling.
    eapply Qlt_le_trans; [apply Qlt_floor|].
    rewrite <- Zle_Qle.
    apply Z.quot_le_lower_bound; [assumption|]. nia.
Qed.

Lemma reserve_ratio_gate_monotone_witness :
  exists threshold : Z, forall a : Z, (threshold <= a)%Z ->
    isValid (checkDexLiquidity (rt := sampleRuntime) sampleConfig samplePool
               "SushiSwap" (sampleToken "WETH") (sampleToken "DAI") a noOptions)
    = false.
Proof.
  apply (reserve_ratio_gate_monotone (rt := sampleRuntime) sampleConfig samplePool
           "SushiSwap" (sampleToken "WETH") (sampleToken "DAI") noOptions
           1000000000000000000000000 1000000000000000000000000 10000 None);
    reflexivity.
Defined.

(** C8 does not hold for the price impact on integer amounts. In a pool of
    10^24 units on each side a trade of 1 unit has a computed price impact
    of 100% and is rejected, a trade of 10^18 units has 0.31% and is
    accepted: the price impact is not monotone and a larger amount is valid
    after a smaller one was judged invalid. A zero amount is rejected as
    well (division by zero). *)
Lemma depth_gate_not_monotone :
  let check a :=
    checkDexLiquidity (rt := sampleRuntime) sampleConfig samplePool
      "SushiSwap" (sampleToken "WETH") (sampleToken "DAI") a noOptions in
  let impact a :=
    constantProductQuote 1000000000000000000000000 1000000000000000000000000 a in
  (impact 1%Z = inr (0%Z, 10000 / 100) /\
   impact 1000000000000000000%Z = inr (996999005991991025%Z, 31 / 100) /\
   ~ 10000 / 100 <= 31 / 100) /\
  (isValid (check 1%Z) = false /\
   isValid (check 1000000000000000000%Z) = true) /\
  isValid (check 0%Z) = false.
Proof.
  cbv zeta. split; [|split].
  - split; [reflexivity|]. split; [reflexivity|].
    intro H. vm_compute in H. apply H. reflexivity.
  - split; reflexivity.
  - reflexivity.
Qed.

End LiquidityValidatorFacts.

(** ** The base orchestrator *)

Module ValidationManagerFacts.
Import JsObject Effects ValidationManager.
Import LiquidityValidator (TokenInfo, symbol, address, decimals).

(** *** Amounts as [ethers.parseUnits] reads them *)

Lemma toText_Plain (x amount : Q) :
  toText x = Plain amount ->
  amount = x /\ Qabs x < 1000000000000000000000 /\
  (x == 0 \/ (1 # 1000000) <= Qabs x).
Proof.
  unfold toText.
  destruct (Js.ge (Qabs x) 1000000000000000000000) eqn:Big; cbn [orb];
    [discriminate|].
  destruct (Qeq_bool x 0) eqn:Z0; cbn [negb andb].
  - intro H. injection H as <-. apply JsFacts.ge_false in Big.
    apply Qeq_bool_iff in Z0. auto.
  - destruct (Js.lt (Qabs x) (1 # 1000000)) eqn:Small; [discriminate|].
    intro H. injection H as <-. apply JsFacts.ge_false in Big.
    apply JsFacts.lt_false in Small. auto.
Qed.

Lemma toText_Exponent (x amount : Q) :
  toText x = Exponent amount ->
  1000000000000000000000 <= Qabs x \/ (~ x == 0 /\ Qabs x < (1 # 1000000)).
Proof.
  unfold toText.
  destruct (Js.ge (Qabs x) 1000000000000000000000) eqn:Big; cbn [orb].
  - intros _. left. now apply JsFacts.ge_spec.
  - destruct (Qeq_bool x 0) eqn:Z0; cbn [negb andb]; [discriminate|].
    destruct (Js.lt (Qabs x) (1 # 1000000)) eqn:Small; [|discriminate].
    intros _. right. split; [|now apply JsFacts.lt_spec].
    intro E. apply Qeq_bool_iff in E. congruence.
Qed.

(** What a parsed amount is: plain text, at most 80 decimals, a whole
    number of smallest units within 512 signed bits. *)
Lemma parseUnits_inv (text : NumberText) (d : nat) (z : Z) :
  parseUnits text d = inr z ->
  exists amount,
    text = Plain amount /\ (d <= 80)%nat /\
    z = Qfloor (amount * inject_Z (10 ^ Z.of_nat d)) /\
    inject_Z z == amount * inject_Z (10 ^ Z.of_nat d) /\
    (- 2 ^ 511 <= z < 2 ^ 511)%Z.
Proof.
  unfold parseUnits. destruct text as [amount|amount]; [|discriminate].
  destruct (80 <? d)%nat eqn:D; [discriminate|]. cbv zeta.
  destruct (Qeq_bool _ _) eqn:W; [|discriminate].
  destruct (_ && _) eqn:R; [|discriminate].
  intro H. injection H as <-.
  exists amount. split; [reflexivity|].
  split; [apply Nat.ltb_ge in D; lia|].
  split; [reflexivity|].
  split; [now apply Qeq_bool_iff in W|].
  apply andb_true_iff in R. destruct R as (Lo & Hi).
  apply Z.leb_le in Lo. apply Z.ltb_lt in Hi. split; assumption.
Qed.

Lemma parseUnits_nonneg (amount : Q) (d : nat) (z : Z) :
  0 <= amount -> parseUnits (toText amount) d = inr z -> (0 <= z)%Z.
Proof.
  intros A P. apply parseUnits_inv in P.
  destruct P as (a & T & _ & -> & _).
  apply toText_Plain in T. destruct T as (-> & _).
  change 0%Z with (Qfloor 0). apply Qfloor_resp_le.
  apply Qmult_le_0_compat; [exact A|].
  change 0 with (inject_Z 0). rewrite <- Zle_Qle. apply Z.pow_nonneg. lia.
Qed.

Section WithRuntime.
Context {rt : Runtime}.


End WithRuntime.

End ValidationManagerFacts.

(** ** Reasoning about traces *)

Module TraceFacts.
Import JsObject Effects.

Section Rules.
Context {W : Type}.

Lemma spec_weaken {A} (Q Q' : list Event -> Outcome A -> Prop) (m : M W A) :
  (forall ev o, Q ev o -> Q' ev o) -> spec Q m -> spec Q' m.
Proof.
  intros I H w tr. destruct (H w tr) as (ev & E & q). exists ev. auto.
Qed.

Lemma spec_ret {A} (Q : list Event -> Outcome A -> Prop) (a : A) :
  Q [] (inr a) -> spec Q (mret (W := W) a).
Proof. intros q w tr. exists []. cbn. rewrite app_nil_r. auto. Qed.

Lemma spec_lift {A} (Q : list Event -> Outcome A -> Prop) (o : Outcome A) :
  Q [] o -> spec Q (lift (W := W) o).
Proof. intros q w tr. exists []. cbn. rewrite app_nil_r. auto. Qed.

Lemma spec_emit (Q : list Event -> Outcome unit -> Prop) (n : string) (p : Value) :
  Q [Emitted n p] (inr tt) -> spec Q (emit (W := W) n p).
Proof. intros q w tr. exists [Emitted n p]. cbn. auto. Qed.

Lemma spec_call {A} (Q : list Event -> Outcome A -> Prop) (c : Component)
    (f : W -> Outcome A * W) :
  (forall a, Q [Called c] (inr a)) ->
  (forall e, Q [Called c; Threw c e] (inl e)) ->
  spec Q (call c f).
Proof.
  intros R T w tr. unfold call. destruct (f w) as [[e|a] w']; cbn.
  - exists [Called c; Threw c e]. auto.
  - exists [Called c]. auto.
Qed.

Lemma spec_bind {A B} (Q1 : list Event -> Outcome A -> Prop)
    (Q2 : A -> list Event -> Outcome B -> Prop)
    (Q : list Event -> Outcome B -> Prop) (m : M W A) (k : A -> M W B) :
  spec Q1 m -> (forall a, spec (Q2 a) (k a)) ->
  (forall ev e, Q1 ev (inl e) -> Q ev (inl e)) ->
  (forall ev1 a ev2 o, Q1 ev1 (inr a) -> Q2 a ev2 o -> Q (ev1 ++ ev2) o) ->
  spec Q (mbind m k).
Proof.
  intros Hm Hk T S w tr. unfold mbind.
  destruct (Hm w tr) as (ev1 & E1 & q1).
  destruct (outcome (m w tr)) as [e|a] eqn:O; cbn.
  - exists ev1. split; [exact E1 | auto].
  - destruct (Hk a (world (m w tr)) (trace (m w tr))) as (ev2 & E2 & q2).
    exists (ev1 ++ ev2). split; [|eauto].
    rewrite E2, E1. symmetry. apply app_assoc.
Qed.

Lemma spec_mtry {A} (Q1 : list Event -> Outcome A -> Prop)
    (Q2 : Error -> list Event -> Outcome A -> Prop)
    (Q : list Event -> Outcome A -> Prop)
    (m : M W A) (h : Error -> M W A) :
  spec Q1 m -> (forall e, spec (Q2 e) (h e)) ->
  (forall ev a, Q1 ev (inr a) -> Q ev (inr a)) ->
  (forall ev1 e ev2 o, Q1 ev1 (inl e) -> Q2 e ev2 o -> Q (ev1 ++ ev2) o) ->
  spec Q (mtry m h).
Proof.
  intros Hm Hh R S w tr. unfold mtry.
  destruct (Hm w tr) as (ev1 & E1 & q1).
  destruct (outcome (m w tr)) as [e|a] eqn:O; cbn.
  - destruct (Hh e (world (m w tr)) (trace (m w tr))) as (ev2 & E2 & q2).
    exists (ev1 ++ ev2). split; [|eauto].
    rewrite E2, E1. symmetry. apply app_assoc.
  - exists ev1. rewrite O. auto.
Qed.

(** *** The trace only grows *)

Lemma extends_ret {A} (a : A) : extends (mret (W := W) a).
Proof. now apply spec_ret. Qed.

Lemma extends_lift {A} (o : Outcome A) : extends (lift (W := W) o).
Proof. now apply spec_lift. Qed.

Lemma extends_emit n p : extends (emit (W := W) n p).
Proof. now apply spec_emit. Qed.

Lemma extends_call {A} c (f : W -> Outcome A * W) : extends (call c f).
Proof. now apply spec_call. Qed.

Lemma extends_bind {A B} (m : M W A) (k : A -> M W B) :
  extends m -> (forall a, extends (k a)) -> extends (mbind m k).
Proof.
  intros Hm Hk.
  apply spec_bind with (Q1 := fun _ _ => True) (Q2 := fun _ _ _ => True); auto.
Qed.

Lemma extends_mtry {A} (m : M W A) (h : Error -> M W A) :
  extends m -> (forall e, extends (h e)) -> extends (mtry m h).
Proof.
  intros Hm Hh.
  apply spec_mtry with (Q1 := fun _ _ => True) (Q2 := fun _ _ _ => True); auto.
Qed.

(** *** No sub-validator threw *)

Lemma quiet_ret {A} (a : A) : quiet (mret (W := W) a).
Proof. apply spec_ret. intros c e []. Qed.

Lemma quiet_lift {A} (o : Outcome A) : quiet (lift (W := W) o).
Proof. apply spec_lift. intros c e []. Qed.

Lemma quiet_emit n p : quiet (emit (W := W) n p).
Proof. apply spec_emit. intros c e [H|[]]. discriminate H. Qed.

Lemma quiet_call {A} c (f : W -> Outcome A * W) :
  isSubValidator c = false -> quiet (call c f).
Proof.
  intro N. apply spec_call.
  - intros _ c' e [H|[]]. discriminate H.
  - intros e0 c' e [H|[H|[]]]; [discriminate H|]. now injection H as <- <-.
Qed.

Lemma quiet_bind {A B} (m : M W A) (k : A -> M W B) :
  quiet m -> (forall a, quiet (k a)) -> quiet (mbind m k).
Proof.
  intros Hm Hk.
  apply spec_bind with
    (Q1 := fun ev _ => forall c e, In (Threw c e) ev -> isSubValidator c = false)
    (Q2 := fun _ ev _ => forall c e, In (Threw c e) ev -> isSubValidator c = false);
    auto.
  intros ev1 a ev2 o q1 q2 c e I. apply in_app_or in I. destruct I; eauto.
Qed.

Lemma quiet_mtry {A} (m : M W A) (h : Error -> M W A) :
  quiet m -> (forall e, quiet (h e)) -> quiet (mtry m h).
Proof.
  intros Hm Hh.
  apply spec_mtry with
    (Q1 := fun ev _ => forall c e, In (Threw c e) ev -> isSubValidator c = false)
    (Q2 := fun _ ev _ => forall c e, In (Threw c e) ev -> isSubValidator c = false);
    auto.
  intros ev1 a ev2 o q1 q2 c e I. apply in_app_or in I. destruct I; eauto.
Qed.

Lemma quiet_extends {A} (m : M W A) : quiet m -> extends m.
Proof. apply spec_weaken. auto. Qed.

(** *** A sub-validator's exception is the one that ends the computation *)

Lemma quiet_faithful {A} (m : M W A) : quiet m -> faithful m.
Proof.
  apply spec_weaken. intros ev o q c e I S. rewrite (q c e I) in S. discriminate S.
Qed.

Lemma faithful_ret {A} (a : A) : faithful (mret (W := W) a).
Proof. apply quiet_faithful, quiet_ret. Qed.

Lemma faithful_lift {A} (o : Outcome A) : faithful (lift (W := W) o).
Proof. apply quiet_faithful, quiet_lift. Qed.

Lemma faithful_emit n p : faithful (emit (W := W) n p).
Proof. apply quiet_faithful, quiet_emit. Qed.

Lemma faithful_call {A} c (f : W -> Outcome A * W) : faithful (call c f).
Proof.
  apply spec_call.
  - intros a c' e [H|[]]. discriminate H.
  - intros e0 c' e [H|[H|[]]]; [discriminate H|]. now injection H as <- <-.
Qed.

Lemma faithful_bind {A B} (m : M W A) (k : A -> M W B) :
  faithful m -> (forall a, faithful (k a)) -> faithful (mbind m k).
Proof.
  intros Hm Hk.
  apply spec_bind with
    (Q1 := fun ev o => forall c e, In (Threw c e) ev -> isSubValidator c = true ->
                                   o = inl e)
    (Q2 := fun _ ev o => forall c e, In (Threw c e) ev -> isSubValidator c = true ->
                                     o = inl e);
    auto.
  - intros ev e q c e' I S. specialize (q c e' I S). congruence.
  - intros ev1 a ev2 o q1 q2 c e I S. apply in_app_or in I. destruct I as [I|I].
    + specialize (q1 c e I S). discriminate q1.
    + eauto.
Qed.

(** *** Returning a value without any exception *)

Lemma returns_ret {A} (a : A) : returns a (mret (W := W) a).
Proof. apply spec_ret. split; [reflexivity | intros c e []]. Qed.

Lemma returns_after_emit {A} n p (a : A) (m : M W A) :
  returns a m -> returns a (mbind (emit n p) (fun _ => m)).
Proof.
  intro H.
  apply spec_bind with
    (Q1 := fun ev o => ev = [Emitted n p] /\ o = inr tt)
    (Q2 := fun _ ev o => o = inr a /\ forall c e, ~ In (Threw c e) ev).
  - now apply spec_emit.
  - intros _. exact H.
  - intros ev e [_ F]. discriminate F.
  - intros ev1 [] ev2 o [-> _] [-> N]. split; [reflexivity|].
    intros c e [I|I]; [discriminate I | exact (N c e I)].
Qed.

(** *** Catching what the sub-validators throw *)

Lemma converted_ret {A} (f : Error -> A) (a : A) : converted f (mret (W := W) a).
Proof. apply spec_ret. split; [eauto | intros c e []]. Qed.

Lemma returns_converted {A} (f : Error -> A) (a : A) (m : M W A) :
  returns a m -> converted f m.
Proof.
  apply spec_weaken. intros ev o [-> N]. split; [eauto|].
  intros c e I. destruct (N c e I).
Qed.

Lemma converted_bind {A B} (f : Error -> B) (m : M W A) (k : A -> M W B) :
  total_quiet m -> (forall a, converted f (k a)) -> converted f (mbind m k).
Proof.
  intros Hm Hk.
  apply spec_bind with
    (Q1 := fun ev (o : Outcome A) =>
             (exists a, o = inr a) /\
             forall c e, In (Threw c e) ev -> isSubValidator c = false)
    (Q2 := fun _ ev o =>
             (exists v, o = inr v) /\
             forall c e, In (Threw c e) ev -> isSubValidator c = true ->
                         o = inr (f e));
    auto.
  - intros ev e [[a F] _]. discriminate F.
  - intros ev1 a ev2 o [_ q1] [T q2]. split; [exact T|].
    intros c e I S. apply in_app_or in I. destruct I as [I|I].
    + rewrite (q1 c e I) in S. discriminate S.
    + eauto.
Qed.

Lemma converted_mtry {A} (f : Error -> A) (m : M W A) (h : Error -> M W A) :
  faithful m -> (forall e, returns (f e) (h e)) -> converted f (mtry m h).
Proof.
  intros Hm Hh.
  apply spec_mtry with
    (Q1 := fun ev o => forall c e, In (Threw c e) ev -> isSubValidator c = true ->
                                   o = inl e)
    (Q2 := fun e0 ev o => o = inr (f e0) /\ forall c e, ~ In (Threw c e) ev);
    [exact Hm | exact Hh | |].
  - intros ev a q. split; [eauto|]. intros c e I S.
    specialize (q c e I S). discriminate q.
  - intros ev1 e1 ev2 o q1 [-> N]. split; [eauto|].
    intros c e I S. apply in_app_or in I. destruct I as [I|I].
    + specialize (q1 c e I S). now injection q1 as ->.
    + destruct (N c e I).
Qed.

(** *** Order of calls *)

Lemma Component_eqb_eq (a b : Component) : Component_eqb a b = true <-> a = b.
Proof. destruct a, b; cbn; split; intro H; try reflexivity; discriminate H. Qed.

Lemma Component_eqb_refl (a : Component) : Component_eqb a a = true.
Proof. now apply Component_eqb_eq. Qed.

Lemma ordered_sound (c1 c2 : Component) (tr : list Event) :
  forall seen : bool,
    ordered c1 c2 seen tr = true ->
    forall pre post, tr = pre ++ Called c2 :: post ->
                     seen = true \/ In (Called c1) pre.
Proof.
  induction tr as [|e tr IH]; intros seen H pre post E.
  - destruct pre; discriminate E.
  - destruct pre as [|e' pre]; cbn in E; injection E as E1 E2; subst.
    + cbn in H. rewrite Component_eqb_refl in H.
      apply andb_true_iff in H. left. apply H.
    + assert (T : ordered c1 c2
                    (seen || match e' with
                             | Called c => Component_eqb c c1
                             | _ => false
                             end) (pre ++ Called c2 :: post) = true).
      { destruct e'; cbn in H; try (rewrite orb_false_r; exact H).
        apply andb_true_iff in H. apply H. }
      destruct (IH _ T pre post eq_refl) as [S|I]; [|right; right; exact I].
      apply orb_true_iff in S. destruct S as [S|S]; [left; exact S|].
      right. left. destruct e'; try discriminate S.
      apply Component_eqb_eq in S. now subst.
Qed.

Lemma ordered_preceded_by (c1 c2 : Component) (tr : list Event) :
  ordered c1 c2 false tr = true -> preceded_by c1 c2 tr.
Proof.
  intros H pre post E.
  destruct (ordered_sound c1 c2 tr false H pre post E) as [F|I];
    [discriminate F | exact I].
Qed.

Lemma ordered_seen (c1 c2 : Component) (ev : list Event) :
  ordered c1 c2 true ev = true.
Proof. induction ev as [|[c| |] ev IH]; cbn; auto. now destruct (Component_eqb c c2). Qed.

Lemma ordered_weaken (c1 c2 : Component) (ev : list Event) (seen : bool) :
  ordered c1 c2 false ev = true -> ordered c1 c2 seen ev = true.
Proof. destruct seen; [intros _; apply ordered_seen | auto]. Qed.

Lemma ordered_app (c1 c2 : Component) (ev1 ev2 : list Event) :
  forall seen,
    ordered c1 c2 seen ev1 = true -> ordered c1 c2 false ev2 = true ->
    ordered c1 c2 seen (ev1 ++ ev2) = true.
Proof.
  induction ev1 as [|[c| |] ev1 IH]; intros seen H1 H2; cbn in *; auto.
  - now apply ordered_weaken.
  - apply andb_true_iff in H1. destruct H1 as [H H1].
    rewrite H. cbn. auto.
Qed.

Lemma ordered_app_seen (c1 c2 : Component) (ev1 ev2 : list Event) :
  forall seen,
    ordered c1 c2 seen ev1 = true -> In (Called c1) ev1 ->
    ordered c1 c2 seen (ev1 ++ ev2) = true.
Proof.
  induction ev1 as [|[c| |] ev1 IH]; intros seen H1 I; cbn in *.
  - destruct I.
  - apply andb_true_iff in H1. destruct H1 as [H H1]. rewrite H. cbn.
    destruct I as [I|I].
    + injection I as ->. rewrite Component_eqb_refl, orb_true_r.
      apply ordered_seen.
    + auto.
  - destruct I as [I|I]; [discriminate I | auto].
  - destruct I as [I|I]; [discriminate I | auto].
Qed.

Lemma safe_ret {A} c1 c2 (a : A) : safe c1 c2 (mret (W := W) a).
Proof. now apply spec_ret. Qed.

Lemma safe_lift {A} c1 c2 (o : Outcome A) : safe c1 c2 (lift (W := W) o).
Proof. now apply spec_lift. Qed.

Lemma safe_emit c1 c2 n p : safe c1 c2 (emit (W := W) n p).
Proof. now apply spec_emit. Qed.

Lemma safe_call {A} c1 c2 c (f : W -> Outcome A * W) :
  Component_eqb c c2 = false -> safe c1 c2 (call c f).
Proof. intro N. apply spec_call; intros; cbn; now rewrite N. Qed.

Lemma safe_bind {A B} c1 c2 (m : M W A) (k : A -> M W B) :
  safe c1 c2 m -> (forall a, safe c1 c2 (k a)) -> safe c1 c2 (mbind m k).
Proof.
  intros Hm Hk.
  apply spec_bind with
    (Q1 := fun ev _ => ordered c1 c2 false ev = true)
    (Q2 := fun _ ev _ => ordered c1 c2 false ev = true); auto.
  intros ev1 a ev2 o q1 q2. now apply ordered_app.
Qed.

Lemma safe_mtry {A} c1 c2 (m : M W A) (h : Error -> M W A) :
  safe c1 c2 m -> (forall e, safe c1 c2 (h e)) -> safe c1 c2 (mtry m h).
Proof.
  intros Hm Hh.
  apply spec_mtry with
    (Q1 := fun ev _ => ordered c1 c2 false ev = true)
    (Q2 := fun _ ev _ => ordered c1 c2 false ev = true); auto.
  intros ev1 e ev2 o q1 q2. now apply ordered_app.
Qed.

(** Once [c1] has been called, whatever follows is in order. *)
Lemma safe_after_call {A B} c1 c2 (f : W -> Outcome A * W) (k : A -> M W B) :
  Component_eqb c1 c2 = false ->
  (forall a, extends (k a)) -> safe c1 c2 (mbind (call c1 f) k).
Proof.
  intros N Hk.
  apply spec_bind with
    (Q1 := fun ev _ => ordered c1 c2 false ev = true /\ In (Called c1) ev)
    (Q2 := fun _ _ _ => True).
  - apply spec_call; intros; cbn; rewrite N; auto.
  - exact Hk.
  - intros ev e [q _]. exact q.
  - intros ev1 a ev2 o [q I] _. now apply ordered_app_seen.
Qed.

(** *** Running one step *)

Lemma run_call_ok {A B} (c : Component) (f : W -> Outcome A * W)
    (k : A -> M W B) (w w' : W) (tr : list Event) (a : A) :
  f w = (inr a, w') ->
  mbind (call c f) k w tr = k a w' (tr ++ [Called c]).
Proof. intro H. unfold mbind, call. now rewrite H. Qed.

Lemma run_lift_ok {A B} (a : A) (k : A -> M W B) (w : W) (tr : list Event) :
  mbind (lift (inr a)) k w tr = k a w tr.
Proof. reflexivity. Qed.

Lemma run_emit {B} (n : string) (p : Value) (k : unit -> M W B)
    (w : W) (tr : list Event) :
  mbind (emit n p) k w tr = k tt w (tr ++ [Emitted n p]).
Proof. reflexivity. Qed.

Lemma run_bind_ok {A B} (m : M W A) (k : A -> M W B) (w w' : W)
    (tr tr' : list Event) (a : A) :
  m w tr = {| outcome := inr a; world := w'; trace := tr' |} ->
  mbind m k w tr = k a w' tr'.
Proof. intro H. unfold mbind. now rewrite H. Qed.

Lemma run_try_ok {A} (m : M W A) (h : Error -> M W A) (w w' : W)
    (tr tr' : list Event) (a : A) :
  m w tr = {| outcome := inr a; world := w'; trace := tr' |} ->
  mtry m h w tr = {| outcome := inr a; world := w'; trace := tr' |}.
Proof. intro H. unfold mtry. now rewrite H. Qed.

End Rules.

End TraceFacts.

(** ** The two orchestrators *)

Module OrchestratorFacts.
Import JsObject Effects TraceFacts.

Ltac extends_tac :=
  repeat first
    [ apply extends_ret | apply extends_lift | apply extends_emit
    | apply extends_call
    | apply extends_bind; [|intro; cbv beta zeta]
    | apply extends_mtry; [|intro; cbv beta zeta]
    | match goal with
      | |- extends (if ?b then _ else _) => destruct b
      | |- extends (match ?x with _ => _ end) => destruct x
      end ].

Ltac quiet_tac :=
  repeat first
    [ apply quiet_ret | apply quiet_lift | apply quiet_emit
    | apply quiet_call; reflexivity
    | apply quiet_bind; [|intro; cbv beta zeta]
    | apply quiet_mtry; [|intro; cbv beta zeta]
    | match goal with
      | |- quiet (if ?b then _ else _) => destruct b
      | |- quiet (match ?x with _ => _ end) => destruct x
      end ].

Ltac faithful_tac unfolder :=
  repeat first
    [ apply faithful_ret | apply faithful_lift | apply faithful_emit
    | apply faithful_call
    | apply faithful_bind; [|intro; cbv beta zeta]
    | match goal with
      | |- faithful (if ?b then _ else _) => destruct b
      | |- faithful (match ?x with _ => _ end) => destruct x
      end
    | apply quiet_faithful; unfolder; quiet_tac ].

Ltac safe_tac unfolder :=
  repeat first
    [ apply safe_ret | apply safe_lift | apply safe_emit
    | apply safe_after_call;
      [reflexivity | intro; cbv beta zeta; unfolder; extends_tac]
    | apply safe_call; reflexivity
    | apply safe_bind; [|intro; cbv beta zeta]
    | apply safe_mtry; [|intro; cbv beta zeta]
    | match goal with
      | |- safe _ _ (if ?b then _ else _) => destruct b
      | |- safe _ _ (match ?x with _ => _ end) => destruct x
      end ].

(** What a [converted] computation says about a run from an empty trace. *)
Lemma converted_run {W A} (f : Error -> A) (m : M W A) (w : W) :
  converted f m ->
  (exists v, outcome (run m w) = inr v) /\
  forall c e, In (Threw c e) (trace (run m w)) -> isSubValidator c = true ->
              outcome (run m w) = inr (f e).
Proof.
  intro H. destruct (H w []) as (ev & E & T & C). unfold run.
  split; [exact T|]. intros c e I. rewrite E in I. now apply C.
Qed.

Lemma safe_run {W A} (c1 c2 : Component) (m : M W A) (w : W) :
  safe c1 c2 m -> preceded_by c1 c2 (trace (run m w)).
Proof.
  intro H. destruct (H w []) as (ev & E & O). unfold run. rewrite E.
  now apply ordered_preceded_by.
Qed.

Section Base.
Import ValidationManager.
Context {rt : Runtime} {W : Type}.
Variable getFeeData : W -> Outcome Z * W.
Variable liquidityValidator : Opportunity -> W -> Outcome Value * W.
Variable priceValidator : Opportunity -> W -> Outcome Value * W.
Variables (this : Instance) (opportunity : Opportunity).

Lemma base_converted :
  converted errorResult
    (validateOpportunity getFeeData liquidityValidator priceValidator
       this opportunity).
Proof.
  unfold validateOpportunity. apply converted_mtry.
  - faithful_tac ltac:(unfold checkGasPrice).
  - intro e. apply returns_ret.
Qed.

Lemma base_gas_gate_first (w w1 : W) (gasPrice : Z) :
  getFeeData w = (inr gasPrice, w1) ->
  maxGasPrice this < unitsToNumber gasPrice 9 ->
  run (validateOpportunity getFeeData liquidityValidator priceValidator
         this opportunity) w
  = {| outcome :=
         inr (VObj
                [("isValid", VBool false);
                 ("details",
                  VObj [("reason",
                         VStr ("Gas price too high: "
                               ++ toFixed 2 (unitsToNumber gasPrice 9)
                               ++ " gwei > " ++ numberToString (maxGasPrice this)
                               ++ " gwei"));
                        ("gasPrice", VBigInt gasPrice);
                        ("gasPriceGwei", VNum (unitsToNumber gasPrice 9));
                        ("maxGasPrice", VNum (maxGasPrice this));
                        ("check", VStr "gas_price")])]%string);
       world := w1;
       trace := [Called Provider] |}.
Proof.
  intros F G. apply (proj2 (JsFacts.gt_spec _ _)) in G.
  unfold run, validateOpportunity, checkGasPrice, mtry, mbind, call, lift, mret.
  rewrite F. cbn. rewrite G. reflexivity.
Qed.

End Base.

Section Enhanced.
Import EnhancedValidationManager.
Context {rt : Runtime} {X : Type}.
Variable breakerConfig : CircuitBreakerManager.Config.
Variable now : Q.
Variable validateLiquidity : string -> string -> Z -> string -> X -> Outcome Value * X.
Variable validatePrices : string -> string -> string -> string -> Q -> X -> Outcome Value * X.
Variable getFeeData : X -> Outcome Z * X.
Variable getTokenPriceUsd : string -> X -> Outcome Q * X.
Variable configuredMaxGasPrice : X -> Outcome (option Q) * X.
Variable configuredMinProfitUsd : X -> Outcome Q * X.
Variables (this : Instance) (opportunity : Opportunity).

Lemma isTripped_total_quiet :
  total_quiet (call Breaker (isTripped (X := X) breakerConfig now)).
Proof.
  intros w tr. unfold call, isTripped.
  destruct (CircuitBreakerManager.isTripped breakerConfig now (breaker w))
    as [r m]. cbn. exists [Called Breaker]. split; [reflexivity|].
  split; [eauto|]. intros c e [H|[]]. discriminate H.
Qed.

Lemma getStatus_total_quiet :
  total_quiet (getStatus (X := X) breakerConfig).
Proof.
  intros w tr. exists []. cbn. rewrite app_nil_r. split; [reflexivity|].
  split; [eauto|]. intros c e [].
Qed.

Lemma getStatus_extends : extends (getStatus (X := X) breakerConfig).
Proof. intros w tr. exists []. cbn. rewrite app_nil_r. auto. Qed.

Lemma getStatus_safe c1 c2 : safe c1 c2 (getStatus (X := X) breakerConfig).
Proof. intros w tr. exists []. cbn. rewrite app_nil_r. auto. Qed.

Lemma enhanced_converted :
  converted errorResult
    (validateOpportunity breakerConfig now validateLiquidity validatePrices
       getFeeData getTokenPriceUsd configuredMaxGasPrice configuredMinProfitUsd
       this opportunity).
Proof.
  unfold validateOpportunity.
  destruct (validationEnabled this); cbn [negb]; [|apply converted_ret].
  apply converted_bind; [apply isTripped_total_quiet|].
  intros [|].
  - apply converted_bind; [apply getStatus_total_quiet|]. intro status.
    eapply returns_converted. apply returns_after_emit, returns_ret.
  - apply converted_mtry.
    + faithful_tac ltac:(unfold _validateGasCosts).
    + intro e. apply returns_after_emit, returns_ret.
Qed.

Lemma enhanced_gas_gate_order (w : World X) :
  let tr := trace (run (validateOpportunity breakerConfig now validateLiquidity
                          validatePrices getFeeData getTokenPriceUsd
                          configuredMaxGasPrice configuredMinProfitUsd
                          this opportunity) w) in
  preceded_by Breaker LiquidityCheck tr /\
  preceded_by LiquidityCheck PriceCheck tr /\
  preceded_by LiquidityCheck Provider tr /\
  preceded_by PriceCheck Provider tr.
Proof.
  cbv zeta.
  repeat split; apply safe_run; unfold validateOpportunity;
    (destruct (validationEnabled this); cbn [negb]; [|apply safe_ret]).
  - apply safe_after_call; [reflexivity|]. intro.
    destruct a.
    + apply extends_bind; [apply getStatus_extends|]. intro. extends_tac.
    + unfold _validateGasCosts. extends_tac.
  - apply safe_bind; [apply safe_call; reflexivity|]. intros [|].
    + apply safe_bind; [apply getStatus_safe|]. intro.
      safe_tac ltac:(unfold _validateGasCosts).
    + safe_tac ltac:(unfold _validateGasCosts).
  - apply safe_bind; [apply safe_call; reflexivity|]. intros [|].
    + apply safe_bind; [apply getStatus_safe|]. intro.
      safe_tac ltac:(unfold _validateGasCosts).
    + safe_tac ltac:(unfold _validateGasCosts).
  - apply safe_bind; [apply safe_call; reflexivity|]. intros [|].
    + apply safe_bind; [apply getStatus_safe|]. intro.
      safe_tac ltac:(unfold _validateGasCosts).
    + safe_tac ltac:(unfold _validateGasCosts).
Qed.

Lemma enhanced_disabled (w : World X) :
  validationEnabled this = false ->
  run (validateOpportunity breakerConfig now validateLiquidity
         validatePrices getFeeData getTokenPriceUsd
         configuredMaxGasPrice configuredMinProfitUsd this opportunity) w
  = {| outcome := inr disabledResult; world := w; trace := [] |}.
Proof. intro H. unfold run, validateOpportunity. rewrite H. reflexivity. Qed.

Lemma gas_ceiling_rejects (w : World X) (tr : list Event) (x3 x4 : X)
    (gasPrice : Z) (configured : option Q) :
  getFeeData (ext w) = (inr gasPrice, x3) ->
  configuredMaxGasPrice x3 = (inr configured, x4) ->
  Js.or_default configured 100 < ValidationManager.unitsToNumber gasPrice 9 ->
  _validateGasCosts getFeeData getTokenPriceUsd configuredMaxGasPrice
    configuredMinProfitUsd opportunity w tr
  = {| outcome :=
         inr [("isValid", VBool false);
              ("details",
               VObj [("reason",
                      VStr ("Gas price too high: "
                            ++ numberToString
                                 (ValidationManager.unitsToNumber gasPrice 9)
                            ++ " gwei > "
                            ++ numberToString (Js.or_default configured 100)
                            ++ " gwei"));
                     ("gasPrice",
                      VNum (ValidationManager.unitsToNumber gasPrice 9));
                     ("maxGasPrice", VNum (Js.or_default configured 100))])]%string;
       world := {| breaker := breaker w; ext := x4 |};
       trace := (tr ++ [Called Provider]) ++ [Called Settings] |}.
Proof.
  intros Fee Cfg Gt. apply (proj2 (JsFacts.gt_spec _ _)) in Gt.
  unfold _validateGasCosts. apply run_try_ok.
  erewrite run_call_ok by (unfold onExt; rewrite Fee; reflexivity).
  cbv beta zeta.
  erewrite run_call_ok by (unfold onExt; cbn [ext]; rewrite Cfg; reflexivity).
  cbv beta zeta. rewrite Gt. reflexivity.
Qed.

Lemma enhanced_gas_rejection (w : World X) (m1 : CircuitBreakerManager.Manager)
    (amount : Z) (liquidity prices : Obj) (x1 x2 x3 x4 : X)
    (gasPrice : Z) (configured : option Q) :
  validationEnabled this = true ->
  CircuitBreakerManager.isTripped breakerConfig now (breaker w) = (false, m1) ->
  ValidationManager.parseUnits (Plain (amountIn opportunity))
    (_getDecimals (tokenA opportunity)) = inr amount ->
  validateLiquidity (tokenAAddress opportunity) (tokenBAddress opportunity)
    amount (buyDex opportunity) (ext w) = (inr (VObj liquidity), x1) ->
  isValid liquidity = true ->
  validatePrices (tokenA opportunity) (tokenB opportunity) (buyDex opportunity)
    (sellDex opportunity) (profitUsd opportunity) x1 = (inr (VObj prices), x2) ->
  isValid prices = true ->
  getFeeData x2 = (inr gasPrice, x3) ->
  configuredMaxGasPrice x3 = (inr configured, x4) ->
  Js.or_default configured 100 < ValidationManager.unitsToNumber gasPrice 9 ->
  let rejection :=
    VObj [("isValid", VBool false);
          ("details",
           VObj [("reason",
                  VStr ("Gas price too high: "
                        ++ numberToString (ValidationManager.unitsToNumber gasPrice 9)
                        ++ " gwei > "
                        ++ numberToString (Js.or_default configured 100)
                        ++ " gwei"));
                 ("gasPrice", VNum (ValidationManager.unitsToNumber gasPrice 9));
                 ("maxGasPrice", VNum (Js.or_default configured 100))])]%string in
  run (validateOpportunity breakerConfig now validateLiquidity validatePrices
         getFeeData getTokenPriceUsd configuredMaxGasPrice configuredMinProfitUsd
         this opportunity) w
  = {| outcome := inr rejection;
       world := {| breaker := m1; ext := x4 |};
       trace := [Called Breaker;
                 Called LiquidityCheck;
                 Emitted "liquidityValidationResult" (VObj liquidity);
                 Called PriceCheck;
                 Emitted "priceValidationResult" (VObj prices);
                 Called Provider;
                 Called Settings;
                 Emitted "validationResult" rejection] |}.
Proof.
  intros En Tr Am Lq Lv Pr Pv Fee Cfg Gt rejection. subst rejection.
  unfold isValid in Lv, Pv.
  unfold run, validateOpportunity. rewrite En. cbn [negb].
  erewrite run_call_ok by (unfold isTripped; rewrite Tr; reflexivity).
  cbv beta iota. apply run_try_ok.
  rewrite Am, run_lift_ok.
  erewrite run_call_ok by (unfold onExt; cbn [ext]; rewrite Lq; reflexivity).
  rewrite run_emit. cbn [prop]. unfold ret. rewrite run_lift_ok, Lv. cbn [negb].
  erewrite run_call_ok by (unfold onExt; cbn [ext]; rewrite Pr; reflexivity).
  rewrite run_emit. cbn [prop]. rewrite run_lift_ok, Pv. cbn [negb].
  erewrite run_bind_ok
    by (apply gas_ceiling_rejects with (x3 := x3) (x4 := x4)
              (gasPrice := gasPrice) (configured := configured);
        [exact Fee | exact Cfg | exact Gt]).
  reflexivity.
Qed.

End Enhanced.

End OrchestratorFacts.

(** ** Where the gates sit *)

Module PipelineFacts.
Import JsObject Effects TraceFacts OrchestratorFacts.

(** C1 (as implemented). The base orchestrator
    ([ValidationManager.validateOpportunity], ceiling [maxGasPrice || 100])
    checks the gas price first: above the ceiling it returns the gas-price
    rejection and neither the liquidity nor the price validator is called.
    The orchestrator with the circuit-breaker gate
    ([EnhancedValidationManager.validateOpportunity]) reads the gas price
    only after the liquidity and the price validator were called, the
    breaker before them; when both passed and the gas price is above the
    ceiling it returns the gas-price rejection. *)
Theorem gas_gate_position {rt : Runtime} :
  (forall (W : Type)
          (getFeeData : W -> Outcome Z * W)
          (liquidityValidator priceValidator : Opportunity -> W -> Outcome Value * W)
          (this : ValidationManager.Instance) (opportunity : Opportunity)
          (w w1 : W) (gasPrice : Z),
     getFeeData w = (inr gasPrice, w1) ->
     ValidationManager.maxGasPrice this < ValidationManager.unitsToNumber gasPrice 9 ->
     let r := run (ValidationManager.validateOpportunity getFeeData
                     liquidityValidator priceValidator this opportunity) w in
     (exists rejection,
        outcome r = inr (VObj rejection) /\ isValid rejection = false /\
        get "check" (details rejection) = VStr "gas_price" /\
        get "reason" (details rejection)
        = VStr ("Gas price too high: "
                ++ toFixed 2 (ValidationManager.unitsToNumber gasPrice 9)
                ++ " gwei > "
                ++ numberToString (ValidationManager.maxGasPrice this) ++ " gwei")) /\
     ~ evaluated LiquidityCheck r /\ ~ evaluated PriceCheck r) /\
  (forall cfg : ValidationManager.Config,
     ValidationManager.maxGasPrice (ValidationManager.create cfg)
     = Js.or_default (ValidationManager.cfg_maxGasPrice cfg) 100) /\
  (forall (X : Type) (breakerConfig : CircuitBreakerManager.Config) (now : Q)
          (validateLiquidity : string -> string -> Z -> string -> X -> Outcome Value * X)
          (validatePrices : string -> string -> string -> string -> Q -> X
                            -> Outcome Value * X)
          (getFeeData : X -> Outcome Z * X)
          (getTokenPriceUsd : string -> X -> Outcome Q * X)
          (configuredMaxGasPrice : X -> Outcome (option Q) * X)
          (configuredMinProfitUsd : X -> Outcome Q * X)
          (this : EnhancedValidationManager.Instance) (opportunity : Opportunity)
          (w : EnhancedValidationManager.World X),
     let r := run (EnhancedValidationManager.validateOpportunity breakerConfig now
                     validateLiquidity validatePrices getFeeData getTokenPriceUsd
                     configuredMaxGasPrice configuredMinProfitUsd
                     this opportunity) w in
     (preceded_by Breaker LiquidityCheck (trace r) /\
      preceded_by LiquidityCheck Provider (trace r) /\
      preceded_by PriceCheck Provider (trace r)) /\
     forall (m1 : CircuitBreakerManager.Manager) (amount : Z)
            (liquidity prices : Obj) (x1 x2 x3 x4 : X)
            (gasPrice : Z) (configured : option Q),
       EnhancedValidationManager.validationEnabled this = true ->
       CircuitBreakerManager.isTripped breakerConfig now
         (EnhancedValidationManager.breaker w) = (false, m1) ->
       ValidationManager.parseUnits (Plain (amountIn opportunity))
         (EnhancedValidationManager._getDecimals (tokenA opportunity)) = inr amount ->
       validateLiquidity (tokenAAddress opportunity) (tokenBAddress opportunity)
         amount (buyDex opportunity) (EnhancedValidationManager.ext w)
       = (inr (VObj liquidity), x1) ->
       isValid liquidity = true ->
       validatePrices (tokenA opportunity) (tokenB opportunity)
         (buyDex opportunity) (sellDex opportunity) (profitUsd opportunity) x1
       = (inr (VObj prices), x2) ->
       isValid prices = true ->
       getFeeData x2 = (inr gasPrice, x3) ->
       configuredMaxGasPrice x3 = (inr configured, x4) ->
       Js.or_default configured 100 < ValidationManager.unitsToNumber gasPrice 9 ->
       (exists rejection,
          outcome r = inr (VObj rejection) /\ isValid rejection = false /\
          get "reason" (details rejection)
          = VStr ("Gas price too high: "
                  ++ numberToString (ValidationManager.unitsToNumber gasPrice 9)
                  ++ " gwei > " ++ numberToString (Js.or_default configured 100)
                  ++ " gwei")) /\
       evaluated LiquidityCheck r /\ evaluated PriceCheck r).
Proof.
  split; [|split].
  - intros W getFeeData liquidityValidator priceValidator this opportunity
      w w1 gasPrice Fee Gt r. subst r.
    rewrite (base_gas_gate_first getFeeData liquidityValidator priceValidator
               this opportunity w w1 gasPrice Fee Gt).
    unfold evaluated. cbn [outcome trace].
    split; [|split].
    + eexists. split; [reflexivity|]. repeat split.
    + intros [H|[]]. discriminate H.
    + intros [H|[]]. discriminate H.
  - reflexivity.
  - intros X breakerConfig now validateLiquidity validatePrices getFeeData
      getTokenPriceUsd configuredMaxGasPrice configuredMinProfitUsd
      this opportunity w r.
    split.
    + destruct (enhanced_gas_gate_order breakerConfig now validateLiquidity
                  validatePrices getFeeData getTokenPriceUsd
                  configuredMaxGasPrice configuredMinProfitUsd
                  this opportunity w) as (B & _ & L & P).
      auto.
    + intros m1 amount liquidity prices x1 x2 x3 x4 gasPrice configured
        En Tr Am Lq Lv Pr Pv Fee Cfg Gt.
      subst r.
      rewrite (enhanced_gas_rejection breakerConfig now validateLiquidity
                 validatePrices getFeeData getTokenPriceUsd
                 configuredMaxGasPrice configuredMinProfitUsd this opportunity
                 w m1 amount liquidity prices x1 x2 x3 x4 gasPrice configured
                 En Tr Am Lq Lv Pr Pv Fee Cfg Gt).
      unfold evaluated. cbn [outcome trace].
      split; [|split].
      * eexists. split; [reflexivity|]. split; reflexivity.
      * cbn. auto.
      * cbn. auto.
Qed.

(** With gas at 200 gwei the base orchestrator stops at the gas gate. *)
Lemma gas_gate_position_witness :
  let r := run (ValidationManager.validateOpportunity (rt := sampleRuntime)
                  (ValidationManager.sampleFeeData 200)
                  (ValidationManager.answering (inr ValidationManager.accepted))
                  (ValidationManager.answering (inr ValidationManager.accepted))
                  ValidationManager.sampleInstance
                  ValidationManager.sampleOpportunity) tt in
  ~ evaluated LiquidityCheck r /\ ~ evaluated PriceCheck r.
Proof.
  intro r.
  apply (proj1 (gas_gate_position (rt := sampleRuntime)) unit
           (ValidationManager.sampleFeeData 200)
           (ValidationManager.answering (inr ValidationManager.accepted))
           (ValidationManager.answering (inr ValidationManager.accepted))
           ValidationManager.sampleInstance ValidationManager.sampleOpportunity
           tt tt 200000000000%Z eq_refl eq_refl).
Defined.

(** C1 does not hold on the orchestrator that has the circuit-breaker
    gate. With gas at 200 gwei, above the ceiling of 100: when the liquidity
    validator rejects, the verdict is its rejection, the gas price is never
    read and the reason does not cite it; when the liquidity and the price
    validator accept, the gas-price rejection comes back after both of them
    were evaluated. *)
Lemma gas_gate_is_not_first :
  let validate liquidity :=
    run (EnhancedValidationManager.validateOpportunity (rt := sampleRuntime)
           CircuitBreakerManager.sampleConfig 5000
           (EnhancedValidationManager.sampleLiquidity (inr liquidity))
           (EnhancedValidationManager.samplePrices (inr ValidationManager.accepted))
           (ValidationManager.sampleFeeData 200)
           EnhancedValidationManager.samplePriceFeed
           EnhancedValidationManager.sampleMaxGasPrice
           EnhancedValidationManager.sampleMinProfitUsd
           EnhancedValidationManager.create
           ValidationManager.sampleOpportunity)
        EnhancedValidationManager.freshWorld in
  100 < ValidationManager.unitsToNumber 200000000000 9 /\
  (outcome (validate (ValidationManager.rejected "Insufficient liquidity"))
   = inr (ValidationManager.rejected "Insufficient liquidity") /\
   evaluated LiquidityCheck
     (validate (ValidationManager.rejected "Insufficient liquidity")) /\
   ~ evaluated Provider
       (validate (ValidationManager.rejected "Insufficient liquidity"))) /\
  (trace (validate ValidationManager.accepted)
   = [Called Breaker;
      Called LiquidityCheck;
      Emitted "liquidityValidationResult" ValidationManager.accepted;
      Called PriceCheck;
      Emitted "priceValidationResult" ValidationManager.accepted;
      Called Provider;
      Called Settings;
      Emitted "validationResult"
        (VObj [("isValid", VBool false);
               ("details",
                VObj [("reason", VStr "Gas price too high: 200 gwei > 100 gwei");
                      ("gasPrice",
                       VNum (ValidationManager.unitsToNumber 200000000000 9));
                      ("maxGasPrice", VNum 100)])])]%string).
Proof.
  cbv zeta. split; [reflexivity|]. split; [split; [|split]|].
  - reflexivity.
  - unfold evaluated. vm_compute. auto.
  - unfold evaluated. vm_compute. intuition discriminate.
  - reflexivity.
Qed.

(** C9 (as implemented). Neither orchestrator throws, and when a
    sub-validator (the liquidity or the price validator) throws [e] the
    verdict is the rejection whose reason is ["Validation error: "] followed
    by [e.message]. *)
Theorem sub_validator_exception_is_rejection {rt : Runtime} :
  (forall (W : Type)
          (getFeeData : W -> Outcome Z * W)
          (liquidityValidator priceValidator : Opportunity -> W -> Outcome Value * W)
          (this : ValidationManager.Instance) (opportunity : Opportunity) (w : W),
     let r := run (ValidationManager.validateOpportunity getFeeData
                     liquidityValidator priceValidator this opportunity) w in
     (exists verdict, outcome r = inr verdict) /\
     forall c e, In (Threw c e) (trace r) -> c = LiquidityCheck \/ c = PriceCheck ->
       outcome r
       = inr (VObj [("isValid", VBool false);
                    ("details",
                     VObj [("reason", VStr ("Validation error: " ++ message e));
                           ("error", VObj [("message", VStr (message e))])])])%string) /\
  (forall (X : Type) (breakerConfig : CircuitBreakerManager.Config) (now : Q)
          (validateLiquidity : string -> string -> Z -> string -> X -> Outcome Value * X)
          (validatePrices : string -> string -> string -> string -> Q -> X
                            -> Outcome Value * X)
          (getFeeData : X -> Outcome Z * X)
          (getTokenPriceUsd : string -> X -> Outcome Q * X)
          (configuredMaxGasPrice : X -> Outcome (option Q) * X)
          (configuredMinProfitUsd : X -> Outcome Q * X)
          (this : EnhancedValidationManager.Instance) (opportunity : Opportunity)
          (w : EnhancedValidationManager.World X),
     let r := run (EnhancedValidationManager.validateOpportunity breakerConfig now
                     validateLiquidity validatePrices getFeeData getTokenPriceUsd
                     configuredMaxGasPrice configuredMinProfitUsd
                     this opportunity) w in
     (exists verdict, outcome r = inr verdict) /\
     forall c e, In (Threw c e) (trace r) -> c = LiquidityCheck \/ c = PriceCheck ->
       outcome r
       = inr (VObj [("isValid", VBool false);
                    ("details",
                     VObj [("reason", VStr ("Validation error: " ++ message e));
                           ("error", VStr (message e))])])%string).
Proof.
  split.
  - intros W getFeeData liquidityValidator priceValidator this opportunity w r.
    destruct (converted_run _ _ w
                (base_converted getFeeData liquidityValidator priceValidator
                   this opportunity)) as [T C].
    split; [exact T|]. intros c e I S. subst r.
    rewrite (C c e I); [reflexivity|]. destruct S; subst; reflexivity.
  - intros X breakerConfig now validateLiquidity validatePrices getFeeData
      getTokenPriceUsd configuredMaxGasPrice configuredMinProfitUsd
      this opportunity w r.
    destruct (converted_run _ _ w
                (enhanced_converted breakerConfig now validateLiquidity
                   validatePrices getFeeData getTokenPriceUsd
                   configuredMaxGasPrice configuredMinProfitUsd
                   this opportunity)) as [T C].
    split; [exact T|]. intros c e I S. subst r.
    rewrite (C c e I); [reflexivity|]. destruct S; subst; reflexivity.
Qed.

(** A liquidity validator that throws "no route" yields the rejection, not
    an exception. *)
Lemma sub_validator_exception_is_rejection_witness :
  outcome
    (run (ValidationManager.validateOpportunity (rt := sampleRuntime)
            (ValidationManager.sampleFeeData 20)
            (ValidationManager.answering (inl {| message := "no route" |}))
            (ValidationManager.answering (inr ValidationManager.accepted))
            ValidationManager.sampleInstance
            ValidationManager.sampleOpportunity) tt)
  = inr (VObj [("isValid", VBool false);
               ("details",
                VObj [("reason", VStr "Validation error: no route");
                      ("error", VObj [("message", VStr "no route")])])])%string.
Proof.
  apply (proj2 (proj1 (sub_validator_exception_is_rejection (rt := sampleRuntime))
                  unit (ValidationManager.sampleFeeData 20)
                  (ValidationManager.answering (inl {| message := "no route" |}))
                  (ValidationManager.answering (inr ValidationManager.accepted))
                  ValidationManager.sampleInstance
                  ValidationManager.sampleOpportunity tt)
           LiquidityCheck {| message := "no route" |}).
  - vm_compute. auto.
  - left. reflexivity.
Defined.

(** C9 does not hold for the lowercase text of the reason: it starts with a capital
    letter in both orchestrators. *)
Lemma lowercase_reason_fails :
  let thrown := {| message := "no route" |} in
  let base :=
    run (ValidationManager.validateOpportunity (rt := sampleRuntime)
           (ValidationManager.sampleFeeData 20)
           (ValidationManager.answering (inl thrown))
           (ValidationManager.answering (inr ValidationManager.accepted))
           ValidationManager.sampleInstance
           ValidationManager.sampleOpportunity) tt in
  let enhanced :=
    run (EnhancedValidationManager.validateOpportunity (rt := sampleRuntime)
           CircuitBreakerManager.sampleConfig 5000
           (EnhancedValidationManager.sampleLiquidity (inl thrown))
           (EnhancedValidationManager.samplePrices (inr ValidationManager.accepted))
           (ValidationManager.sampleFeeData 20)
           EnhancedValidationManager.samplePriceFeed
           EnhancedValidationManager.sampleMaxGasPrice
           EnhancedValidationManager.sampleMinProfitUsd
           EnhancedValidationManager.create
           ValidationManager.sampleOpportunity)
        EnhancedValidationManager.freshWorld in
  (exists verdict,
     outcome base = inr (VObj verdict) /\
     get "reason" (details verdict) = VStr "Validation error: no route" /\
     get "reason" (details verdict)
     <> VStr ("validation error: " ++ message thrown)) /\
  (exists verdict,
     outcome enhanced = inr (VObj verdict) /\
     get "reason" (details verdict) = VStr "Validation error: no route" /\
     get "reason" (details verdict)
     <> VStr ("validation error: " ++ message thrown)).
Proof.
  cbv zeta. split; eexists; (split; [reflexivity|]);
    (split; [reflexivity | discriminate]).
Qed.

(** C10. After [setValidationEnabled(false)] every call of
    [validateOpportunity] returns [{isValid: true}] with the reason
    'Validation disabled'; the breaker, the validators and the gas price are
    not consulted and the breaker's state is left as it was. *)
Theorem disabled_validation_bypasses_breaker {rt : Runtime}
    (X : Type) (breakerConfig : CircuitBreakerManager.Config) (now : Q)
    (validateLiquidity : string -> string -> Z -> string -> X -> Outcome Value * X)
    (validatePrices : string -> string -> string -> string -> Q -> X
                      -> Outcome Value * X)
    (getFeeData : X -> Outcome Z * X)
    (getTokenPriceUsd : string -> X -> Outcome Q * X)
    (configuredMaxGasPrice : X -> Outcome (option Q) * X)
    (configuredMinProfitUsd : X -> Outcome Q * X)
    (this : EnhancedValidationManager.Instance) (opportunity : Opportunity)
    (w : EnhancedValidationManager.World X) :
  run (EnhancedValidationManager.validateOpportunity breakerConfig now
         validateLiquidity validatePrices getFeeData getTokenPriceUsd
         configuredMaxGasPrice configuredMinProfitUsd
         (EnhancedValidationManager.setValidationEnabled false this)
         opportunity) w
  = {| outcome :=
         inr (VObj [("isValid", VBool true);
                    ("details", VObj [("reason", VStr "Validation disabled")])])%string;
       world := w;
       trace := [] |}.
Proof.
  apply enhanced_disabled. reflexivity.
Qed.

(** While the breaker is in its cooldown and [isTripped()] says so, a
    disabled validation still answers valid and leaves the breaker alone. *)
Lemma disabled_validation_bypasses_breaker_witness :
  fst (CircuitBreakerManager.isTripped CircuitBreakerManager.sampleConfig 5000
         (EnhancedValidationManager.breaker EnhancedValidationManager.trippedWorld))
  = true /\
  run (EnhancedValidationManager.validateOpportunity (rt := sampleRuntime)
         CircuitBreakerManager.sampleConfig 5000
         (EnhancedValidationManager.sampleLiquidity (inr ValidationManager.accepted))
         (EnhancedValidationManager.samplePrices (inr ValidationManager.accepted))
         (ValidationManager.sampleFeeData 20)
         EnhancedValidationManager.samplePriceFeed
         EnhancedValidationManager.sampleMaxGasPrice
         EnhancedValidationManager.sampleMinProfitUsd
         (EnhancedValidationManager.setValidationEnabled false
            EnhancedValidationManager.create)
         ValidationManager.sampleOpportunity)
      EnhancedValidationManager.trippedWorld
  = {| outcome :=
         inr (VObj [("isValid", VBool true);
                    ("details", VObj [("reason", VStr "Validation disabled")])])%string;
       world := EnhancedValidationManager.trippedWorld;
       trace := [] |}.
Proof.
  split; [reflexivity|].
  apply (disabled_validation_bypasses_breaker (rt := sampleRuntime)).
Defined.

End PipelineFacts.

(** ** The circuit breaker over arbitrary call sequences *)

Module BreakerTimelineFacts.
Import JsObject CircuitBreakerManager BreakerTimeline.

(** *** [slice(-n)] keeps a suffix *)

Lemma slice_from_suffix {A} (k : Z) (l : list A) :
  exists old, l = old ++ Js.slice_from k l.
Proof.
  unfold Js.slice_from. eexists. symmetry. apply firstn_skipn.
Qed.

Lemma slice_from_length {A} (n : nat) (l : list A) :
  (0 < n)%nat -> (List.length (Js.slice_from (- Z.of_nat n) l) <= n)%nat.
Proof.
  intro N. unfold Js.slice_from. cbv zeta. rewrite length_skipn.
  destruct (- Z.of_nat n <? 0)%Z eqn:E; lia.
Qed.

Lemma slice_from_nonempty {A} (n : nat) (l : list A) :
  (0 < n)%nat -> l <> [] -> Js.slice_from (- Z.of_nat n) l <> [].
Proof.
  intros N L S. apply (f_equal (@List.length A)) in S.
  unfold Js.slice_from in S. cbv zeta in S. rewrite length_skipn in S.
  destruct l as [|x l]; [congruence|]. cbn [List.length] in S.
  destruct (- Z.of_nat n <? 0)%Z eqn:E; lia.
Qed.

Lemma last_suffix {A} (old s : list A) (d : A) :
  s <> [] -> last (old ++ s) d = last s d.
Proof.
  intro S. induction old as [|x old IH]; [reflexivity|].
  cbn [app]. destruct (old ++ s) eqn:E.
  - apply app_eq_nil in E. destruct E. contradiction.
  - rewrite <- IH. reflexivity.
Qed.

Lemma slice_from_last {A} (n : nat) (l : list A) (d : A) :
  (0 < n)%nat -> l <> [] -> last (Js.slice_from (- Z.of_nat n) l) d = last l d.
Proof.
  intros N L. destruct (slice_from_suffix (- Z.of_nat n) l) as [old E].
  rewrite E at 2. symmetry. apply last_suffix.
  now apply slice_from_nonempty.
Qed.

Lemma slice_from_neg {A} (n : nat) (l : list A) :
  (0 < n)%nat -> Js.slice_from (- Z.of_nat n) l = skipn (List.length l - n) l.
Proof.
  intro N. unfold Js.slice_from. cbv zeta.
  destruct (- Z.of_nat n <? 0)%Z eqn:E; [|lia].
  f_equal. lia.
Qed.

(** [slice(-n)] is exactly the last [n] entries, or all of them. *)
Lemma slice_from_exact {A} (n : nat) (l : list A) :
  (0 < n)%nat ->
  List.length (Js.slice_from (- Z.of_nat n) l) = Nat.min n (List.length l) /\
  exists old, l = old ++ Js.slice_from (- Z.of_nat n) l.
Proof.
  intro N. split; [|apply slice_from_suffix].
  rewrite slice_from_neg by exact N. rewrite length_skipn. lia.
Qed.

(** The last [k] of the last [n] entries are the last [k] entries. *)
Lemma slice_from_slice {A} (k n : nat) (l : list A) :
  (0 < k <= n)%nat ->
  Js.slice_from (- Z.of_nat k) (Js.slice_from (- Z.of_nat n) l)
  = Js.slice_from (- Z.of_nat k) l.
Proof.
  intros (K & KN).
  rewrite (slice_from_neg n l) by lia.
  rewrite !slice_from_neg by exact K.
  rewrite length_skipn, skipn_skipn. f_equal. lia.
Qed.

(** *** What a trip leaves alone, enabled or not *)

Lemma trip_ledger cfg clock r d m :
  dailyLoss (state (tripCircuitBreaker cfg clock r d m)) = dailyLoss (state m) /\
  executionHistory (state (tripCircuitBreaker cfg clock r d m))
  = executionHistory (state m) /\
  consecutiveFailures (state (tripCircuitBreaker cfg clock r d m))
  = consecutiveFailures (state m).
Proof. unfold tripCircuitBreaker. destruct (enabled cfg); cbn; auto. Qed.

Lemma totalLoss_snoc h e :
  totalLoss (h ++ [e]) = (totalLoss h + lossOf e)%Z.
Proof.
  unfold totalLoss. induction h as [|x h IH]; cbn [app fold_right]; [lia|].
  rewrite IH. lia.
Qed.

Lemma totalLoss_nonneg h : (0 <= totalLoss h)%Z.
Proof.
  unfold totalLoss. induction h as [|x h IH]; cbn [fold_right]; [lia|].
  unfold lossOf at 1. destruct (ex_netProfit x >? 0)%Z; lia.
Qed.

Lemma recorded_balanced now p g tk s :
  dailyLoss s = totalLoss (executionHistory s) ->
  dailyLoss (recorded now p g tk s)
  = totalLoss (executionHistory (recorded now p g tk s)).
Proof.
  intro B. unfold recorded.
  destruct (p - g >? 0)%Z eqn:E; cbn [dailyLoss executionHistory];
    rewrite totalLoss_snoc; unfold lossOf; cbn [ex_netProfit]; rewrite E, B.
  - lia.
  - destruct (p - g <? 0)%Z eqn:F; lia.
Qed.

(** *** Invariants of the calls *)

Section Invariant.
Variable cfg : Config.
Variable P : Manager -> Prop.
(** [P] survives a trip that sees the clock as the call [op] may show it,
    and every update that leaves flag, deadline and breach log alone or
    clears the flag. *)
Variable seen : Js.Clock -> Prop.
Hypothesis seen_later : forall k clock, seen clock -> seen (Js.later k clock).
Hypothesis P_trip :
  forall clock r d m, seen clock -> P m -> P (tripCircuitBreaker cfg clock r d m).
Hypothesis P_recorded :
  forall now p g tk m,
    P m -> P {| state := recorded now p g tk (state m); reports := reports m |}.

Lemma invariant_record m c : seen (c_clock c) -> P m -> P (record cfg m c).
Proof.
  intros S B. unfold record, recordExecution.
  destruct (enabled cfg); cbn [negb]; [|exact B].
  pose proof (P_recorded (c_clock c 0%nat) (c_profit c) (c_gasUsed c)
                (c_tokens c) m B) as B1.
  cbv zeta.
  match goal with
  | |- P (if _ then _ else ?m2) => assert (B2 : P m2)
  end.
  { destruct (_ >? 0)%Z; [exact B1|].
    destruct (_ >=? _)%Z; [apply P_trip; auto | exact B1]. }
  destruct (_ >? maxDailyLoss cfg)%Z; [apply P_trip; auto | exact B2].
Qed.

Lemma invariant_market clock d a m :
  seen clock -> P m -> P (snd (checkMarketConditions cfg clock d a m)).
Proof.
  intros S B. unfold checkMarketConditions.
  destruct (negb (enabled cfg) || active (state m)); [exact B|].
  destruct d as [d|], a as [a|];
    repeat match goal with
           | |- context [if ?c then _ else _] => destruct c
           end; cbn [snd]; try exact B; now apply P_trip.
Qed.

End Invariant.

Lemma balanced_trip cfg clock r d m :
  balanced m -> balanced (tripCircuitBreaker cfg clock r d m).
Proof.
  unfold balanced. intro B.
  destruct (trip_ledger cfg clock r d m) as (D & H & _). now rewrite D, H.
Qed.

Lemma balanced_record cfg m c : balanced m -> balanced (record cfg m c).
Proof.
  apply (invariant_record cfg balanced (fun _ => True)); auto.
  - intros. now apply balanced_trip.
  - intros now p g tk m0 B. unfold balanced. cbn [state].
    now apply recorded_balanced.
Qed.

Lemma balanced_isTripped cfg now m : balanced m -> balanced (snd (isTripped cfg now m)).
Proof.
  intro B. unfold isTripped.
  destruct (negb (enabled cfg)); [exact B|].
  destruct (active (state m) && Js.lt now (cooldownUntil (state m))); [exact B|].
  destruct (active (state m)); exact B.
Qed.

Lemma balanced_market cfg clock d a m :
  balanced m -> balanced (snd (checkMarketConditions cfg clock d a m)).
Proof.
  apply (invariant_market cfg balanced (fun _ => True)); auto.
  intros. now apply balanced_trip.
Qed.

Lemma balanced_step cfg m op : balanced m -> balanced (step cfg m op).
Proof.
  intro B. destruct op; cbn [step].
  - now apply balanced_record.
  - now apply balanced_isTripped.
  - now apply balanced_market.
  - now apply balanced_trip.
  - reflexivity.
Qed.

Lemma after_snoc cfg ops op m :
  after cfg (ops ++ [op]) m = step cfg (after cfg ops m) op.
Proof. unfold after. now rewrite fold_left_app. Qed.

Lemma balanced_after cfg ops m : balanced m -> balanced (after cfg ops m).
Proof.
  intro B. induction ops as [|op ops IH] using rev_ind; [exact B|].
  rewrite after_snoc. now apply balanced_step.
Qed.

Lemma create_fresh cfg t0 m0 :
  create cfg t0 = Some m0 -> enabled cfg = true /\ m0 = fresh t0.
Proof.
  unfold create. destruct (enabled cfg); cbn [negb]; [|discriminate].
  intro H. injection H as <-. auto.
Qed.

(** X1. On the singleton the constructor builds (circuit breakers
    enabled), whatever calls it has served since, recordings, queries,
    market checks, manual trips and midnight resets in any order,
    [dailyLoss] is the sum of the losses of the executions in
    [executionHistory] (the absolute net profit of each execution whose net
    profit is not positive), and it is never negative. *)
Theorem daily_loss_is_history_total (cfg : Config) (ops : list Op) (t0 : Q)
    (m0 : Manager) :
  create cfg t0 = Some m0 ->
  let m := after cfg ops m0 in
  dailyLoss (state m) = totalLoss (executionHistory (state m)) /\
  (0 <= dailyLoss (state m))%Z.
Proof.
  intro Built. cbv zeta.
  apply create_fresh in Built. destruct Built as (_ & ->).
  assert (B : balanced (after cfg ops (fresh t0))).
  { apply balanced_after. reflexivity. }
  split; [exact B|]. rewrite B. apply totalLoss_nonneg.
Qed.

Lemma daily_loss_is_history_total_witness :
  let m := after sampleConfig
             [RecordExecution (sampleCall 1000 0 5);
              CheckMarketConditions (Js.steady 2000) (Some 12) None;
              RecordExecution (sampleCall 3000 9 2);
              ResetDailyStats 86400000;
              RecordExecution (sampleCall 86400001 0 7)]
             (fresh 0) in
  dailyLoss (state m) = totalLoss (executionHistory (state m)) /\
  (0 <= dailyLoss (state m))%Z.
Proof.
  apply (daily_loss_is_history_total sampleConfig
           [RecordExecution (sampleCall 1000 0 5);
            CheckMarketConditions (Js.steady 2000) (Some 12) None;
            RecordExecution (sampleCall 3000 9 2);
            ResetDailyStats 86400000;
            RecordExecution (sampleCall 86400001 0 7)]
           0 (fresh 0)).
  reflexivity.
Defined.

(** *** The breach log *)

Lemma audited_trip cfg clock r d m :
  audited m -> audited (tripCircuitBreaker cfg clock r d m).
Proof.
  intros (A & C). unfold tripCircuitBreaker.
  destruct (enabled cfg); cbn [negb]; [|now split].
  unfold audited. cbn [state breaches active cooldownUntil].
  split.
  - intros _ N. apply app_eq_nil in N. destruct N; discriminate.
  - intros b _. now rewrite last_last.
Qed.

Lemma audited_same m s :
  breaches s = breaches (state m) ->
  cooldownUntil s = cooldownUntil (state m) ->
  (active s = true -> active (state m) = true) ->
  audited m -> audited {| state := s; reports := reports m |}.
Proof.
  intros B C A (N & L). unfold audited. cbn [state].
  rewrite B, C. split; auto.
Qed.

Lemma audited_recorded now p g tk m :
  audited m ->
  audited {| state := recorded now p g tk (state m); reports := reports m |}.
Proof.
  apply audited_same; unfold recorded; destruct (p - g >? 0)%Z; auto.
Qed.

Lemma audited_record cfg m c : audited m -> audited (record cfg m c).
Proof.
  apply (invariant_record cfg audited (fun _ => True)); auto.
  - intros. now apply audited_trip.
  - intros. now apply audited_recorded.
Qed.

Lemma audited_isTripped cfg now m :
  audited m -> audited (snd (isTripped cfg now m)).
Proof.
  intro B. unfold isTripped.
  destruct (negb (enabled cfg)); [exact B|].
  destruct (active (state m) && Js.lt now (cooldownUntil (state m))); [exact B|].
  destruct (active (state m)) eqn:E; [|exact B].
  cbn [snd]. destruct B as (N & L).
  unfold audited. cbn [state breaches active cooldownUntil].
  split; [discriminate | exact L].
Qed.

Lemma audited_market cfg clock d a m :
  audited m -> audited (snd (checkMarketConditions cfg clock d a m)).
Proof.
  apply (invariant_market cfg audited (fun _ => True)); auto.
  intros. now apply audited_trip.
Qed.

Lemma audited_reset now m :
  audited m -> audited (try_catch (resetDailyStats now (Some m)) (fun _ => m)).
Proof.
  intros (N & L). unfold resetDailyStats, audited.
  cbn [try_catch ret state breaches active cooldownUntil].
  change (-10)%Z with (- Z.of_nat 10)%Z.
  split.
  - intro A. apply slice_from_nonempty; [lia | auto].
  - intros b S.
    assert (NE : breaches (state m) <> []).
    { intro Z0. apply S. rewrite Z0. reflexivity. }
    rewrite slice_from_last by (lia || assumption). auto.
Qed.

Lemma audited_step cfg m op : audited m -> audited (step cfg m op).
Proof.
  intro B. destruct op; cbn [step].
  - now apply audited_record.
  - now apply audited_isTripped.
  - now apply audited_market.
  - now apply audited_trip.
  - now apply audited_reset.
Qed.

Lemma audited_after cfg ops t0 : audited (after cfg ops (fresh t0)).
Proof.
  induction ops as [|op ops IH] using rev_ind.
  - unfold audited. cbn. split; [discriminate | congruence].
  - rewrite after_snoc. now apply audited_step.
Qed.

(** *** Deadlines and timestamps *)

Lemma monotone_later k clock : monotone clock -> monotone (Js.later k clock).
Proof.
  intros M i. unfold Js.later. replace (k + S i)%nat with (S (k + i)) by lia.
  apply M.
Qed.

Lemma punctual_trip cfg clock r d m :
  monotone clock -> punctual cfg m -> punctual cfg (tripCircuitBreaker cfg clock r d m).
Proof.
  intros M T. unfold tripCircuitBreaker.
  destruct (enabled cfg); cbn [negb]; [|exact T].
  unfold punctual. cbn [state breaches].
  apply Forall_app. split; [exact T|].
  constructor; [|constructor]. unfold timed. cbn [br_cooldownUntil br_timestamp].
  pose proof (M 0%nat). lra.
Qed.

Lemma punctual_same cfg m s :
  breaches s = breaches (state m) ->
  punctual cfg m -> punctual cfg {| state := s; reports := reports m |}.
Proof. unfold punctual. cbn [state]. now intros ->. Qed.

Lemma punctual_step cfg m op :
  orderly op -> punctual cfg m -> punctual cfg (step cfg m op).
Proof.
  intros O T. destruct op; cbn [step orderly] in *.
  - revert T. apply (invariant_record cfg (punctual cfg) monotone); auto.
    + intros. now apply monotone_later.
    + intros. now apply punctual_trip.
    + intros. apply punctual_same; [|assumption].
      unfold recorded. destruct (_ >? 0)%Z; reflexivity.
  - unfold isTripped.
    destruct (negb (enabled cfg)); [exact T|].
    destruct (active (state m) && Js.lt now (cooldownUntil (state m))); [exact T|].
    destruct (active (state m)); exact T.
  - revert T. apply (invariant_market cfg (punctual cfg) monotone); auto.
    intros. now apply punctual_trip.
  - now apply punctual_trip.
  - unfold punctual, resetDailyStats in *. cbn [try_catch ret state breaches].
    destruct (slice_from_suffix (-10) (breaches (state m))) as [old E].
    rewrite E in T. apply Forall_app in T. apply T.
Qed.

Lemma punctual_after cfg ops t0 :
  Forall orderly ops -> punctual cfg (after cfg ops (fresh t0)).
Proof.
  induction ops as [|op ops IH] using rev_ind; intro O.
  - constructor.
  - apply Forall_app in O. destruct O as (O & Oop).
    inversion Oop; subst.
    rewrite after_snoc. apply punctual_step; auto.
Qed.

(** X2. On the singleton the constructor builds (circuit breakers
    enabled), whatever calls it has served since, the flag and the deadline
    agree with the breach log: while [active] is set the log is not empty,
    and whenever the log is not empty [cooldownUntil] is the deadline of the
    latest breach, so the cooldown always runs from the most recent trip.
    A trip reads the clock twice, first for the deadline and then for the
    breach's timestamp; so, as long as the clock did not run backwards
    during any call, every logged breach ends its cooldown no later than
    [cooldownPeriodMinutes] after its timestamp. *)
Theorem breach_log_explains_state (cfg : Config) (ops : list Op) (t0 : Q)
    (m0 : Manager) :
  create cfg t0 = Some m0 ->
  let m := after cfg ops m0 in
  (active (state m) = true -> breaches (state m) <> []) /\
  (forall b, breaches (state m) <> [] ->
             cooldownUntil (state m)
             = br_cooldownUntil (last (breaches (state m)) b)) /\
  (Forall orderly ops ->
   Forall (fun b => br_cooldownUntil b
                    <= br_timestamp b + cooldownPeriodMinutes cfg * 60 * 1000)
          (breaches (state m))).
Proof.
  intro Built. cbv zeta.
  apply create_fresh in Built. destruct Built as (_ & ->).
  destruct (audited_after cfg ops t0) as (N & L).
  split; [exact N|]. split; [exact L|].
  intro O. exact (punctual_after cfg ops t0 O).
Qed.

(** Two failures at the limit of one: the second trip's deadline, taken at
    a later reading of the clock than its timestamp's, is what the breaker
    waits for. *)
Lemma breach_log_explains_state_witness :
  let tick (t : Q) : Js.Clock := fun i => t + inject_Z (Z.of_nat i) in
  let m := after sampleConfig
             [TripCircuitBreaker (tick 1000) "manual" NoDetails;
              IsTripped 2000;
              CheckMarketConditions (tick 3000) (Some 12) None;
              TripCircuitBreaker (tick 4000) "manual" NoDetails]
             (fresh 0) in
  active (state m) = true /\
  cooldownUntil (state m) == 4000 + 30 * 60 * 1000 /\
  List.length (breaches (state m)) = 2%nat.
Proof.
  intros tick m.
  destruct (breach_log_explains_state sampleConfig
              [TripCircuitBreaker (tick 1000) "manual" NoDetails;
               IsTripped 2000;
               CheckMarketConditions (tick 3000) (Some 12) None;
               TripCircuitBreaker (tick 4000) "manual" NoDetails]
              0 (fresh 0) eq_refl) as (_ & L & _).
  fold m in L.
  split; [reflexivity|]. split; [|reflexivity].
  rewrite (L {| br_timestamp := 0; br_reason := ""; br_details := NoDetails;
                br_cooldownUntil := 0 |}) by (vm_compute; discriminate).
  vm_compute. reflexivity.
Defined.

(** X3. The midnight reset, on a singleton that has its state, clears the
    ledger but not the trip.  [dailyLoss] and [executionHistory] are
    emptied, and the breach log is cut to exactly its last ten entries (all
    of them when there are fewer).  Flag, deadline and failure count are
    kept, so [isTripped()] answers after the reset what it answered before,
    and [getStatus()] shows the same flag, the same deadline and the same
    recent breaches as before, with the day's loss and execution count at
    zero. *)
Theorem reset_keeps_trip (cfg : Config) (now t : Q) (m : Manager) :
  exists m' status status',
    resetDailyStats now (Some m) = inr m' /\
    getStatus cfg (Some m) = inr status /\
    getStatus cfg (Some m') = inr status' /\
    dailyLoss (state m') = 0%Z /\
    executionHistory (state m') = [] /\
    List.length (breaches (state m'))
    = Nat.min 10 (List.length (breaches (state m))) /\
    (exists older, breaches (state m) = older ++ breaches (state m')) /\
    fst (isTripped cfg t m') = fst (isTripped cfg t m) /\
    active (state (snd (isTripped cfg t m')))
    = active (state (snd (isTripped cfg t m))) /\
    st_active status' = st_active status /\
    st_cooldownUntil status' = st_cooldownUntil status /\
    st_consecutiveFailures status' = st_consecutiveFailures status /\
    st_recentBreaches status' = st_recentBreaches status /\
    st_dailyLoss status' = 0%Z /\
    st_executionCount status' = 0%nat.
Proof.
  do 3 eexists.
  split; [reflexivity|]. split; [reflexivity|]. split; [reflexivity|].
  cbn [state dailyLoss executionHistory breaches st_active st_cooldownUntil
       st_consecutiveFailures st_recentBreaches st_dailyLoss st_executionCount
       active cooldownUntil consecutiveFailures List.length].
  change (-10)%Z with (- Z.of_nat 10)%Z.
  change (-3)%Z with (- Z.of_nat 3)%Z.
  destruct (slice_from_exact 10 (breaches (state m))) as (Len & Suf); [lia|].
  split; [reflexivity|]. split; [reflexivity|].
  split; [exact Len|]. split; [exact Suf|].
  split; [|split].
  - unfold isTripped. cbn [state active cooldownUntil].
    destruct (negb (enabled cfg)); [reflexivity|].
    destruct (active (state m) && Js.lt t (cooldownUntil (state m)));
      [reflexivity|].
    destruct (active (state m)); reflexivity.
  - unfold isTripped. cbn [state active cooldownUntil].
    destruct (negb (enabled cfg)); [reflexivity|].
    destruct (active (state m)) eqn:A; cbn [andb].
    + destruct (Js.lt t (cooldownUntil (state m))); cbn [snd state active];
        [now rewrite A | reflexivity].
    + cbn [snd state active]. now rewrite A.
  - repeat (split; [reflexivity|]).
    split; [|split; reflexivity].
    apply slice_from_slice. lia.
Qed.

(** X4. Consecutive failures are counted across midnight: when the
    failures recorded before a reset are one short of (or at)
    [maxConsecutiveFailures], the first execution with a non-positive net
    profit after the reset trips the breaker, although the day's history
    and loss were just emptied.  The cooldown runs from the reading of the
    clock its last trip took (the recording's second reading, or its fourth
    when the daily loss tripped as well). *)
Theorem failures_count_across_reset (cfg : Config) (now : Q) (m : Manager) (c : Call) :
  enabled cfg = true ->
  (netProfit c <= 0)%Z ->
  (maxConsecutiveFailures cfg <= consecutiveFailures (state m) + 1)%Z ->
  exists m1,
    resetDailyStats now (Some m) = inr m1 /\
    let m' := record cfg m1 c in
    active (state m') = true /\
    cooldownUntil (state m')
    = c_clock c (if (dailyLoss (state m') >? maxDailyLoss cfg)%Z then 3 else 1)%nat
      + cooldownPeriodMinutes cfg * 60 * 1000 /\
    List.length (executionHistory (state m')) = 1%nat.
Proof.
  intros E N L. eexists. split; [reflexivity|]. cbv zeta.
  match goal with
  | |- active (state (record cfg ?x c)) = true /\ _ => set (m1 := x)
  end.
  destruct (CircuitBreakerFacts.record_failure_trips cfg E m1 c N) as (A & C);
    [exact L|].
  split; [exact A|]. split; [exact C|].
  unfold record, recordExecution. rewrite E. cbn [negb]. cbv zeta.
  repeat match goal with
         | |- context [tripCircuitBreaker ?c ?n ?r ?d ?x] =>
             rewrite (proj1 (proj2 (trip_ledger c n r d x)))
         | |- List.length (executionHistory (state (if ?b then _ else _))) = _ =>
             destruct b
         end;
    cbn [state]; unfold recorded; destruct (_ >? 0)%Z; reflexivity.
Qed.

Lemma failures_count_across_reset_witness :
  exists m1,
    resetDailyStats 86400000
      (Some (recordAll sampleConfig [sampleCall 1000 0 5; sampleCall 2000 0 5]
               (fresh 0))) = inr m1 /\
    active (state (record sampleConfig m1 (sampleCall 86400001 0 5))) = true.
Proof.
  destruct (failures_count_across_reset sampleConfig 86400000
              (recordAll sampleConfig [sampleCall 1000 0 5; sampleCall 2000 0 5]
                 (fresh 0))
              (sampleCall 86400001 0 5) eq_refl
              ltac:(vm_compute; discriminate) ltac:(vm_compute; discriminate))
    as (m1 & R & A & _).
  exists m1. split; [exact R | exact A].
Defined.

(** X5. With [enabled] set, [checkMarketConditions] answers [false]
    exactly when the breaker was not active and either the reported price
    deviation is above [priceDeviationPercent] or the reported available
    liquidity is below [liquidityThresholdPercent]; it then trips the
    breaker at that moment, citing the price deviation when both apply: the
    cooldown runs from the first reading of the clock and the logged breach
    is stamped with the second.  In every other case, in particular while
    the breaker is already tripped, it answers [true] and changes
    nothing. *)
Theorem market_check_trips_or_passes (cfg : Config) (clock : Js.Clock)
    (d a : option Q) (m : Manager) :
  enabled cfg = true ->
  let r := checkMarketConditions cfg clock d a m in
  (fst r = false <->
   active (state m) = false /\
   (BotMonitoringIntegration.above d (priceDeviationPercent cfg) = true \/
    BotMonitoringIntegration.below a (liquidityThresholdPercent cfg) = true)) /\
  (fst r = false ->
   active (state (snd r)) = true /\
   cooldownUntil (state (snd r))
   = clock 0%nat + cooldownPeriodMinutes cfg * 60 * 1000 /\
   exists b,
     breaches (state (snd r)) = breaches (state m) ++ [b] /\
     br_timestamp b = clock 1%nat /\
     br_cooldownUntil b = cooldownUntil (state (snd r)) /\
     br_reason b =
       (if BotMonitoringIntegration.above d (priceDeviationPercent cfg)
        then "Excessive price deviation detected"
        else "Insufficient liquidity detected")%string) /\
  (fst r = true -> snd r = m).
Proof.
  intros E. cbv zeta. unfold checkMarketConditions. rewrite E. cbn [negb orb].
  unfold BotMonitoringIntegration.above, BotMonitoringIntegration.below.
  destruct (active (state m)) eqn:A.
  { cbn [fst snd]. split; [|split]; [split|..]; try discriminate; auto.
    intros (F & _). discriminate. }
  destruct d as [d|], a as [a|];
    repeat match goal with
           | |- context [if ?c then _ else _] => destruct c eqn:?
           end;
    cbn [fst snd];
    (split; [|split];
     [split; [intros _ + discriminate | intros (_ & [F|F])];
      try discriminate; try congruence; auto
     | intros _ + discriminate
     | discriminate + reflexivity]);
    rewrite ?(CircuitBreakerFacts.trip_active cfg E),
            ?(CircuitBreakerFacts.trip_cooldownUntil cfg E),
            ?(CircuitBreakerFacts.trip_breaches cfg E);
    (split; [reflexivity|]); (split; [reflexivity|]);
    eexists; (split; [reflexivity|]); (split; [reflexivity|]);
    (split; [|reflexivity]);
    cbn [br_cooldownUntil];
    rewrite ?(CircuitBreakerFacts.trip_cooldownUntil cfg E); reflexivity.
Qed.

Lemma market_check_trips_or_passes_witness :
  fst (checkMarketConditions sampleConfig (Js.steady 5000) (Some 12) None (fresh 0))
  = false /\
  fst (checkMarketConditions sampleConfig (Js.steady 6000) (Some 12) None
         (snd (checkMarketConditions sampleConfig (Js.steady 5000) (Some 12) None
                 (fresh 0))))
  = true.
Proof.
  split.
  - apply (proj1 (market_check_trips_or_passes sampleConfig (Js.steady 5000)
                    (Some 12) None (fresh 0) eq_refl)).
    split; [reflexivity | left; reflexivity].
  - reflexivity.
Defined.

(** X6. With [enabled] unset, recordings, queries, market checks and
    manual trips in any number and order change nothing: the singleton is
    left as it was, [isTripped()] answers [false] and
    [checkMarketConditions] answers [true]. *)
Theorem disabled_breaker_is_inert (cfg : Config) (ops : list Op) (m : Manager) :
  enabled cfg = false ->
  forallb guarded ops = true ->
  after cfg ops m = m /\
  (forall now, isTripped cfg now m = (false, m)) /\
  (forall clock d a, checkMarketConditions cfg clock d a m = (true, m)).
Proof.
  intros E G. split; [|split].
  - revert m. induction ops as [|op ops IH]; intro m; [reflexivity|].
    cbn [forallb] in G. apply andb_true_iff in G. destruct G as (G1 & G2).
    unfold after in *. cbn [fold_left].
    assert (S : step cfg m op = m).
    { destruct op; cbn [step]; try discriminate;
        unfold record, recordExecution, isTripped, checkMarketConditions,
          tripCircuitBreaker; rewrite E; reflexivity. }
    rewrite S. now apply IH.
  - intro now. unfold isTripped. now rewrite E.
  - intros clock d a. unfold checkMarketConditions. now rewrite E.
Qed.

Lemma disabled_breaker_is_inert_witness :
  after {| enabled := false; maxConsecutiveFailures := 1; maxDailyLoss := 0;
           cooldownPeriodMinutes := 30; priceDeviationPercent := 10;
           liquidityThresholdPercent := 50 |}
    [RecordExecution (sampleCall 1000 0 5);
     CheckMarketConditions (Js.steady 2000) (Some 99) None;
     TripCircuitBreaker (Js.steady 3000) "manual" NoDetails; IsTripped 4000]
    (fresh 0)
  = fresh 0.
Proof.
  apply (disabled_breaker_is_inert
           {| enabled := false; maxConsecutiveFailures := 1; maxDailyLoss := 0;
              cooldownPeriodMinutes := 30; priceDeviationPercent := 10;
              liquidityThresholdPercent := 50 |}
           [RecordExecution (sampleCall 1000 0 5);
            CheckMarketConditions (Js.steady 2000) (Some 99) None;
            TripCircuitBreaker (Js.steady 3000) "manual" NoDetails; IsTripped 4000]
           (fresh 0)); reflexivity.
Defined.

End BreakerTimelineFacts.

(** ** The breaker's event handlers *)

Module BotMonitoringFacts.
Import JsObject CircuitBreakerManager BotMonitoringIntegration.

(** X7. What the [executionCompleted] handler feeds the breaker, with
    [enabled] set.  A failed execution that names its tokens is recorded
    with zero profit, so it always counts as a failure: it adds one to
    [consecutiveFailures] and its gas cost to [dailyLoss], also when no gas
    cost is reported, and it trips the breaker when it reaches
    [maxConsecutiveFailures].  A failed execution without [tokens] is not
    recorded at all.  A successful execution is recorded with its own
    profit, and still counts as a failure when that profit does not exceed
    its gas cost.  The cooldown of such a trip runs from the reading of the
    clock the recording's last trip took (its second reading, or its fourth
    when the daily loss tripped as well). *)
Theorem execution_result_feeds_breaker (cfg : Config) (clock : Js.Clock)
    (result : ExecutionResult) (m : Manager) :
  enabled cfg = true ->
  (0 <= gasCostOrZero result)%Z ->
  (success result = false -> tokens result = None ->
   executionCompleted cfg clock result m = inr m) /\
  (success result = false -> tokens result <> None ->
   exists m',
     executionCompleted cfg clock result m = inr m' /\
     consecutiveFailures (state m')
     = (consecutiveFailures (state m) + 1)%Z /\
     dailyLoss (state m') = (dailyLoss (state m) + gasCostOrZero result)%Z /\
     ((maxConsecutiveFailures cfg <= consecutiveFailures (state m) + 1)%Z ->
      active (state m') = true /\
      cooldownUntil (state m')
      = clock (if (dailyLoss (state m') >? maxDailyLoss cfg)%Z then 3 else 1)%nat
        + cooldownPeriodMinutes cfg * 60 * 1000)) /\
  (forall t,
     success result = true -> tokens result = Some t ->
     exists m',
       executionCompleted cfg clock result m = inr m' /\
       consecutiveFailures (state m')
       = (if (profit result >? gasCostOrZero result)%Z then 0
          else consecutiveFailures (state m) + 1)%Z).
Proof.
  intros E G. split; [|split].
  - intros S T. unfold executionCompleted. now rewrite S, T.
  - intros S T. unfold executionCompleted. rewrite S.
    destruct (tokens result) as [t|]; [|congruence].
    eexists. split; [reflexivity|].
    change (recordExecution cfg clock 0 (gasCostOrZero result) t m)
      with (record cfg m {| c_clock := clock; c_profit := 0;
                            c_gasUsed := gasCostOrZero result; c_tokens := t |}).
    set (c := {| c_clock := clock; c_profit := 0;
                 c_gasUsed := gasCostOrZero result; c_tokens := t |}).
    assert (N : (netProfit c <= 0)%Z) by (unfold netProfit, c; cbn; lia).
    split; [now apply CircuitBreakerFacts.record_failure_count|].
    split.
    + rewrite (CircuitBreakerFacts.record_eq cfg E). cbv zeta.
      destruct (CircuitBreakerFacts.afterFailureCheck_failure cfg E m c N)
        as (_ & D & _).
      assert (D' : dailyLoss (state (afterFailureCheck cfg c m))
                   = (dailyLoss (state m) + gasCostOrZero result)%Z).
      { rewrite D. unfold netProfit, c. cbn. lia. }
      destruct (_ >? _)%Z;
        [rewrite (CircuitBreakerFacts.trip_dailyLoss cfg E)|]; exact D'.
    + intro L.
      exact (CircuitBreakerFacts.record_failure_trips cfg E m c N L).
  - intros t S T. unfold executionCompleted. rewrite S, T.
    eexists. split; [reflexivity|].
    change (recordExecution cfg clock (profit result) (gasCostOrZero result) t m)
      with (record cfg m {| c_clock := clock; c_profit := profit result;
                            c_gasUsed := gasCostOrZero result; c_tokens := t |}).
    destruct (profit result >? gasCostOrZero result)%Z eqn:C.
    + apply (CircuitBreakerFacts.record_success_count cfg E).
      unfold netProfit. cbn. lia.
    + apply (CircuitBreakerFacts.record_failure_count cfg E).
      unfold netProfit. cbn. lia.
Qed.

Lemma execution_result_feeds_breaker_witness :
  exists m',
    executionCompleted sampleConfig (Js.steady 3000)
      {| success := false; profit := 0; gasCost := None;
         tokens := Some ("WETH", "USDC")%string |}
      (recordAll sampleConfig [sampleCall 1000 0 5; sampleCall 2000 0 5] (fresh 0))
    = inr m' /\
    active (state m') = true.
Proof.
  destruct (proj1 (proj2
    (execution_result_feeds_breaker sampleConfig (Js.steady 3000)
       {| success := false; profit := 0; gasCost := None;
          tokens := Some ("WETH", "USDC")%string |}
       (recordAll sampleConfig [sampleCall 1000 0 5; sampleCall 2000 0 5] (fresh 0))
       eq_refl ltac:(vm_compute; discriminate)))
    eq_refl ltac:(discriminate)) as (m' & R & _ & _ & T).
  exists m'. split; [exact R|].
  apply T. vm_compute. discriminate.
Defined.

(** X8. The market handlers and the breaker read the same thresholds, so
    with [enabled] set a handler never asks in vain: when the
    [priceValidationResult] handler forwards a rejected validation whose
    deviation is above [priceDeviationPercent] (or the
    [liquidityValidationResult] handler one whose available liquidity is
    below [liquidityThresholdPercent]) the breaker is active afterwards,
    and if it was not active before it was tripped at that moment, its
    cooldown running from the first reading of the clock; an accepted
    validation, or one within the threshold, leaves the breaker
    untouched. *)
Theorem market_handlers_trip (cfg : Config) (clock : Js.Clock)
    (validation : ValidationEvent) (m : Manager) :
  enabled cfg = true ->
  let forwardsPrice :=
    negb (ev_isValid validation)
    && above (ev_deviationPercent validation) (priceDeviationPercent cfg) in
  let forwardsLiquidity :=
    negb (ev_isValid validation)
    && below (ev_availablePercent validation) (liquidityThresholdPercent cfg) in
  (if forwardsPrice then
     active (state (priceValidationResult cfg clock validation m)) = true /\
     (active (state m) = false ->
      cooldownUntil (state (priceValidationResult cfg clock validation m))
      = clock 0%nat + cooldownPeriodMinutes cfg * 60 * 1000)
   else priceValidationResult cfg clock validation m = m) /\
  (if forwardsLiquidity then
     active (state (liquidityValidationResult cfg clock validation m)) = true /\
     (active (state m) = false ->
      cooldownUntil (state (liquidityValidationResult cfg clock validation m))
      = clock 0%nat + cooldownPeriodMinutes cfg * 60 * 1000)
   else liquidityValidationResult cfg clock validation m = m).
Proof.
  intro E. cbv zeta.
  unfold priceValidationResult, liquidityValidationResult.
  split.
  - destruct (negb (ev_isValid validation)
              && above (ev_deviationPercent validation) (priceDeviationPercent cfg))
      eqn:F; [|reflexivity].
    apply andb_true_iff in F. destruct F as (_ & F).
    unfold checkMarketConditions. rewrite E. cbn [negb orb].
    destruct (active (state m)) eqn:A; [cbn [snd]; split; [exact A | discriminate]|].
    destruct (ev_deviationPercent validation) as [d|]; [|discriminate].
    cbn [above] in F. rewrite F. cbn [snd].
    rewrite (CircuitBreakerFacts.trip_active cfg E),
      (CircuitBreakerFacts.trip_cooldownUntil cfg E). auto.
  - destruct (negb (ev_isValid validation)
              && below (ev_availablePercent validation) (liquidityThresholdPercent cfg))
      eqn:F; [|reflexivity].
    apply andb_true_iff in F. destruct F as (_ & F).
    unfold checkMarketConditions. rewrite E. cbn [negb orb].
    destruct (active (state m)) eqn:A; [cbn [snd]; split; [exact A | discriminate]|].
    destruct (ev_availablePercent validation) as [a|]; [|discriminate].
    cbn [below] in F. rewrite F. cbn [snd].
    rewrite (CircuitBreakerFacts.trip_active cfg E),
      (CircuitBreakerFacts.trip_cooldownUntil cfg E). auto.
Qed.

Lemma market_handlers_trip_witness :
  active (state (priceValidationResult sampleConfig (Js.steady 5000)
                   {| ev_isValid := false; ev_deviationPercent := Some 12;
                      ev_availablePercent := None |}
                   (fresh 0))) = true.
Proof.
  apply (proj1 (market_handlers_trip sampleConfig (Js.steady 5000)
                  {| ev_isValid := false; ev_deviationPercent := Some 12;
                     ev_availablePercent := None |}
                  (fresh 0) eq_refl)).
Defined.

End BotMonitoringFacts.

(** ** Price plausibility: thresholds, the rolling window and the market check *)

Module PriceWindowFacts.
Import JsObject PriceValidator.

(** X9. Both threshold tables ignore the order of the two tokens, and both
    stay within fixed bounds: the price validator's threshold lies between
    0.2 and 1.25, the liquidity validator's ceiling between 0.25 and 1.5. *)
Theorem thresholds_symmetric_and_bounded
    (a b : LiquidityValidator.TokenInfo) :
  let sa := LiquidityValidator.symbol a in
  let sb := LiquidityValidator.symbol b in
  getDeviationThreshold sa sb = getDeviationThreshold sb sa /\
  0.2 <= getDeviationThreshold sa sb <= 1.25 /\
  LiquidityValidator.maxAllowedDeviation a b
  = LiquidityValidator.maxAllowedDeviation b a /\
  0.25 <= LiquidityValidator.maxAllowedDeviation a b <= 1.5.
Proof.
  cbv zeta.
  unfold getDeviationThreshold, LiquidityValidator.maxAllowedDeviation.
  generalize (LiquidityValidator.symbol a) (LiquidityValidator.symbol b).
  intros sa sb.
  split; [|split]; [| |split].
  1-2: destruct (includes stablecoins sa), (includes stablecoins sb),
         (includes mainstream sa), (includes mainstream sb),
         (includes defi sa), (includes defi sb);
       cbn [andb orb]; try reflexivity; split; vm_compute; discriminate.
  all: destruct (includes _ sa), (includes _ sb), (includes _ sa), (includes _ sb);
    cbn [andb orb]; try reflexivity; split; vm_compute; discriminate.
Qed.

Lemma threshold_unless_stable a b :
  isStable a && isStable b = false -> 0.5 <= getDeviationThreshold a b.
Proof.
  unfold getDeviationThreshold, isStable. intro H. rewrite H.
  repeat match goal with
         | |- context [if ?c then _ else _] => destruct c
         end; vm_compute; discriminate.
Qed.

Lemma threshold_at_least a b : 0.2 <= getDeviationThreshold a b.
Proof.
  unfold getDeviationThreshold.
  repeat match goal with
         | |- context [if ?c then _ else _] => destruct c
         end; vm_compute; discriminate.
Qed.

Section WithRuntime.
Context {rt : Runtime}.

(** A square root that is not negative and whose square is at most twice
    its argument: what the proofs below need of [Math.sqrt]. *)
Hypothesis sqrt_sane :
  forall x, 0 <= x -> 0 <= Math_sqrt x /\ Math_sqrt x * Math_sqrt x <= 2 * x.

Lemma sqrt_bound (x c b : Q) :
  x == c -> 0 <= c -> 0 <= b -> 2 * c <= b * b -> 0 <= Math_sqrt x <= b.
Proof.
  intros E C B S.
  destruct (sqrt_sane x) as (P & U); [rewrite E; exact C|].
  split; [exact P|].
  set (s := Math_sqrt x) in *.
  destruct (Qlt_le_dec b s) as [L|L]; [|exact L].
  exfalso.
  assert (b * b < s * s) by nra.
  lra.
Qed.

(** The seeded history makes any spread above 0.41 an outlier. *)
Lemma window_rejects_wide tokenA tokenB buyDex sellDex s :
  0.41 <= s ->
  isValid (checkAgainstRecentSpreads tokenA tokenB buyDex sellDex (Js.Fin s)) = false.
Proof.
  intro S. unfold checkAgainstRecentSpreads, getRecentSpreads.
  match goal with
  | |- context [if ?c then [0.05; _; _; _; _; _; _; _] else _] => destruct c
  end; cbv zeta; cbn [Js.gt_number].
  - match goal with
    | |- context [Math_sqrt ?v] =>
        destruct (sqrt_bound v (23 # 160000) (17 # 1000)) as (P & U);
          [vm_compute; reflexivity | vm_compute; discriminate
          | vm_compute; discriminate | vm_compute; discriminate |];
        set (sd := Math_sqrt v) in *
    end.
    match goal with
    | |- context [Js.gt s (?avg + _)] =>
        assert (A : avg == 23 # 400) by (vm_compute; reflexivity);
        set (a := avg) in *
    end.
    assert (G : Js.gt s (a + sd * 3) = true) by (apply JsFacts.gt_spec; lra).
    cbn [List.length Nat.ltb Nat.leb]. rewrite G. reflexivity.
  - match goal with
    | |- context [Math_sqrt ?v] =>
        destruct (sqrt_bound v (243 # 160000) (56 # 1000)) as (P & U);
          [vm_compute; reflexivity | vm_compute; discriminate
          | vm_compute; discriminate | vm_compute; discriminate |];
        set (sd := Math_sqrt v) in *
    end.
    match goal with
    | |- context [Js.gt s (?avg + _)] =>
        assert (A : avg == 19 # 80) by (vm_compute; reflexivity);
        set (a := avg) in *
    end.
    assert (G : Js.gt s (a + sd * 3) = true) by (apply JsFacts.gt_spec; lra).
    cbn [List.length Nat.ltb Nat.leb]. rewrite G. reflexivity.
Qed.

(** With the stablecoin history any spread above 0.11 is an outlier. *)
Lemma window_rejects_stable tokenA tokenB buyDex sellDex s :
  let pairKey := (tokenA ++ "-" ++ tokenB ++ "-" ++ buyDex ++ "-" ++ sellDex)%string in
  str_includes "USDC" pairKey || str_includes "USDT" pairKey
  || str_includes "DAI" pairKey = true ->
  0.11 <= s ->
  isValid (checkAgainstRecentSpreads tokenA tokenB buyDex sellDex (Js.Fin s)) = false.
Proof.
  cbv zeta. intros K S. unfold checkAgainstRecentSpreads, getRecentSpreads.
  rewrite K. cbv zeta. cbn [Js.gt_number].
  match goal with
  | |- context [Math_sqrt ?v] =>
      destruct (sqrt_bound v (23 # 160000) (17 # 1000)) as (P & U);
        [vm_compute; reflexivity | vm_compute; discriminate
        | vm_compute; discriminate | vm_compute; discriminate |];
      set (sd := Math_sqrt v) in *
  end.
  match goal with
  | |- context [Js.gt s (?avg + _)] =>
      assert (A : avg == 23 # 400) by (vm_compute; reflexivity);
      set (a := avg) in *
  end.
  assert (G : Js.gt s (a + sd * 3) = true) by (apply JsFacts.gt_spec; lra).
  cbn [List.length Nat.ltb Nat.leb]. rewrite G. reflexivity.
Qed.

(** X10. With the history the validator is seeded with, the rolling-window
    check turns the tier threshold into a hard limit for every pair that is
    not a pair of two stablecoins, and for every candidate whose pair key
    (the two symbols and the two DEX names) contains USDC, USDT or DAI: such
    a candidate is valid exactly when its spread is not above the threshold,
    that is when it is at most the threshold or is [NaN] (which the scanner
    computes for a token without a price); its verdict never carries a
    warning, and the market-price cache is never touched.  The warning path
    is left to stablecoin pairs that name none of USDC, USDT and DAI. *)
Theorem threshold_is_hard_limit (clock : Js.Clock) (opportunity : Opportunity)
    (st : State) :
  let pairKey :=
    (tokenA opportunity ++ "-" ++ tokenB opportunity ++ "-"
       ++ buyDex opportunity ++ "-" ++ sellDex opportunity)%string in
  isStable (tokenA opportunity) && isStable (tokenB opportunity) = false \/
  str_includes "USDC" pairKey || str_includes "USDT" pairKey
  || str_includes "DAI" pairKey = true ->
  let verdict := validateOpportunity clock opportunity st in
  (isValid (fst verdict) = true <->
   match spreadPercentage opportunity with
   | Js.Fin spread =>
       spread <= getDeviationThreshold (tokenA opportunity) (tokenB opportunity)
   | Js.NaN => True
   end) /\
  (isValid (fst verdict) = true ->
   get "warning" (details (fst verdict)) = VNull) /\
  snd verdict = st.
Proof.
  cbv zeta. intro C.
  unfold validateOpportunity, validatePriceDifference.
  destruct (spreadPercentage opportunity) as [|spread] eqn:SP;
    cbn [Js.gt_number].
  { cbn [fst snd negb]. split; [|split]; [split|..]; try reflexivity; auto. }
  destruct (Js.gt spread
              (getDeviationThreshold (tokenA opportunity) (tokenB opportunity)))
    eqn:G.
  - apply JsFacts.gt_spec in G.
    assert (R : isValid (checkAgainstRecentSpreads (tokenA opportunity)
                           (tokenB opportunity) (buyDex opportunity)
                           (sellDex opportunity) (Js.Fin spread))
                = false).
    { destruct C as [C|C].
      - apply window_rejects_wide.
        pose proof (threshold_unless_stable _ _ C). lra.
      - apply window_rejects_stable; [exact C|].
        pose proof (threshold_at_least (tokenA opportunity) (tokenB opportunity)).
        lra. }
    rewrite R. cbn [negb fst snd]. rewrite R. cbn [negb fst snd].
    split; [|split]; [split|..]; try reflexivity.
    + cbn. discriminate.
    + intro L. lra.
    + cbn. discriminate.
  - apply JsFacts.gt_false in G. cbn [fst snd negb].
    split; [|split]; [split|..]; try reflexivity; auto.
Qed.

Lemma includes_In (l : list string) (k : string) :
  includes l k = true <-> In k l.
Proof.
  unfold includes. rewrite existsb_exists. split.
  - intros (x & I & E). apply String.eqb_eq in E. now subst.
  - intro I. exists k. split; [exact I | apply String.eqb_refl].
Qed.

(** What the refreshed cache answers for: the fourteen tokens of the price
    table, and the names every object inherits. *)
Lemma refreshed_hasPrice (now : Q) (k : string) :
  hasPrice {| marketPrices := simulatedPrices; lastMarketPriceUpdate := now |} k
  = true
  <-> lookup k simulatedPrices <> None \/ In k inherited.
Proof.
  unfold hasPrice. cbn [marketPrices].
  destruct (lookup k simulatedPrices) as [p|] eqn:L.
  - split; [intros _; left; discriminate|]. intros _.
    unfold simulatedPrices in L. cbn [lookup] in L.
    repeat match type of L with
           | (if ?c then _ else _) = _ =>
               destruct c; [injection L as <-; reflexivity|]
           end.
    discriminate.
  - rewrite includes_In. split; [auto|]. intros [N|I]; [congruence | exact I].
Qed.

(** X11. The market-price check.  A call whose first reading of the clock
    is more than a minute after the last refresh replaces the cache by the
    fixed price table and stamps it with the second reading; a call within
    the minute leaves it alone.  Against the cache so refreshed, the check
    rejects exactly the spreads above 2 (a [NaN] spread is never above) for
    pairs whose two symbols are each found in the table: one of its
    fourteen tokens, or a name every object inherits, such as
    "constructor".  It accepts every other pair whatever its spread; and
    after a refresh every call that starts up to a minute after the stamp
    finds the same cache. *)
Theorem market_check_and_cache (clock clock' : Js.Clock) (a b : string)
    (spread : Js.Number) (st : State) :
  priceUpdateInterval < clock 0%nat - lastMarketPriceUpdate st ->
  let r := compareWithMarketPrices clock a b spread st in
  let found k := lookup k simulatedPrices <> None \/ In k inherited in
  snd r = {| marketPrices := simulatedPrices;
             lastMarketPriceUpdate := clock 1%nat |} /\
  (isValid (fst r) = false <->
   (exists s, spread = Js.Fin s /\ 2 < s) /\ found a /\ found b) /\
  (clock' 0%nat - clock 1%nat <= priceUpdateInterval ->
   snd (compareWithMarketPrices clock' a b spread (snd r)) = snd r).
Proof.
  intro Stale. cbv zeta. unfold compareWithMarketPrices.
  apply JsFacts.gt_spec in Stale. rewrite Stale.
  unfold updateMarketPrices.
  set (st1 := {| marketPrices := simulatedPrices;
                 lastMarketPriceUpdate := clock 1%nat |}).
  pose proof (refreshed_hasPrice (clock 1%nat)) as P. fold st1 in P.
  assert (S1 : forall x y : Obj,
             snd (if hasPrice st1 a && hasPrice st1 b
                  then if Js.gt_number spread 2.0 then (x, st1) else (y, st1)
                  else (y, st1)) = st1).
  { intros x y. destruct (hasPrice st1 a && hasPrice st1 b);
      [destruct (Js.gt_number spread 2.0)|]; reflexivity. }
  split; [apply S1|]. split.
  - destruct (hasPrice st1 a) eqn:Ha, (hasPrice st1 b) eqn:Hb; cbn [andb].
    + destruct spread as [|s]; cbn [Js.gt_number fst].
      { split; [discriminate|]. intros ((s & E & _) & _). discriminate. }
      destruct (Js.gt s 2.0) eqn:G; cbn [fst].
      * split; [intros _|reflexivity].
        apply JsFacts.gt_spec in G.
        split; [exists s; split; [reflexivity | lra]|].
        split; apply P; assumption.
      * split; [discriminate|].
        intros ((s' & E & L) & _). injection E as <-.
        apply JsFacts.gt_false in G. lra.
    + split; [discriminate|].
      intros (_ & _ & N). apply P in N. congruence.
    + split; [discriminate|].
      intros (_ & N & _). apply P in N. congruence.
    + split; [discriminate|].
      intros (_ & N & _). apply P in N. congruence.
  - intro Fresh. rewrite S1.
    assert (F : Js.gt (clock' 0%nat - lastMarketPriceUpdate st1) priceUpdateInterval
                = false).
    { apply JsFacts.gt_false. exact Fresh. }
    rewrite F. apply S1.
Qed.

End WithRuntime.

(** [sampleRuntime]'s square root, taken to six decimals and rounded down. *)
Lemma sampleRuntime_sqrt_sane x :
  0 <= x ->
  0 <= Math_sqrt (Runtime := sampleRuntime) x /\
  Math_sqrt (Runtime := sampleRuntime) x * Math_sqrt (Runtime := sampleRuntime) x
  <= 2 * x.
Proof.
  intro X. cbn [Math_sqrt sampleRuntime].
  set (n := Qfloor (x * 1000000000000)).
  assert (N : (0 <= n)%Z).
  { unfold n. change 0%Z with (Qfloor 0). apply Qfloor_resp_le.
    nra. }
  assert (F : inject_Z n <= x * 1000000000000) by apply Qfloor_le.
  pose proof (Z.sqrt_nonneg n) as R.
  pose proof (Z.sqrt_spec n N) as (Lo & _).
  set (r := Z.sqrt n) in *.
  assert (Rq : 0 <= inject_Z r).
  { change 0 with (inject_Z 0). rewrite <- Zle_Qle. exact R. }
  assert (Sq : inject_Z r * inject_Z r <= inject_Z n).
  { rewrite <- inject_Z_mult. rewrite <- Zle_Qle. exact Lo. }
  split.
  - apply Qle_shift_div_l; [reflexivity|]. lra.
  - assert (E : inject_Z r / 1000000 * (inject_Z r / 1000000)
                == inject_Z r * inject_Z r / 1000000000000) by (field).
    rewrite E. apply Qle_shift_div_r; [reflexivity|]. lra.
Qed.

(** A WETH/USDC candidate with a spread of 0.7 is within its tier; the same
    candidate from a scanner that found no price for its token carries a
    [NaN] spread and is valid as well. *)
Lemma threshold_is_hard_limit_witness :
  let candidate spread :=
    {| tokenA := "WETH"; tokenB := "USDC"; tokenAAddress := "0xC02a";
       tokenBAddress := "0xA0b8"; amountIn := 1;
       buyDex := "Uniswap V3"; sellDex := "SushiSwap";
       spreadPercentage := spread; profitUsd := 20 |} in
  isValid (fst (validateOpportunity (rt := sampleRuntime) (Js.steady 1700000000000)
                  (candidate (Js.Fin 0.7)) create)) = true /\
  isValid (fst (validateOpportunity (rt := sampleRuntime) (Js.steady 1700000000000)
                  (candidate Js.NaN) create)) = true.
Proof.
  intro candidate. split.
  - apply (proj1 (threshold_is_hard_limit (rt := sampleRuntime)
                    sampleRuntime_sqrt_sane (Js.steady 1700000000000)
                    (candidate (Js.Fin 0.7)) create (or_introl eq_refl))).
    vm_compute. discriminate.
  - apply (proj1 (threshold_is_hard_limit (rt := sampleRuntime)
                    sampleRuntime_sqrt_sane (Js.steady 1700000000000)
                    (candidate Js.NaN) create (or_introl eq_refl))).
    exact I.
Defined.

(** A spread of 2.5 is rejected for WETH/USDC, and for a pair of names the
    price table only inherits. *)
Lemma market_check_and_cache_witness :
  isValid (fst (compareWithMarketPrices (rt := sampleRuntime)
                  (Js.steady 1700000000000) "WETH" "USDC" (Js.Fin 2.5) create))
  = false /\
  isValid (fst (compareWithMarketPrices (rt := sampleRuntime)
                  (Js.steady 1700000000000) "constructor" "toString" (Js.Fin 2.5)
                  create))
  = false.
Proof.
  split.
  - apply (proj1 (proj2 (market_check_and_cache (rt := sampleRuntime)
                           (Js.steady 1700000000000) (Js.steady 1700000030000)
                           "WETH" "USDC" (Js.Fin 2.5) create eq_refl))).
    split; [exists 2.5; split; reflexivity|].
    split; left; discriminate.
  - apply (proj1 (proj2 (market_check_and_cache (rt := sampleRuntime)
                           (Js.steady 1700000000000) (Js.steady 1700000030000)
                           "constructor" "toString" (Js.Fin 2.5) create eq_refl))).
    split; [exists 2.5; split; reflexivity|].
    split; right; cbn; tauto.
Defined.

(** X12. The amounts the scanner tries never reach the attack-pattern
    check's limit: the check rejects only amounts above 10000 together with
    a spread above 5, the largest test amount of any token is 10000, and so
    the check accepts every candidate the scanner builds, whatever its
    spread. *)
Theorem scanner_amounts_pass_attack_check {rt : Runtime} (opportunity : Opportunity) :
  In (amountIn opportunity) (EnhancedArbitrageBot._getTestAmounts (tokenA opportunity)) ->
  amountIn opportunity <= 10000 /\
  isValid (checkForAttackPatterns opportunity) = true.
Proof.
  intro I.
  assert (L : amountIn opportunity <= 10000).
  { unfold EnhancedArbitrageBot._getTestAmounts in I.
    repeat match type of I with
           | In _ (if ?c then _ else _) => destruct c
           end;
      cbn [In] in I;
      repeat match type of I with
             | _ \/ _ => destruct I as [I|I]
             end;
      try contradiction; rewrite <- I; vm_compute; discriminate. }
  split; [exact L|].
  unfold checkForAttackPatterns.
  assert (G : Js.gt (amountIn opportunity) 10000 = false)
    by (apply JsFacts.gt_false; exact L).
  rewrite G, andb_false_r. reflexivity.
Qed.

Lemma scanner_amounts_pass_attack_check_witness :
  isValid (checkForAttackPatterns (rt := sampleRuntime)
             {| tokenA := "USDC"; tokenB := "WETH"; tokenAAddress := "0xA0b8";
                tokenBAddress := "0xC02a"; amountIn := 10000;
                buyDex := "Uniswap V3"; sellDex := "SushiSwap";
                spreadPercentage := Js.Fin 8; profitUsd := 800 |}) = true.
Proof.
  apply (scanner_amounts_pass_attack_check (rt := sampleRuntime)
           {| tokenA := "USDC"; tokenB := "WETH"; tokenAAddress := "0xA0b8";
              tokenBAddress := "0xC02a"; amountIn := 10000;
              buyDex := "Uniswap V3"; sellDex := "SushiSwap";
              spreadPercentage := Js.Fin 8; profitUsd := 800 |}).
  vm_compute. tauto.
Defined.

End PriceWindowFacts.

(** ** Liquidity depth: quotes, pool reads and the two legs *)

Module LiquidityDepthFacts.
Import JsObject LiquidityValidator.

(** *** Truncating division on non-negative operands *)

Lemma quot_bounds (n d : Z) :
  (0 <= n)%Z -> (0 < d)%Z ->
  (0 <= Z.quot n d /\ d * Z.quot n d <= n < d * (Z.quot n d + 1))%Z.
Proof.
  intros N D. rewrite Z.quot_div_nonneg by lia.
  pose proof (Z.mul_div_le n d D).
  pose proof (Z.mul_succ_div_gt n d D).
  pose proof (Z.div_pos n d N D).
  lia.
Qed.

Lemma quot_cross_mono (n d n' d' : Z) :
  (0 <= n)%Z -> (0 < d)%Z -> (0 <= n')%Z -> (0 < d')%Z ->
  (n * d' <= n' * d)%Z -> (Z.quot n d <= Z.quot n' d')%Z.
Proof.
  intros N D N' D' C.
  destruct (quot_bounds n d N D) as (Q0 & Q1 & _).
  destruct (quot_bounds n' d' N' D') as (_ & _ & Q2).
  set (q := Z.quot n d) in *. set (q' := Z.quot n' d') in *.
  destruct (Z_le_gt_dec q q') as [|G]; [assumption|exfalso].
  assert (K1 : (d' * (d * q) <= d' * n)%Z) by nia.
  assert (K2 : (d * n' < d * (d' * (q' + 1)))%Z) by nia.
  assert (K3 : (d * (d' * (q' + 1)) <= d * (d' * q))%Z) by nia.
  lia.
Qed.

Lemma hundredths (v : Z) :
  (0 <= v <= 10000)%Z -> 0 <= inject_Z v / 100 <= 100.
Proof.
  intros (L & U). split.
  - apply Qle_shift_div_l; [reflexivity|].
    change (0 * 100) with (inject_Z 0). now rewrite <- Zle_Qle.
  - apply Qle_shift_div_r; [reflexivity|].
    change (100 * 100) with (inject_Z 10000). now rewrite <- Zle_Qle.
Qed.

(** The slippage floor at a tolerance of at most 0.5 leaves no room: an
    output that meets it is zero. *)
Lemma slippage_squeeze (a rIn rOut F : Z) :
  (0 < a)%Z -> (0 < rIn)%Z -> (0 <= rOut)%Z -> (50 <= F)%Z ->
  let S := Z.quot (rOut * 10000) rIn in
  let E := Z.quot (a * 997 * rOut) (rIn * 1000 + a * 997) in
  (1 <= S)%Z ->
  (Z.quot (a * S * F) 10000 <= E)%Z ->
  E = 0%Z.
Proof.
  intros A I R HF S E HS M.
  destruct (quot_bounds (rOut * 10000) rIn) as (S0 & S1 & S2); [lia | lia |].
  destruct (quot_bounds (a * 997 * rOut) (rIn * 1000 + a * 997)) as (E0 & E1 & E2);
    [nia | lia |].
  fold S in S0, S1, S2. fold E in E0, E1, E2.
  assert (ASF : (0 <= a * S * F)%Z) by nia.
  destruct (quot_bounds (a * S * F) 10000 ASF) as (M0 & M1 & M2); [lia|].
  set (Mn := Z.quot (a * S * F) 10000) in *.
  assert (H3 : (50 * (a * S) < 10000 * E + 10000)%Z) by nia.
  destruct (Z.eq_dec E 0) as [|NE]; [assumption|exfalso].
  assert (E1' : (1 <= E)%Z) by lia.
  assert (K1 : (10000 * (E * (rIn * 1000 + a * 997))
                <= 997 * (a * (rOut * 10000)))%Z) by nia.
  assert (K2 : (a * (rOut * 10000) < a * (rIn * (S + 1)))%Z) by nia.
  assert (K3 : (a * S * rIn < (200 * E + 200) * rIn)%Z) by nia.
  assert (K4 : (a < 200 * E + 200)%Z) by nia.
  assert (K5 : (a * rIn < (200 * E + 200) * rIn)%Z) by nia.
  nia.
Qed.

(** *** BigInt division *)

Lemma bigint_div_inv (a b q : Z) :
  bigint_div a b = inr q -> b <> 0%Z /\ q = Z.quot a b.
Proof.
  unfold bigint_div. destruct (b =? 0)%Z eqn:E; [discriminate|].
  intro H. injection H as <-. split; [lia | reflexivity].
Qed.

Lemma bigint_div_ok (a b : Z) : b <> 0%Z -> bigint_div a b = inr (Z.quot a b).
Proof.
  intro H. unfold bigint_div. destruct (b =? 0)%Z eqn:E; [lia | reflexivity].
Qed.

Lemma bigint_div_zero (a : Z) : bigint_div a 0 = throw "Division by zero".
Proof. reflexivity. Qed.

(** *** The constant-product quote *)

Lemma constantProductQuote_inv (rIn rOut a e : Z) (impact : Q) :
  constantProductQuote rIn rOut a = inr (e, impact) ->
  let S := Z.quot (rOut * 10000) rIn in
  let X := Z.quot (e * 10000) a in
  (rIn * 1000 + a * 997 <> 0)%Z /\
  e = Z.quot (a * 997 * rOut) (rIn * 1000 + a * 997) /\
  rIn <> 0%Z /\ a <> 0%Z /\ S <> 0%Z /\
  impact = inject_Z (Z.quot ((S - X) * 10000) S) / 100.
Proof.
  unfold constantProductQuote. cbv zeta.
  destruct (bigint_div (a * 997 * rOut) (rIn * 1000 + a * 997)) as [?|e0] eqn:D1;
    [discriminate|].
  cbn [bind].
  destruct (bigint_div (rOut * 10000) rIn) as [?|s] eqn:D2; [discriminate|].
  cbn [bind].
  destruct (bigint_div (e0 * 10000) a) as [?|x] eqn:D3; [discriminate|].
  cbn [bind].
  destruct (bigint_div ((s - x) * 10000) s) as [?|i] eqn:D4; [discriminate|].
  cbn [bind]. unfold ret. intro H. injection H as <- <-.
  apply bigint_div_inv in D1, D2, D3, D4.
  destruct D1 as (N1 & ->), D2 as (N2 & ->), D3 as (N3 & ->), D4 as (N4 & ->).
  repeat split; assumption.
Qed.

Lemma constantProductQuote_ok (rIn rOut a : Z) :
  let S := Z.quot (rOut * 10000) rIn in
  let E := Z.quot (a * 997 * rOut) (rIn * 1000 + a * 997) in
  let X := Z.quot (E * 10000) a in
  (rIn * 1000 + a * 997 <> 0)%Z -> rIn <> 0%Z -> a <> 0%Z -> S <> 0%Z ->
  constantProductQuote rIn rOut a
  = inr (E, inject_Z (Z.quot ((S - X) * 10000) S) / 100).
Proof.
  cbv zeta. intros N1 N2 N3 N4. unfold constantProductQuote. cbv zeta.
  rewrite (bigint_div_ok _ _ N1). cbn [bind].
  rewrite (bigint_div_ok _ _ N2). cbn [bind].
  rewrite (bigint_div_ok _ _ N3). cbn [bind].
  rewrite (bigint_div_ok _ _ N4). reflexivity.
Qed.

Lemma rate_at_least_one (rIn rOut : Z) :
  (0 < rIn)%Z -> (rIn <= rOut * 10000)%Z -> (1 <= Z.quot (rOut * 10000) rIn)%Z.
Proof.
  intros I L.
  destruct (quot_bounds (rOut * 10000) rIn) as (Q0 & _ & Q2); [lia | lia |].
  nia.
Qed.

Lemma rate_zero (rIn rOut : Z) :
  (0 < rIn)%Z -> (0 <= rOut)%Z -> (rOut * 10000 < rIn)%Z ->
  Z.quot (rOut * 10000) rIn = 0%Z.
Proof. intros I R L. apply Z.quot_small. lia. Qed.

(** X13. The constant-product quote on a pool with a positive input
    reserve and a positive amount.  A pool whose output reserve is less
    than a ten-thousandth of its input reserve cannot be quoted: its spot
    rate rounds to zero and the price-impact division throws.  Any other
    pool is quoted, and the quote stays within the pool: the expected output
    is not negative, is less than the output reserve, never exceeds the
    constant-product amount after the 0.3% fee, and the price impact lies
    between 0 and 100 percent. *)
Theorem constant_product_quote_bounds (reserveIn reserveOut amountIn : Z) :
  (0 < reserveIn)%Z -> (0 <= reserveOut)%Z -> (0 < amountIn)%Z ->
  ((reserveOut * 10000 < reserveIn)%Z ->
   constantProductQuote reserveIn reserveOut amountIn = throw "Division by zero") /\
  ((reserveIn <= reserveOut * 10000)%Z ->
   exists expectedOutput priceImpact,
     constantProductQuote reserveIn reserveOut amountIn
     = inr (expectedOutput, priceImpact) /\
     (0 <= expectedOutput < reserveOut)%Z /\
     (expectedOutput * (reserveIn * 1000 + amountIn * 997)
      <= amountIn * 997 * reserveOut)%Z /\
     0 <= priceImpact <= 100).
Proof.
  intros I R A. split.
  - intro L. unfold constantProductQuote. cbv zeta.
    rewrite (bigint_div_ok (amountIn * 997 * reserveOut)
               (reserveIn * 1000 + amountIn * 997)) by lia.
    cbn [bind].
    rewrite (bigint_div_ok (reserveOut * 10000) reserveIn) by lia.
    cbn [bind]. rewrite (rate_zero _ _ I R L).
    rewrite bigint_div_ok by lia. cbn [bind]. reflexivity.
  - intro L.
    pose proof (rate_at_least_one _ _ I L) as S1.
    do 2 eexists. split.
    + apply constantProductQuote_ok; lia.
    + set (S := Z.quot (reserveOut * 10000) reserveIn) in *.
      set (E := Z.quot (amountIn * 997 * reserveOut)
                  (reserveIn * 1000 + amountIn * 997)).
      destruct (quot_bounds (amountIn * 997 * reserveOut)
                  (reserveIn * 1000 + amountIn * 997)) as (E0 & E1 & E2);
        [nia | lia |].
      fold E in E0, E1, E2.
      destruct (quot_bounds (reserveOut * 10000) reserveIn) as (_ & S2 & S3);
        [lia | lia |].
      fold S in S2, S3.
      assert (EO : (E < reserveOut)%Z) by nia.
      split; [lia|]. split; [lia|].
      assert (EA : (0 <= E * 10000)%Z) by lia.
      destruct (quot_bounds (E * 10000) amountIn EA A) as (X0 & X1 & X2).
      set (X := Z.quot (E * 10000) amountIn) in *.
      assert (XS : (X <= S)%Z).
      { destruct (Z.eq_dec E 0) as [Z0|NZ].
        - assert (X = 0)%Z by (unfold X; rewrite Z0; apply Z.quot_0_l; lia). lia.
        - destruct (Z_le_gt_dec X S) as [|G]; [assumption|exfalso].
          assert (K1 : (amountIn * (S + 1) <= E * 10000)%Z) by nia.
          assert (K2 : (10000 * (E * (reserveIn * 1000 + amountIn * 997))
                        <= 997 * (amountIn * (reserveOut * 10000)))%Z) by nia.
          assert (K3 : (amountIn * (reserveOut * 10000)
                        < amountIn * (reserveIn * (S + 1)))%Z) by nia.
          assert (K4 : (amountIn * (S + 1) * reserveIn
                        <= E * 10000 * reserveIn)%Z) by nia.
          nia. }
      apply hundredths.
      assert (N0 : (0 <= (S - X) * 10000)%Z) by nia.
      destruct (quot_bounds ((S - X) * 10000) S N0) as (V0 & V1 & _); [lia|].
      split; [lia | nia].
Qed.

Lemma constant_product_quote_bounds_witness :
  exists expectedOutput priceImpact,
    constantProductQuote 1000000000000000000000000 1000000000000000000000000
      1000000000000000000
    = inr (expectedOutput, priceImpact) /\
    (0 <= expectedOutput < 1000000000000000000000000)%Z.
Proof.
  destruct (proj2 (constant_product_quote_bounds
                     1000000000000000000000000 1000000000000000000000000
                     1000000000000000000 eq_refl ltac:(discriminate) eq_refl))
    as (e & i & Q & B & _); [discriminate|].
  exists e, i. split; [exact Q | exact B].
Defined.

(** X14. On the same pool a larger amount never buys less: the expected
    output of the constant-product quote is non-decreasing in [amountIn],
    and a pool that quotes one positive amount quotes every larger one. *)
Theorem expected_output_monotone (reserveIn reserveOut a a' e : Z) (i : Q) :
  (0 < reserveIn)%Z -> (0 <= reserveOut)%Z -> (0 < a <= a')%Z ->
  constantProductQuote reserveIn reserveOut a = inr (e, i) ->
  exists e' i',
    constantProductQuote reserveIn reserveOut a' = inr (e', i') /\ (e <= e')%Z.
Proof.
  intros I R (A & L) Q.
  apply constantProductQuote_inv in Q. cbv zeta in Q.
  destruct Q as (_ & -> & _ & _ & S & _).
  do 2 eexists. split.
  - apply constantProductQuote_ok; lia.
  - apply quot_cross_mono; nia.
Qed.

Lemma expected_output_monotone_witness :
  exists e' i',
    constantProductQuote 1000000000000000000000000 1000000000000000000000000
      2000000000000000000 = inr (e', i') /\
    (996999005991991025 <= e')%Z.
Proof.
  apply (expected_output_monotone
           1000000000000000000000000 1000000000000000000000000
           1000000000000000000 2000000000000000000
           996999005991991025 (31 / 100)).
  - reflexivity.
  - discriminate.
  - split; [reflexivity | discriminate].
  - reflexivity.
Defined.

(** *** The depth check *)

Lemma isValid_head (b : bool) (rest : Obj) :
  isValid (("isValid"%string, VBool b) :: rest) = b.
Proof. reflexivity. Qed.

Section WithPool.
Context {rt : Runtime}.
Variable config : Config.
Variable getDexReserves : string -> TokenInfo -> TokenInfo -> Reserves.
Variables (dexName : string) (tokenIn tokenOut : TokenInfo).
Variables (amountIn : Z) (options : Options).

(** What a valid answer of [checkDexLiquidity] went through. *)
Lemma check_valid_inv :
  isValid (checkDexLiquidity config getDexReserves dexName tokenIn tokenOut
             amountIn options) = true ->
  exists reserveIn reserveOut swapRate quoted reserveRatio expectedOutput priceImpact,
    getDexReserves dexName tokenIn tokenOut
    = Available reserveIn reserveOut swapRate quoted /\
    reserveRatioOf reserveIn amountIn = inr reserveRatio /\
    Js.gt reserveRatio (Js.or_default (maxReserveRatio options) 5) = false /\
    (if String.eqb dexName "Uniswap V3"
     then concentratedQuote reserveIn reserveOut amountIn quoted
     else constantProductQuote reserveIn reserveOut amountIn)
    = inr (expectedOutput, priceImpact) /\
    slippageCheck options
    && (expectedOutput
        <? Z.quot (amountIn * swapRate
                   * (100 - Qfloor (Js.or_default (opt_slippageTolerance options)
                                      (Js.or_default (slippageTolerance config) 0.5)
                                    * 100))) 10000)%Z = false /\
    Js.gt priceImpact (Js.or_default (maxPriceImpact options) 3) = false /\
    checkDexLiquidity config getDexReserves dexName tokenIn tokenOut amountIn options
    = [("isValid", VBool true);
       ("expectedOutput", VBigInt expectedOutput);
       ("reserveIn", VBigInt reserveIn);
       ("reserveOut", VBigInt reserveOut);
       ("reserveRatio", VNum reserveRatio);
       ("priceImpact", VNum priceImpact)]%string.
Proof.
  unfold checkDexLiquidity.
  destruct (getDexReserves dexName tokenIn tokenOut)
    as [error|reserveIn reserveOut swapRate quoted];
    [cbn [try_catch ret]; rewrite isValid_head; discriminate|].
  destruct (reserveRatioOf reserveIn amountIn) as [e|reserveRatio] eqn:R;
    [cbn [bind try_catch]; rewrite isValid_head; discriminate|].
  cbn [bind]. cbv zeta.
  destruct (Js.gt reserveRatio (Js.or_default (maxReserveRatio options) 5)) eqn:G1;
    [cbn [try_catch ret]; rewrite isValid_head; discriminate|].
  destruct (if String.eqb dexName "Uniswap V3"
            then concentratedQuote reserveIn reserveOut amountIn quoted
            else constantProductQuote reserveIn reserveOut amountIn)
    as [e|[expectedOutput priceImpact]] eqn:Qt;
    [cbn [bind try_catch]; rewrite isValid_head; discriminate|].
  cbn [bind fst snd].
  match goal with
  | |- context [slippageCheck options && ?c] =>
      destruct (slippageCheck options && c) eqn:G2
  end;
    [cbn [try_catch ret]; rewrite isValid_head; discriminate|].
  destruct (Js.gt priceImpact (Js.or_default (maxPriceImpact options) 3)) eqn:G3;
    [cbn [try_catch ret]; rewrite isValid_head; discriminate|].
  cbn [try_catch ret]. intros _.
  exists reserveIn, reserveOut, swapRate, quoted, reserveRatio, expectedOutput,
    priceImpact.
  split; [reflexivity|]. split; [exact R|]. split; [exact G1|].
  split; [exact Qt|]. split; [exact G2|]. split; [exact G3 | reflexivity].
Qed.

Lemma check_unavailable (error : string) :
  getDexReserves dexName tokenIn tokenOut = Unavailable error ->
  checkDexLiquidity config getDexReserves dexName tokenIn tokenOut amountIn options
  = [("isValid", VBool false); ("reason", VStr error)]%string.
Proof. intro H. unfold checkDexLiquidity. now rewrite H. Qed.

Lemma check_empty_pool (reserveOut swapRate : Z) (quoted : option Z) :
  getDexReserves dexName tokenIn tokenOut = Available 0 reserveOut swapRate quoted ->
  isValid (checkDexLiquidity config getDexReserves dexName tokenIn tokenOut
             amountIn options) = false.
Proof. intro H. unfold checkDexLiquidity. now rewrite H. Qed.

End WithPool.

(** X15. A valid answer of [checkDexLiquidity] means that every gate was
    passed on reserves that were actually read: the pool was available with
    a non-zero input reserve, the amount is not zero, the trade is at most
    the reserve-ratio ceiling (default 5) and its price impact at most the
    impact ceiling (default 3), with the slippage check on the expected
    output reaches the slippage floor, and the answer carries exactly the
    expected output, reserve ratio and price impact that were tested. *)
Theorem valid_depth_check_passed_gates {rt : Runtime} (config : Config)
    (getDexReserves : string -> TokenInfo -> TokenInfo -> Reserves)
    (dexName : string) (tokenIn tokenOut : TokenInfo)
    (amountIn : Z) (options : Options) :
  let answer :=
    checkDexLiquidity config getDexReserves dexName tokenIn tokenOut amountIn
      options in
  isValid answer = true ->
  exists reserveIn reserveOut swapRate quoted reserveRatio expectedOutput priceImpact,
    getDexReserves dexName tokenIn tokenOut
    = Available reserveIn reserveOut swapRate quoted /\
    reserveIn <> 0%Z /\ amountIn <> 0%Z /\
    reserveRatio = inject_Z (Z.quot (amountIn * 10000) reserveIn) / 100 /\
    reserveRatio <= Js.or_default (maxReserveRatio options) 5 /\
    priceImpact <= Js.or_default (maxPriceImpact options) 3 /\
    (slippageCheck options = true ->
     (Z.quot (amountIn * swapRate
              * (100 - Qfloor (Js.or_default (opt_slippageTolerance options)
                                 (Js.or_default (slippageTolerance config) 0.5)
                               * 100))) 10000
      <= expectedOutput)%Z) /\
    (String.eqb dexName "Uniswap V3" = false ->
     expectedOutput
     = Z.quot (amountIn * 997 * reserveOut) (reserveIn * 1000 + amountIn * 997)) /\
    get "expectedOutput" answer = VBigInt expectedOutput /\
    get "reserveRatio" answer = VNum reserveRatio /\
    get "priceImpact" answer = VNum priceImpact.
Proof.
  cbv zeta. intro V.
  destruct (check_valid_inv config getDexReserves dexName tokenIn tokenOut
              amountIn options V)
    as (rIn & rOut & S & q & ratio & e & impact & P & R & G1 & Qt & G2 & G3 & A).
  exists rIn, rOut, S, q, ratio, e, impact.
  unfold reserveRatioOf in R.
  destruct (bigint_div (amountIn * 10000) rIn) as [?|r] eqn:D; [discriminate|].
  cbn [bind ret] in R. injection R as <-.
  apply bigint_div_inv in D. destruct D as (NI & ->).
  assert (NA : amountIn <> 0%Z).
  { destruct (String.eqb dexName "Uniswap V3").
    - unfold concentratedQuote in Qt.
      destruct q as [e0|]; [|discriminate]. cbn [bind ret] in Qt.
      destruct (bigint_div (rOut * 10000) rIn); [discriminate|]. cbn [bind] in Qt.
      destruct (bigint_div (e0 * 10000) amountIn) as [?|x] eqn:D; [discriminate|].
      now apply bigint_div_inv in D.
    - apply constantProductQuote_inv in Qt. cbv zeta in Qt. tauto. }
  split; [exact P|]. split; [exact NI|]. split; [exact NA|].
  split; [reflexivity|].
  split; [now apply JsFacts.gt_false|].
  split; [now apply JsFacts.gt_false|].
  split.
  { intro SC. rewrite SC in G2. cbn [andb] in G2. lia. }
  split.
  { intro NV. rewrite NV in Qt.
    apply constantProductQuote_inv in Qt. cbv zeta in Qt. tauto. }
  rewrite A. repeat split; reflexivity.
Qed.

Lemma valid_depth_check_passed_gates_witness :
  exists reserveIn reserveOut swapRate quoted,
    samplePool "SushiSwap" (sampleToken "WETH") (sampleToken "DAI")
    = Available reserveIn reserveOut swapRate quoted /\ reserveIn <> 0%Z.
Proof.
  destruct (valid_depth_check_passed_gates (rt := sampleRuntime) sampleConfig
              samplePool "SushiSwap" (sampleToken "WETH") (sampleToken "DAI")
              1000000000000000000 noOptions eq_refl)
    as (rIn & rOut & S & q & _ & _ & _ & P & N & _).
  exists rIn, rOut, S, q. split; [exact P | exact N].
Defined.

(** The sell leg on a constant-product pool. *)
Lemma tight_slippage_rejects {rt : Runtime} (config : Config)
    (getDexReserves : string -> TokenInfo -> TokenInfo -> Reserves)
    (dexName : string) (tokenIn tokenOut : TokenInfo)
    (amountIn : Z) (options : Options)
    (reserveIn reserveOut : Z) (quoted : option Z) :
  getDexReserves dexName tokenIn tokenOut
  = Available reserveIn reserveOut (Z.quot (reserveOut * 10000) reserveIn) quoted ->
  String.eqb dexName "Uniswap V3" = false ->
  (0 <= reserveIn)%Z -> (0 <= reserveOut)%Z -> (0 <= amountIn)%Z ->
  slippageCheck options = true ->
  Js.or_default (opt_slippageTolerance options)
    (Js.or_default (slippageTolerance config) 0.5) <= 0.5 ->
  Js.or_default (maxPriceImpact options) 3 < 100 ->
  isValid (checkDexLiquidity config getDexReserves dexName tokenIn tokenOut
             amountIn options) = false.
Proof.
  intros P NV I R A SC Tol Imp.
  destruct (isValid (checkDexLiquidity config getDexReserves dexName tokenIn
                       tokenOut amountIn options)) eqn:V; [exfalso|reflexivity].
  destruct (check_valid_inv config getDexReserves dexName tokenIn tokenOut
              amountIn options V)
    as (rIn & rOut & S & q & ratio & e & impact & P' & Rt & _ & Qt & G2 & G3 & _).
  rewrite P in P'. injection P' as <- <- <- <-.
  rewrite NV in Qt. apply constantProductQuote_inv in Qt. cbv zeta in Qt.
  destruct Qt as (_ & He & NI & NA & NS & Hi).
  rewrite SC in G2. cbn [andb] in G2. apply Z.ltb_ge in G2.
  set (S := Z.quot (reserveOut * 10000) reserveIn) in *.
  assert (F : (50 <= 100 - Qfloor (Js.or_default (opt_slippageTolerance options)
                                     (Js.or_default (slippageTolerance config) 0.5)
                                   * 100))%Z).
  { assert (Qfloor (Js.or_default (opt_slippageTolerance options)
                      (Js.or_default (slippageTolerance config) 0.5) * 100)
            <= Qfloor 50)%Z by (apply Qfloor_resp_le; lra).
    change (Qfloor 50) with 50%Z in *. lia. }
  assert (S1 : (1 <= S)%Z).
  { destruct (quot_bounds (reserveOut * 10000) reserveIn) as (S0 & _); [lia | lia |].
    fold S in S0. lia. }
  assert (E0 : e = 0%Z).
  { rewrite He. apply (slippage_squeeze amountIn reserveIn reserveOut
                         (100 - Qfloor (Js.or_default (opt_slippageTolerance options)
                                          (Js.or_default (slippageTolerance config) 0.5)
                                        * 100)));
      try lia.
    fold S. rewrite <- He. exact G2. }
  rewrite E0 in Hi. cbn [Z.mul] in Hi. rewrite Z.quot_0_l in Hi by exact NA.
  rewrite Z.sub_0_r, Z.mul_comm in Hi.
  rewrite Z.quot_mul in Hi by exact NS.
  apply JsFacts.gt_false in G3. rewrite Hi in G3.
  assert (inject_Z 10000 / 100 == 100) by reflexivity. lra.
Qed.

(** X16. The slippage check as the sell leg runs it (slippage tolerance at
    most 0.5, the default, and the default price-impact ceiling) rejects
    every amount on every constant-product pool whose [swapRate] is the one
    [getDexReserves] computes: the floor [amountIn * swapRate * (100 -
    tolerance * 100) / 10000] applies the rate, which is already scaled by
    10000, fifty-fold, so an output that reaches it is zero and then fails
    the price-impact ceiling. *)
Theorem sell_leg_check_never_valid {rt : Runtime} (config : Config)
    (getDexReserves : string -> TokenInfo -> TokenInfo -> Reserves)
    (dexName : string) (tokenIn tokenOut : TokenInfo)
    (amountIn reserveIn reserveOut : Z) (quoted : option Z) :
  getDexReserves dexName tokenIn tokenOut
  = Available reserveIn reserveOut (Z.quot (reserveOut * 10000) reserveIn) quoted ->
  String.eqb dexName "Uniswap V3" = false ->
  (0 <= reserveIn)%Z -> (0 <= reserveOut)%Z -> (0 <= amountIn)%Z ->
  Js.or_default (slippageTolerance config) 0.5 <= 0.5 ->
  isValid (checkDexLiquidity config getDexReserves dexName tokenIn tokenOut
             amountIn
             {| maxReserveRatio := None; maxPriceImpact := None;
                slippageCheck := true; opt_slippageTolerance := None |}) = false.
Proof.
  intros P NV I R A Tol.
  eapply tight_slippage_rejects; eauto.
  reflexivity.
Qed.

Lemma sell_leg_check_never_valid_witness :
  isValid (checkDexLiquidity (rt := sampleRuntime) sampleConfig samplePool
             "SushiSwap" (sampleToken "DAI") (sampleToken "WETH")
             996999005991991025
             {| maxReserveRatio := None; maxPriceImpact := None;
                slippageCheck := true; opt_slippageTolerance := None |}) = false.
Proof.
  apply (sell_leg_check_never_valid (rt := sampleRuntime) sampleConfig samplePool
           "SushiSwap" (sampleToken "DAI") (sampleToken "WETH")
           996999005991991025
           1000000000000000000000000 1000000000000000000000000 None).
  - reflexivity.
  - reflexivity.
  - discriminate.
  - discriminate.
  - discriminate.
  - vm_compute. discriminate.
Defined.

End LiquidityDepthFacts.

(** ** The pool reads and the liquidity verdict *)

Module LiquidityPipelineFacts.
Import JsObject LiquidityValidator LiquidityPipeline LiquidityDepthFacts.

(** *** What [getDexReserves] can answer *)

Lemma reserves_v3 (chain : Chain) (tokenA tokenB : TokenInfo) :
  getDexReserves chain "Uniswap V3" tokenA tokenB
  = Unavailable "No Uniswap V3 liquidity found for pair" \/
  getDexReserves chain "Uniswap V3" tokenA tokenB = Available 0 0 0 (Some 0%Z).
Proof.
  unfold getDexReserves.
  change (String.eqb "Uniswap V3" "Uniswap V3") with true. cbv iota zeta.
  destruct (bestLiquidity chain tokenA tokenB =? 0)%Z; [left | right]; reflexivity.
Qed.

Lemma reserves_shape (chain : Chain) (dexName : string) (tokenA tokenB : TokenInfo)
    (reserveIn reserveOut swapRate : Z) (quoted : option Z) :
  getDexReserves chain dexName tokenA tokenB
  = Available reserveIn reserveOut swapRate quoted ->
  (String.eqb dexName "Uniswap V3" = true /\ reserveIn = 0%Z) \/
  (String.eqb dexName "Uniswap V3" = false /\
   reserveIn <> 0%Z /\
   swapRate = Z.quot (reserveOut * 10000) reserveIn /\
   exists pair reserve0 reserve1,
     getReserves chain pair = inr (reserve0, reserve1) /\
     (reserveIn = reserve0 /\ reserveOut = reserve1 \/
      reserveIn = reserve1 /\ reserveOut = reserve0)).
Proof.
  unfold getDexReserves.
  destruct (String.eqb dexName "Uniswap V3") eqn:V3.
  - cbv zeta.
    destruct (bestLiquidity chain tokenA tokenB =? 0)%Z; cbn [try_catch ret];
      [discriminate|].
    intro H. injection H as <- _ _ _. left. split; reflexivity.
  - destruct (String.eqb dexName "SushiSwap"); [|cbn [try_catch ret]; discriminate].
    destruct (getPair chain (address tokenA) (address tokenB)) as [?|pair];
      [cbn [bind try_catch]; discriminate|].
    cbn [bind].
    destruct (String.eqb pair ZeroAddress); [cbn [try_catch ret]; discriminate|].
    destruct (getReserves chain pair) as [?|[reserve0 reserve1]] eqn:R;
      [cbn [bind try_catch]; discriminate|].
    cbn [bind].
    destruct (token0 chain pair) as [?|t0]; [cbn [bind try_catch]; discriminate|].
    cbn [bind]. cbv zeta. cbn [fst snd].
    match goal with
    | |- context [bigint_div ?n ?d] => destruct (bigint_div n d) as [?|s] eqn:D
    end; [cbn [bind try_catch]; discriminate|].
    cbn [bind try_catch ret]. intro H. injection H as <- <- <- <-.
    apply bigint_div_inv in D. destruct D as (N & ->).
    right. split; [reflexivity|]. split; [exact N|]. split; [reflexivity|].
    exists pair, reserve0, reserve1. split; [exact R|].
    destruct (String.eqb (toLowerCase (address tokenA)) (toLowerCase t0));
      [left | right]; split; reflexivity.
Qed.

(** X17. The Uniswap V3 branch of [getDexReserves] never yields usable
    reserves: the conversion of [sqrtPriceX96] divides a Number by a BigInt,
    the exception is swallowed per fee tier after [bestLiquidity] was
    already updated, and the reserves, the rate and the expected output
    stay at zero.  So, whatever the chain holds, the answer is either "No
    Uniswap V3 liquidity found for pair" or a pool with zero reserves; the
    depth check on Uniswap V3 is never valid, for any amount and options;
    and the maximal trade size on Uniswap V3 is zero. *)
Theorem uniswap_v3_never_passes {rt : Runtime} (config : Config) (chain : Chain)
    (tokenIn tokenOut : TokenInfo) (amountIn : Z) (options : Options)
    (tokens : list TokenInfo) (tokenA tokenB : string) :
  (getDexReserves chain "Uniswap V3" tokenIn tokenOut
   = Unavailable "No Uniswap V3 liquidity found for pair" \/
   getDexReserves chain "Uniswap V3" tokenIn tokenOut = Available 0 0 0 (Some 0%Z)) /\
  isValid (checkDexLiquidity config (getDexReserves chain) "Uniswap V3"
             tokenIn tokenOut amountIn options) = false /\
  calculateMaxTradeSize chain tokens tokenA tokenB "Uniswap V3" = 0%Z.
Proof.
  split; [apply reserves_v3|]. split.
  - destruct (reserves_v3 chain tokenIn tokenOut) as [U|A].
    + rewrite (check_unavailable config (getDexReserves chain) "Uniswap V3"
                 tokenIn tokenOut amountIn options _ U). reflexivity.
    + exact (check_empty_pool config (getDexReserves chain) "Uniswap V3"
               tokenIn tokenOut amountIn options _ _ _ A).
  - unfold calculateMaxTradeSize.
    destruct (find _ tokens) as [a|]; [|reflexivity].
    destruct (find _ tokens) as [b|]; [|reflexivity].
    destruct (reserves_v3 chain a b) as [U|A].
    + rewrite U. reflexivity.
    + rewrite A. reflexivity.
Qed.

(** *** The sell leg on the chain *)

Section WithChain.
Context {rt : Runtime}.
Variable config : Config.
Variable chain : Chain.
Variable getFeeData : Outcome (option Z).

Hypothesis reserves_nonneg :
  forall pair reserve0 reserve1,
    getReserves chain pair = inr (reserve0, reserve1) ->
    (0 <= reserve0)%Z /\ (0 <= reserve1)%Z.
Hypothesis tight : Js.or_default (slippageTolerance config) 0.5 <= 0.5.

Lemma sell_leg_rejects (dexName : string) (tokenIn tokenOut : TokenInfo) (a : Z) :
  (0 <= a)%Z ->
  isValid (checkDexLiquidity config (getDexReserves chain) dexName tokenIn tokenOut a
             {| maxReserveRatio := None; maxPriceImpact := None;
                slippageCheck := true; opt_slippageTolerance := None |}) = false.
Proof.
  intro A.
  match goal with |- isValid ?c = false => destruct (isValid c) eqn:V end;
    [exfalso | reflexivity].
  destruct (check_valid_inv _ _ _ _ _ _ _ V)
    as (rIn & rOut & S & q & ratio & e & impact & P & Rt & _).
  destruct (reserves_shape _ _ _ _ _ _ _ _ P)
    as [(_ & Z0) | (NV & NI & HS & pair & r0 & r1 & R & O)].
  - subst rIn. discriminate Rt.
  - destruct (reserves_nonneg _ _ _ R) as (R0 & R1).
    subst S.
    assert (F : isValid (checkDexLiquidity config (getDexReserves chain) dexName
                           tokenIn tokenOut a
                           {| maxReserveRatio := None; maxPriceImpact := None;
                              slippageCheck := true;
                              opt_slippageTolerance := None |}) = false).
    { eapply tight_slippage_rejects; eauto;
        try reflexivity; destruct O as [(-> & ->)|(-> & ->)]; assumption. }
    congruence.
Qed.

Lemma buy_leg_output (dexName : string) (tokenIn tokenOut : TokenInfo) (a : Z) :
  (0 <= a)%Z ->
  isValid (checkDexLiquidity config (getDexReserves chain) dexName tokenIn tokenOut a
             noOptions) = true ->
  exists e, (0 <= e)%Z /\
    get "expectedOutput"
      (checkDexLiquidity config (getDexReserves chain) dexName tokenIn tokenOut a
         noOptions) = VBigInt e.
Proof.
  intros A V.
  destruct (check_valid_inv _ _ _ _ _ _ _ V)
    as (rIn & rOut & S & q & ratio & e & impact & P & Rt & _ & Qt & _ & _ & E).
  exists e. split; [|rewrite E; reflexivity].
  destruct (reserves_shape _ _ _ _ _ _ _ _ P)
    as [(_ & Z0) | (NV & NI & HS & pair & r0 & r1 & R & O)].
  - subst rIn. discriminate Rt.
  - destruct (reserves_nonneg _ _ _ R) as (R0 & R1).
    rewrite NV in Qt. apply constantProductQuote_inv in Qt. cbv zeta in Qt.
    destruct Qt as (_ & -> & _ & NA & _).
    assert (0 < rIn /\ 0 <= rOut)%Z as (I & Ro)
      by (destruct O as [(-> & ->)|(-> & ->)]; lia).
    apply quot_bounds; nia.
Qed.

Lemma liquidity_never_valid (opportunity : Opportunity) (gasLimit : option Z)
    (verdict : Obj) :
  0 <= amountIn opportunity ->
  validateOpportunity config chain getFeeData opportunity gasLimit = inr verdict ->
  isValid verdict = false.
Proof.
  intros A. unfold validateOpportunity.
  destruct (find _ (tokens config)) as [tokenAInfo|];
    [|intro H; injection H as <-; reflexivity].
  destruct (find _ (tokens config)) as [tokenBInfo|];
    [|intro H; injection H as <-; reflexivity].
  destruct (ValidationManager.parseUnits (toText (amountIn opportunity)) (decimals tokenAInfo))
    as [?|parsed] eqn:P; [discriminate|].
  cbn [bind]. unfold ret at 1. intro H. injection H as <-.
  pose proof (ValidationManagerFacts.parseUnits_nonneg _ _ _ A P) as P0.
  destruct (isValid (checkDexLiquidity config (getDexReserves chain)
                       (buyDex opportunity) tokenAInfo tokenBInfo parsed noOptions))
    eqn:B; cbn [negb]; [|reflexivity].
  destruct (buy_leg_output _ _ _ _ P0 B) as (e & E0 & E).
  rewrite E. cbn [checkDexLiquidityOn].
  rewrite (sell_leg_rejects (sellDex opportunity) tokenBInfo tokenAInfo e E0).
  reflexivity.
Qed.

End WithChain.

(** X18. [LiquidityValidator.validateOpportunity] never approves a
    candidate: on a chain whose pools report non-negative reserves, with
    the slippage tolerance at most 0.5 (the default) and a non-negative
    amount, every verdict it returns is invalid, for every pair, amount,
    DEX and gas price.  The buy leg can pass; the sell leg's slippage floor
    cannot be met, and a Uniswap V3 leg has no reserves. *)
Theorem liquidity_validator_never_approves {rt : Runtime} (config : Config)
    (chain : Chain) (getFeeData : Outcome (option Z))
    (opportunity : Opportunity) (gasLimit : option Z) (verdict : Obj) :
  (forall pair reserve0 reserve1,
     getReserves chain pair = inr (reserve0, reserve1) ->
     (0 <= reserve0)%Z /\ (0 <= reserve1)%Z) ->
  Js.or_default (slippageTolerance config) 0.5 <= 0.5 ->
  0 <= amountIn opportunity ->
  validateOpportunity config chain getFeeData opportunity gasLimit = inr verdict ->
  isValid verdict = false.
Proof.
  intros N T A V. eapply liquidity_never_valid; eauto.
Qed.

Lemma liquidity_validator_never_approves_witness :
  exists verdict,
    validateOpportunity (rt := sampleRuntime) sampleTokens
      (sampleChain 1000000000000000000000000 2500000000000000000000000000)
      (inr (Some 20000000000%Z))
      {| tokenA := "WETH"; tokenB := "DAI"; tokenAAddress := "0xC02a";
         tokenBAddress := "0x6B17"; amountIn := 1; buyDex := "SushiSwap";
         sellDex := "SushiSwap"; spreadPercentage := Js.Fin 0.3; profitUsd := 100 |}
      None = inr verdict /\
    isValid verdict = false.
Proof.
  eexists. split; [vm_compute; reflexivity|].
  apply (liquidity_validator_never_approves (rt := sampleRuntime) sampleTokens
           (sampleChain 1000000000000000000000000 2500000000000000000000000000)
           (inr (Some 20000000000%Z))
           {| tokenA := "WETH"; tokenB := "DAI"; tokenAAddress := "0xC02a";
              tokenBAddress := "0x6B17"; amountIn := 1; buyDex := "SushiSwap";
              sellDex := "SushiSwap"; spreadPercentage := Js.Fin 0.3; profitUsd := 100 |}
           None).
  - intros pair r0 r1 H. injection H as <- <-. split; discriminate.
  - vm_compute. discriminate.
  - discriminate.
  - vm_compute. reflexivity.
Defined.

(** X19. [calculateMaxTradeSize] answers two percent of the input reserve
    it reads, and zero when the tokens or the pool cannot be found.  On a
    pool with a positive input reserve that size always passes the
    reserve-ratio gate of [checkDexLiquidity]: its ratio is at most 2,
    below the default ceiling of 5. *)
Theorem max_trade_size_within_ratio (chain : Chain) (tokens : list TokenInfo)
    (tokenA tokenB dex : string) (tokenAInfo tokenBInfo : TokenInfo) :
  find (fun t => String.eqb (symbol t) tokenA) tokens = Some tokenAInfo ->
  find (fun t => String.eqb (symbol t) tokenB) tokens = Some tokenBInfo ->
  let size := calculateMaxTradeSize chain tokens tokenA tokenB dex in
  (forall error,
     getDexReserves chain dex tokenAInfo tokenBInfo = Unavailable error ->
     size = 0%Z) /\
  (forall reserveIn reserveOut swapRate quoted,
     getDexReserves chain dex tokenAInfo tokenBInfo
     = Available reserveIn reserveOut swapRate quoted ->
     size = Z.quot (reserveIn * 2) 100 /\
     ((0 < reserveIn)%Z ->
      exists ratio,
        reserveRatioOf reserveIn size = inr ratio /\ ratio <= 2 /\
        Js.gt ratio (Js.or_default (maxReserveRatio noOptions) 5) = false)).
Proof.
  intros FA FB. cbv zeta. unfold calculateMaxTradeSize. rewrite FA, FB.
  split.
  - intros error U. rewrite U. reflexivity.
  - intros rIn rOut S q P. rewrite P. cbn [try_catch ret].
    split; [reflexivity|]. intro I.
    rewrite (LiquidityValidatorFacts.reserveRatioOf_eq rIn _ I).
    eexists. split; [reflexivity|].
    assert (L : (Z.quot (Z.quot (rIn * 2) 100 * 10000) rIn <= 200)%Z).
    { destruct (quot_bounds (rIn * 2) 100) as (Q0 & Q1 & _); [lia | lia |].
      set (m := Z.quot (rIn * 2) 100) in *.
      destruct (quot_bounds (m * 10000) rIn) as (_ & V1 & _); [lia | lia |].
      nia. }
    assert (R2 : inject_Z (Z.quot (Z.quot (rIn * 2) 100 * 10000) rIn) / 100 <= 2).
    { apply Qle_shift_div_r; [reflexivity|].
      change (2 * 100) with (inject_Z 200). now rewrite <- Zle_Qle. }
    split; [exact R2|].
    apply JsFacts.gt_false. cbn [maxReserveRatio noOptions Js.or_default]. lra.
Qed.

Lemma max_trade_size_within_ratio_witness :
  calculateMaxTradeSize (sampleChain 1000000000000000000000000 2500000000000000000000000000)
    [sampleWeth; sampleDai] "WETH" "DAI" "SushiSwap"
  = 20000000000000000000000%Z.
Proof.
  destruct (max_trade_size_within_ratio
              (sampleChain 1000000000000000000000000 2500000000000000000000000000)
              [sampleWeth; sampleDai] "WETH" "DAI" "SushiSwap" sampleWeth sampleDai
              eq_refl eq_refl) as (_ & A).
  destruct (A 1000000000000000000000000%Z 2500000000000000000000000000%Z
              25000000%Z None eq_refl) as (E & _).
  exact E.
Defined.

End LiquidityPipelineFacts.

(** ** Valid verdicts of the base orchestrator *)

Module BasePipelineFacts.
Import JsObject Effects TraceFacts ValidationManager.

Section Steps.
Context {W : Type}.

Lemma run_call_err {A B} (c : Component) (f : W -> Outcome A * W)
    (k : A -> M W B) (w w' : W) (tr : list Event) (e : Error) :
  f w = (inl e, w') ->
  mbind (call c f) k w tr
  = {| outcome := inl e; world := w'; trace := tr ++ [Called c; Threw c e] |}.
Proof. intro H. unfold mbind, call. now rewrite H. Qed.

Lemma run_lift_err {A B} (e : Error) (k : A -> M W B) (w : W) (tr : list Event) :
  mbind (lift (inl e)) k w tr = {| outcome := inl e; world := w; trace := tr |}.
Proof. reflexivity. Qed.

Lemma run_bind_err {A B} (m : M W A) (k : A -> M W B) (w w' : W)
    (tr tr' : list Event) (e : Error) :
  m w tr = {| outcome := inl e; world := w'; trace := tr' |} ->
  mbind m k w tr = {| outcome := inl e; world := w'; trace := tr' |}.
Proof. intro H. unfold mbind. now rewrite H. Qed.

(** A handler that only builds its answer keeps the world and the trace. *)
Lemma mtry_mret {A} (m : M W A) (f : Error -> A) (w : W) (tr : list Event) :
  mtry m (fun e => mret (f e)) w tr
  = {| outcome := inr (match outcome (m w tr) with
                       | inl e => f e
                       | inr a => a
                       end);
       world := world (m w tr);
       trace := trace (m w tr) |}.
Proof.
  unfold mtry, mret. destruct (m w tr) as [[e|a] w' tr']; reflexivity.
Qed.

End Steps.

Lemma prop_isValid (l : Value) (lv : Value) (v : Obj) :
  prop l "isValid" = inr lv -> l = VObj v -> truthy lv = isValid v.
Proof. intros P ->. cbn in P. injection P as <-. reflexivity. Qed.

Section Base.
Context {rt : Runtime} {W : Type}.
Variable getFeeData : W -> Outcome Z * W.
Variable liquidityValidator : Opportunity -> W -> Outcome Value * W.
Variable priceValidator : Opportunity -> W -> Outcome Value * W.
Variables (this : Instance) (opportunity : Opportunity).

Lemma gas_check_run (w : W) (tr : list Event) :
  exists o w1 tr1,
    checkGasPrice getFeeData this w tr
    = {| outcome := inr o; world := w1; trace := tr1 |} /\
    (isValid o = true ->
     exists g,
       getFeeData w = (inr g, w1) /\
       unitsToNumber g 9 <= maxGasPrice this /\
       tr1 = tr ++ [Called Provider] /\
       get "gasPrice" (details o) = VBigInt g).
Proof.
  unfold checkGasPrice, mtry, mbind, call, mret.
  destruct (getFeeData w) as [[e|g] w1]; cbn [outcome world trace].
  - do 3 eexists. split; [reflexivity|]. rewrite LiquidityDepthFacts.isValid_head.
    discriminate.
  - destruct (Js.gt (unitsToNumber g 9) (maxGasPrice this)) eqn:G;
      cbn [outcome world trace];
      do 3 eexists; (split; [reflexivity|]);
      rewrite LiquidityDepthFacts.isValid_head; [discriminate|].
    intros _. exists g. split; [reflexivity|].
    split; [now apply JsFacts.gt_false|]. split; reflexivity.
Qed.

(** What a valid verdict went through. *)
Lemma base_valid_inv (w : W) (v : Obj) :
  outcome (run (validateOpportunity getFeeData liquidityValidator priceValidator
                  this opportunity) w) = inr (VObj v) ->
  isValid v = true ->
  exists g w1 l w2 p w3,
    getFeeData w = (inr g, w1) /\
    unitsToNumber g 9 <= maxGasPrice this /\
    liquidityValidator opportunity w1 = (inr l, w2) /\
    (exists lv, prop l "isValid" = inr lv /\ truthy lv = true) /\
    priceValidator opportunity w2 = (inr p, w3) /\
    (exists pv, prop p "isValid" = inr pv /\ truthy pv = true) /\
    isValid (analyzeProfitability this opportunity (VBigInt g)) = true /\
    world (run (validateOpportunity getFeeData liquidityValidator priceValidator
                  this opportunity) w) = w3 /\
    trace (run (validateOpportunity getFeeData liquidityValidator priceValidator
                  this opportunity) w)
    = [Called Provider; Called LiquidityCheck; Called PriceCheck] /\
    get "profitUsd" (details v)
    = get "netProfitUsd"
        (details (analyzeProfitability this opportunity (VBigInt g))).
Proof.
  unfold run, validateOpportunity. rewrite mtry_mret. cbn [outcome world trace].
  destruct (gas_check_run w []) as (o & w1 & tr1 & E & G).
  rewrite (run_bind_ok _ _ _ _ _ _ _ E).
  destruct (isValid o) eqn:Vo; cbn [negb].
  2: { cbn [mret outcome]. intros H V. injection H as <-. congruence. }
  destruct (G eq_refl) as (g & F & L & -> & GP). clear G. rewrite GP.
  destruct (liquidityValidator opportunity w1) as [[e|l] w2] eqn:LV.
  { rewrite (run_call_err _ _ _ _ _ _ _ LV). cbn [outcome errorResult].
    intros H V. injection H as <-. discriminate V. }
  rewrite (run_call_ok _ _ _ _ _ _ _ LV).
  destruct (prop l "isValid") as [e|lv] eqn:PL.
  { rewrite run_lift_err. cbn [outcome errorResult].
    intros H V. injection H as <-. discriminate V. }
  rewrite run_lift_ok.
  destruct (truthy lv) eqn:TL; cbn [negb].
  2: { cbn [mret outcome]. intros H V. injection H as H.
       rewrite (prop_isValid _ _ _ PL H) in TL. congruence. }
  destruct (priceValidator opportunity w2) as [[e|p] w3] eqn:PV.
  { rewrite (run_call_err _ _ _ _ _ _ _ PV). cbn [outcome errorResult].
    intros H V. injection H as <-. discriminate V. }
  rewrite (run_call_ok _ _ _ _ _ _ _ PV).
  destruct (prop p "isValid") as [e|pv] eqn:PP.
  { rewrite run_lift_err. cbn [outcome errorResult].
    intros H V. injection H as <-. discriminate V. }
  rewrite run_lift_ok.
  destruct (truthy pv) eqn:TP; cbn [negb].
  2: { cbn [mret outcome]. intros H V. injection H as H.
       rewrite (prop_isValid _ _ _ PP H) in TP. congruence. }
  destruct (isValid (analyzeProfitability this opportunity (VBigInt g))) eqn:AP;
    cbn [negb].
  2: { cbn [mret outcome]. intros H V. injection H as <-. congruence. }
  replace (simulateBeforeExecution (config this)
           && negb (isValid (simulateArbitrage opportunity))) with false
    by (cbn; now rewrite andb_false_r).
  destruct (prop p "details") as [e|pd].
  { rewrite run_lift_err. cbn [outcome errorResult].
    intros H V. injection H as <-. discriminate V. }
  rewrite run_lift_ok.
  destruct (prop pd "warning") as [e|pw].
  { rewrite run_lift_err. cbn [outcome errorResult].
    intros H V. injection H as <-. discriminate V. }
  rewrite run_lift_ok.
  destruct (prop l "details") as [e|ld].
  { rewrite run_lift_err. cbn [outcome errorResult].
    intros H V. injection H as <-. discriminate V. }
  rewrite run_lift_ok.
  destruct (prop ld "warning") as [e|lw].
  { rewrite run_lift_err. cbn [outcome errorResult].
    intros H V. injection H as <-. discriminate V. }
  rewrite run_lift_ok.
  cbn [mret outcome world trace]. intros H _. injection H as <-.
  exists g, w1, l, w2, p, w3.
  split; [exact F|]. split; [exact L|]. split; [exact LV|].
  split; [exists lv; auto|]. split; [exact PV|].
  split; [exists pv; auto|]. split; [exact AP|].
  split; [reflexivity|]. split; reflexivity.
Qed.

End Base.

(** X20. A valid verdict of [ValidationManager.validateOpportunity] went
    through every stage, in order and exactly once: the provider answered
    with a gas price at or below the ceiling, then the liquidity validator
    and then the price validator returned results that are truthy under
    [.isValid], with the state each one left handed to the next, nothing
    threw, and the profitability analysis at that gas price was valid.  The
    [profitUsd] the verdict reports is the net profit of that analysis,
    not the candidate's raw profit. *)
Theorem valid_verdict_passed_every_stage {rt : Runtime} {W : Type}
    (getFeeData : W -> Outcome Z * W)
    (liquidityValidator priceValidator : Opportunity -> W -> Outcome Value * W)
    (this : Instance) (opportunity : Opportunity) (w : W) (v : Obj) :
  let r :=
    run (validateOpportunity getFeeData liquidityValidator priceValidator
           this opportunity) w in
  outcome r = inr (VObj v) ->
  isValid v = true ->
  exists gasPrice w1 liquidityCheck w2 priceCheck,
    getFeeData w = (inr gasPrice, w1) /\
    unitsToNumber gasPrice 9 <= maxGasPrice this /\
    liquidityValidator opportunity w1 = (inr liquidityCheck, w2) /\
    (exists lv, prop liquidityCheck "isValid" = inr lv /\ truthy lv = true) /\
    priceValidator opportunity w2 = (inr priceCheck, world r) /\
    (exists pv, prop priceCheck "isValid" = inr pv /\ truthy pv = true) /\
    isValid (analyzeProfitability this opportunity (VBigInt gasPrice)) = true /\
    trace r = [Called Provider; Called LiquidityCheck; Called PriceCheck] /\
    get "profitUsd" (details v)
    = get "netProfitUsd"
        (details (analyzeProfitability this opportunity (VBigInt gasPrice))).
Proof.
  cbv zeta. intros O V.
  destruct (base_valid_inv getFeeData liquidityValidator priceValidator this
              opportunity w v O V)
    as (g & w1 & l & w2 & p & w3 & F & L & LV & TL & PV & TP & AP & Wd & Tr & PU).
  exists g, w1, l, w2, p. rewrite Wd. repeat (split; [assumption|]). assumption.
Qed.

Lemma valid_verdict_passed_every_stage_witness :
  trace (run (validateOpportunity (rt := sampleRuntime) (sampleFeeData 20)
                (answering (inr accepted)) (answering (inr accepted))
                sampleInstance sampleOpportunity) tt)
  = [Called Provider; Called LiquidityCheck; Called PriceCheck].
Proof.
  destruct (valid_verdict_passed_every_stage (rt := sampleRuntime)
              (sampleFeeData 20) (answering (inr accepted)) (answering (inr accepted))
              sampleInstance sampleOpportunity tt
              (match outcome (run (validateOpportunity (rt := sampleRuntime)
                                     (sampleFeeData 20) (answering (inr accepted))
                                     (answering (inr accepted))
                                     sampleInstance sampleOpportunity) tt) with
               | inr (VObj v) => v
               | _ => []
               end))
    as (g & w1 & l & w2 & p & _ & _ & _ & _ & _ & _ & _ & T & _).
  - vm_compute. reflexivity.
  - vm_compute. reflexivity.
  - exact T.
Defined.

(** X21. Wired to the liquidity validator of the repository, the base
    orchestrator never approves a candidate: on a chain whose pools report
    non-negative reserves, with the slippage tolerance at most 0.5 and a
    non-negative amount, every run returns a verdict object that is not
    valid, whatever the gas price, the price validator and the candidate's
    profit. *)
Theorem pipeline_never_approves {rt : Runtime} {W : Type}
    (getFeeData : W -> Outcome Z * W)
    (priceValidator : Opportunity -> W -> Outcome Value * W)
    (config : LiquidityValidator.Config) (chain : LiquidityPipeline.Chain)
    (liquidityFeeData : Outcome (option Z))
    (this : Instance) (opportunity : Opportunity) (w : W) :
  (forall pair reserve0 reserve1,
     LiquidityPipeline.getReserves chain pair = inr (reserve0, reserve1) ->
     (0 <= reserve0)%Z /\ (0 <= reserve1)%Z) ->
  Js.or_default (LiquidityValidator.slippageTolerance config) 0.5 <= 0.5 ->
  0 <= amountIn opportunity ->
  exists v,
    outcome (run (validateOpportunity getFeeData
                    (LiquidityPipeline.asCollaborator config chain liquidityFeeData)
                    priceValidator this opportunity) w) = inr (VObj v) /\
    isValid v = false.
Proof.
  intros N T A.
  destruct (OrchestratorFacts.converted_run errorResult _ w
              (OrchestratorFacts.base_converted getFeeData
                 (LiquidityPipeline.asCollaborator config chain liquidityFeeData)
                 priceValidator this opportunity)) as ((x & O) & _).
  assert (Obj_ : exists v, x = VObj v).
  { revert O. unfold run, validateOpportunity. rewrite mtry_mret.
    cbn [outcome world trace].
    destruct (gas_check_run getFeeData this w []) as (o & w1 & tr1 & E & G).
    rewrite (run_bind_ok _ _ _ _ _ _ _ E).
    destruct (isValid o) eqn:Vo; cbn [negb].
    2: { cbn [mret outcome]. intros H. injection H as <-. eexists; reflexivity. }
    destruct (LiquidityPipeline.validateOpportunity config chain liquidityFeeData
                opportunity None) as [e|lo] eqn:LV.
    { assert (C : LiquidityPipeline.asCollaborator config chain liquidityFeeData
                    opportunity w1 = (inl e, w1))
        by (unfold LiquidityPipeline.asCollaborator; now rewrite LV).
      rewrite (run_call_err _ _ _ _ _ _ _ C).
      cbn [outcome errorResult]. intros H. injection H as <-. eexists; reflexivity. }
    assert (C : LiquidityPipeline.asCollaborator config chain liquidityFeeData
                  opportunity w1 = (inr (VObj lo), w1))
      by (unfold LiquidityPipeline.asCollaborator; now rewrite LV).
    rewrite (run_call_ok _ _ _ _ _ _ _ C).
    cbn [prop]. unfold ret. rewrite run_lift_ok.
    pose proof (LiquidityPipelineFacts.liquidity_never_valid config chain
                  liquidityFeeData N T opportunity None lo A LV) as F.
    unfold isValid in F. rewrite F. cbn [negb mret outcome].
    intros H. injection H as <-. eexists; reflexivity. }
  destruct Obj_ as (v & ->). exists v. split; [exact O|].
  destruct (isValid v) eqn:V; [exfalso | reflexivity].
  destruct (base_valid_inv getFeeData
              (LiquidityPipeline.asCollaborator config chain liquidityFeeData)
              priceValidator this opportunity w v O V)
    as (g & w1 & l & w2 & p & w3 & _ & _ & LV & (lv & PL & TL) & _).
  unfold LiquidityPipeline.asCollaborator in LV.
  destruct (LiquidityPipeline.validateOpportunity config chain liquidityFeeData
              opportunity None) as [e|lo] eqn:LO; [discriminate|].
  injection LV as <- _.
  rewrite (prop_isValid _ _ lo PL eq_refl) in TL.
  rewrite (LiquidityPipelineFacts.liquidity_never_valid config chain
             liquidityFeeData N T opportunity None lo A LO) in TL.
  discriminate.
Qed.

Lemma pipeline_never_approves_witness :
  exists v,
    outcome (run (validateOpportunity (rt := sampleRuntime) (sampleFeeData 20)
                    (LiquidityPipeline.asCollaborator (rt := sampleRuntime)
                       LiquidityPipeline.sampleTokens
                       (LiquidityPipeline.sampleChain 1000000000000000000000000
                          2500000000000000000000000000)
                       (inr (Some 20000000000%Z)))
                    (answering (inr accepted)) sampleInstance
                    {| tokenA := "WETH"; tokenB := "DAI"; tokenAAddress := "0xC02a";
                       tokenBAddress := "0x6B17"; amountIn := 1;
                       buyDex := "SushiSwap"; sellDex := "SushiSwap";
                       spreadPercentage := Js.Fin 0.3; profitUsd := 100 |}) tt)
    = inr (VObj v) /\
    isValid v = false.
Proof.
  apply (pipeline_never_approves (rt := sampleRuntime) (sampleFeeData 20)
           (answering (inr accepted)) LiquidityPipeline.sampleTokens
           (LiquidityPipeline.sampleChain 1000000000000000000000000
              2500000000000000000000000000)
           (inr (Some 20000000000%Z)) sampleInstance
           {| tokenA := "WETH"; tokenB := "DAI"; tokenAAddress := "0xC02a";
              tokenBAddress := "0x6B17"; amountIn := 1;
              buyDex := "SushiSwap"; sellDex := "SushiSwap";
              spreadPercentage := Js.Fin 0.3; profitUsd := 100 |} tt).
  - intros pair r0 r1 H. injection H as <- <-. split; discriminate.
  - vm_compute. discriminate.
  - discriminate.
Defined.

End BasePipelineFacts.

(** ** Profitability under market conditions *)

Module ProfitabilityFacts.
Import JsObject Effects ValidationManager.
Import LiquidityValidator (TokenInfo, symbol, address, decimals).

Section WithRuntime.
Context {rt : Runtime}.

(** When [analyzeProfitability] is valid. *)
Lemma analyze_valid_iff (this : Instance) (opportunity : Opportunity) (gasPrice : Z) :
  isValid (analyzeProfitability this opportunity (VBigInt gasPrice)) = true <->
  exists tokenInfo amount tokenPriceUsd,
    find (fun t => String.eqb (symbol t) (tokenA opportunity)) (tokens (config this))
    = Some tokenInfo /\
    parseUnits (toText (amountIn opportunity)) (decimals tokenInfo) = inr amount /\
    getTokenPriceUsd (tokenA opportunity) = Some tokenPriceUsd /\
    let net :=
      profitUsd opportunity
      - flashLoanFeeUsd this amount (decimals tokenInfo) tokenPriceUsd
      - gasCostUsd gasPrice 2500 in
    Js.or_default (minProfitUsd (config this)) 10 < net /\
    minProfitMultiplier this <= profitToGasRatio net (gasCostUsd gasPrice 2500).
Proof.
  unfold analyzeProfitability.
  destruct (find _ (tokens (config this))) as [tokenInfo|].
  2: { cbn [try_catch JsObject.ret]. split; [discriminate|].
       intros (? & ? & ? & H & _). discriminate. }
  destruct (parseUnits (toText (amountIn opportunity)) (decimals tokenInfo))
    as [e|amount] eqn:P.
  { cbn [JsObject.bind try_catch]. split; [discriminate|].
    intros (? & ? & ? & H & H' & _). injection H as <-. congruence. }
  cbn [JsObject.bind].
  destruct (getTokenPriceUsd (tokenA opportunity)) as [tokenPriceUsd|].
  2: { cbn [try_catch JsObject.ret]. split; [discriminate|].
       intros (? & ? & ? & _ & _ & H & _). discriminate. }
  cbv beta iota zeta delta [JsObject.bind JsObject.ret getEthPriceUsd].
  match goal with
  | |- context [Js.le ?a ?b] => destruct (Js.le a b) eqn:L1
  end.
  { cbn [try_catch]. split; [discriminate|].
    intros (ti & am & pr & H1 & H2 & H3 & G1 & _).
    injection H1 as <-. rewrite P in H2. injection H2 as <-. injection H3 as <-.
    apply JsFacts.le_spec in L1. cbv zeta in G1. lra. }
  match goal with
  | |- context [Js.ge ?a ?b] => destruct (Js.ge a b) eqn:L2
  end; cbn [negb try_catch].
  - split; [|reflexivity]. intros _.
    exists tokenInfo, amount, tokenPriceUsd.
    split; [reflexivity|]. split; [exact P|]. split; [reflexivity|].
    cbv zeta. split; [now apply JsFacts.le_false | now apply JsFacts.ge_spec].
  - split; [discriminate|].
    intros (ti & am & pr & H1 & H2 & H3 & _ & G2).
    injection H1 as <-. rewrite P in H2. injection H2 as <-. injection H3 as <-.
    apply JsFacts.ge_false in L2. cbv zeta in G2. lra.
Qed.

Lemma multiplier_range (volatility risk : string) (this : Instance) :
  1.5 <= minProfitMultiplier (setMarketConditions volatility risk this) <= 3.
Proof.
  unfold setMarketConditions. cbn [minProfitMultiplier].
  destruct (String.eqb volatility "high"); [split; vm_compute; discriminate|].
  destruct (String.eqb volatility "low"); split; vm_compute; discriminate.
Qed.

End WithRuntime.

(** X22. What [setMarketConditions] changes.  It sets the required
    profit-to-gas multiplier from the volatility alone (3 for "high", 1.5
    for "low", 2 for anything else); [riskTolerance] is stored and never
    consulted, so two instances that differ only in it validate
    identically.  The multiplier is the only effect: a candidate whose
    profitability is valid under "high" volatility is valid under every
    volatility, and one that is valid under any volatility is valid under
    "low". *)
Theorem market_conditions_only_move_multiplier {rt : Runtime} {W : Type}
    (getFeeData : W -> Outcome Z * W)
    (liquidityValidator priceValidator : Opportunity -> W -> Outcome Value * W)
    (this : Instance) (opportunity : Opportunity) (gasPrice : Z)
    (volatility risk risk' : string) :
  validateOpportunity getFeeData liquidityValidator priceValidator
    (setMarketConditions volatility risk this) opportunity
  = validateOpportunity getFeeData liquidityValidator priceValidator
      (setMarketConditions volatility risk' this) opportunity /\
  (isValid (analyzeProfitability (setMarketConditions "high" risk this)
              opportunity (VBigInt gasPrice)) = true ->
   isValid (analyzeProfitability (setMarketConditions volatility risk this)
              opportunity (VBigInt gasPrice)) = true) /\
  (isValid (analyzeProfitability (setMarketConditions volatility risk this)
              opportunity (VBigInt gasPrice)) = true ->
   isValid (analyzeProfitability (setMarketConditions "low" risk this)
              opportunity (VBigInt gasPrice)) = true).
Proof.
  split; [reflexivity|].
  assert (Mono : forall v1 v2,
             minProfitMultiplier (setMarketConditions v2 risk this)
             <= minProfitMultiplier (setMarketConditions v1 risk this) ->
             isValid (analyzeProfitability (setMarketConditions v1 risk this)
                        opportunity (VBigInt gasPrice)) = true ->
             isValid (analyzeProfitability (setMarketConditions v2 risk this)
                        opportunity (VBigInt gasPrice)) = true).
  { intros v1 v2 L V. apply analyze_valid_iff in V. apply analyze_valid_iff.
    destruct V as (ti & am & pr & H1 & H2 & H3 & G1 & G2).
    exists ti, am, pr. cbn [config setMarketConditions] in *.
    split; [exact H1|]. split; [exact H2|]. split; [exact H3|].
    cbv zeta in *. unfold flashLoanFeeUsd in *. cbn [config setMarketConditions] in *.
    split; [exact G1|]. eapply Qle_trans; [exact L | exact G2]. }
  split; apply Mono.
  - pose proof (multiplier_range volatility risk this) as (_ & U).
    eapply Qle_trans; [exact U|]. vm_compute. discriminate.
  - pose proof (multiplier_range volatility risk this) as (L & _).
    eapply Qle_trans; [|exact L]. vm_compute. discriminate.
Qed.

Lemma market_conditions_only_move_multiplier_witness :
  isValid (analyzeProfitability (rt := sampleRuntime)
             (setMarketConditions "low" "medium" sampleInstance)
             sampleOpportunity (VBigInt 20000000000)) = true.
Proof.
  apply (proj2 (proj2 (market_conditions_only_move_multiplier (rt := sampleRuntime)
                         (sampleFeeData 20) (answering (inr accepted))
                         (answering (inr accepted)) sampleInstance sampleOpportunity
                         20000000000 "normal" "medium" "medium"))).
  vm_compute. reflexivity.
Defined.

(** X23. What a valid verdict of the base orchestrator says about the
    candidate.  Its first token is configured and is one of the five tokens
    the orchestrator has a price for (WETH, WBTC, USDC, USDT, DAI); no
    candidate that starts from any other token is ever approved.  And its
    profit, after the flash-loan fee and the gas cost at the gas price the
    provider gave, exceeds the minimum profit and is at least the required
    multiple of the gas cost. *)
Theorem approved_candidate_is_priced_and_profitable {rt : Runtime} {W : Type}
    (getFeeData : W -> Outcome Z * W)
    (liquidityValidator priceValidator : Opportunity -> W -> Outcome Value * W)
    (this : Instance) (opportunity : Opportunity) (w : W) (v : Obj) :
  outcome (run (validateOpportunity getFeeData liquidityValidator priceValidator
                  this opportunity) w) = inr (VObj v) ->
  isValid v = true ->
  In (tokenA opportunity) ["WETH"; "WBTC"; "USDC"; "USDT"; "DAI"]%string /\
  exists gasPrice w1 tokenInfo amount tokenPriceUsd,
    getFeeData w = (inr gasPrice, w1) /\
    In tokenInfo (tokens (config this)) /\
    symbol tokenInfo = tokenA opportunity /\
    parseUnits (toText (amountIn opportunity)) (decimals tokenInfo) = inr amount /\
    getTokenPriceUsd (tokenA opportunity) = Some tokenPriceUsd /\
    let gas := gasCostUsd gasPrice 2500 in
    let net :=
      profitUsd opportunity
      - flashLoanFeeUsd this amount (decimals tokenInfo) tokenPriceUsd - gas in
    Js.or_default (minProfitUsd (config this)) 10 < net /\
    minProfitMultiplier this <= profitToGasRatio net gas /\
    get "profitUsd" (details v) = VNum net.
Proof.
  intros O V.
  destruct (BasePipelineFacts.base_valid_inv getFeeData liquidityValidator
              priceValidator this opportunity w v O V)
    as (g & w1 & l & w2 & p & w3 & F & _ & _ & _ & _ & _ & AP & _ & _ & PU).
  pose proof AP as AP'. apply analyze_valid_iff in AP'.
  destruct AP' as (ti & am & pr & H1 & H2 & H3 & G1 & G2).
  split.
  { unfold getTokenPriceUsd in H3. cbn [PriceValidator.lookup] in H3.
    cbn [In].
    repeat match type of H3 with
           | context [String.eqb ?a ?b] =>
               destruct (String.eqb a b) eqn:E;
               [apply String.eqb_eq in E; rewrite E; tauto | clear E]
           end.
    cbn in H3. discriminate. }
  exists g, w1, ti, am, pr.
  split; [exact F|].
  apply find_some in H1 as H1'. destruct H1' as (I & S).
  split; [exact I|]. split; [now apply String.eqb_eq in S|].
  split; [exact H2|]. split; [exact H3|]. cbv zeta.
  split; [exact G1|]. split; [exact G2|].
  rewrite PU. clear PU O V.
  unfold analyzeProfitability in *. rewrite H1, H2 in *. cbn [JsObject.bind] in *.
  rewrite H3 in *.
  cbv beta iota zeta delta [JsObject.bind JsObject.ret getEthPriceUsd] in *.
  apply (proj2 (JsFacts.le_false _ _)) in G1.
  apply (proj2 (JsFacts.ge_spec _ _)) in G2.
  cbv zeta in G1, G2. rewrite G1, G2. reflexivity.
Qed.

Lemma approved_candidate_is_priced_and_profitable_witness :
  In (tokenA sampleOpportunity) ["WETH"; "WBTC"; "USDC"; "USDT"; "DAI"]%string.
Proof.
  apply (approved_candidate_is_priced_and_profitable (rt := sampleRuntime)
           (sampleFeeData 20) (answering (inr accepted)) (answering (inr accepted))
           sampleInstance sampleOpportunity tt
           (match outcome (run (validateOpportunity (rt := sampleRuntime)
                                  (sampleFeeData 20) (answering (inr accepted))
                                  (answering (inr accepted))
                                  sampleInstance sampleOpportunity) tt) with
            | inr (VObj v) => v
            | _ => []
            end)).
  - vm_compute. reflexivity.
  - vm_compute. reflexivity.
Defined.

End ProfitabilityFacts.

(** ** The orchestrator behind the circuit breaker *)

Module EnhancedPipelineFacts.
Import JsObject Effects TraceFacts EnhancedValidationManager.
Import BasePipelineFacts.

Section Steps.
Context {W : Type}.


End Steps.

Section Enhanced.
Context {rt : Runtime} {X : Type}.
Variable breakerConfig : CircuitBreakerManager.Config.
Variable now : Q.
Variable validateLiquidity : string -> string -> Z -> string -> X -> Outcome Value * X.
Variable validatePrices : string -> string -> string -> string -> Q -> X -> Outcome Value * X.
Variable getFeeData : X -> Outcome Z * X.
Variable getTokenPriceUsd : string -> X -> Outcome Q * X.
Variable configuredMaxGasPrice : X -> Outcome (option Q) * X.
Variable configuredMinProfitUsd : X -> Outcome Q * X.
Variables (this : Instance) (opportunity : Opportunity).

(** The net profit [_validateGasCosts] compares with the floor. *)
Lemma gas_costs_run (w : World X) (tr : list Event) :
  exists o w' tr',
    _validateGasCosts getFeeData getTokenPriceUsd configuredMaxGasPrice
      configuredMinProfitUsd opportunity w tr
    = {| outcome := inr o; world := w'; trace := tr' |} /\
    (isValid o = true ->
     exists gasPrice x1 configured x2 ethPriceUsd x3 minProfitUsd x4,
       getFeeData (ext w) = (inr gasPrice, x1) /\
       configuredMaxGasPrice x1 = (inr configured, x2) /\
       ValidationManager.unitsToNumber gasPrice 9 <= Js.or_default configured 100 /\
       getTokenPriceUsd "WETH"%string x2 = (inr ethPriceUsd, x3) /\
       configuredMinProfitUsd x3 = (inr minProfitUsd, x4) /\
       (exists net, get "netProfitUsd" (details o) = VNum net /\ minProfitUsd < net) /\
       w' = {| breaker := breaker w; ext := x4 |} /\
       tr' = tr ++ [Called Provider; Called Settings; Called PriceFeed;
                    Called Settings]).
Proof.
  unfold _validateGasCosts. rewrite mtry_mret. cbn [outcome world trace].
  do 3 eexists. split; [reflexivity|].
  destruct (getFeeData (ext w)) as [[e|g] x1] eqn:F.
  { erewrite run_call_err by (unfold onExt; rewrite F; reflexivity).
    cbn [outcome]. rewrite LiquidityDepthFacts.isValid_head. discriminate. }
  erewrite run_call_ok by (unfold onExt; rewrite F; reflexivity).
  cbv beta zeta.
  destruct (configuredMaxGasPrice x1) as [[e|c] x2] eqn:C.
  { erewrite run_call_err by (unfold onExt; cbn [ext]; rewrite C; reflexivity).
    cbn [outcome]. rewrite LiquidityDepthFacts.isValid_head. discriminate. }
  erewrite run_call_ok by (unfold onExt; cbn [ext]; rewrite C; reflexivity).
  cbv beta zeta.
  destruct (Js.gt (ValidationManager.unitsToNumber g 9) (Js.or_default c 100)) eqn:G.
  { cbn [mret outcome]. rewrite LiquidityDepthFacts.isValid_head. discriminate. }
  destruct (getTokenPriceUsd "WETH"%string x2) as [[e|price] x3] eqn:P.
  { erewrite run_call_err by (unfold onExt; cbn [ext]; rewrite P; reflexivity).
    cbn [outcome]. rewrite LiquidityDepthFacts.isValid_head. discriminate. }
  erewrite run_call_ok by (unfold onExt; cbn [ext]; rewrite P; reflexivity).
  cbv beta zeta.
  destruct (configuredMinProfitUsd x3) as [[e|minP] x4] eqn:MP.
  { erewrite run_call_err by (unfold onExt; cbn [ext]; rewrite MP; reflexivity).
    cbn [outcome]. rewrite LiquidityDepthFacts.isValid_head. discriminate. }
  erewrite run_call_ok by (unfold onExt; cbn [ext]; rewrite MP; reflexivity).
  cbv beta zeta.
  match goal with
  | |- context [Js.le ?net minP] => destruct (Js.le net minP) eqn:L
  end.
  { cbn [mret outcome]. rewrite LiquidityDepthFacts.isValid_head. discriminate. }
  cbn [mret outcome world trace breaker ext]. intros _.
  exists g, x1, c, x2, price, x3, minP, x4.
  split; [reflexivity|]. split; [exact C|].
  split; [now apply JsFacts.gt_false|].
  split; [exact P|]. split; [exact MP|].
  split.
  { eexists. split; [reflexivity|]. now apply JsFacts.le_false. }
  split; [reflexivity|].
  rewrite <- !app_assoc. reflexivity.
Qed.


Lemma tripped_run (w : World X) :
  validationEnabled this = true ->
  CircuitBreakerManager.isTripped breakerConfig now (breaker w) = (true, breaker w) ->
  run (validateOpportunity breakerConfig now validateLiquidity validatePrices
         getFeeData getTokenPriceUsd configuredMaxGasPrice configuredMinProfitUsd
         this opportunity) w
  = match CircuitBreakerManager.getStatus breakerConfig (Some (breaker w)) with
    | inr status =>
        let rejection :=
          VObj [("isValid", VBool false);
                ("details",
                 VObj [("reason", VStr "Circuit breaker active");
                       ("circuitBreakerStatus", statusValue status)])]%string in
        {| outcome := inr rejection; world := w;
           trace := [Called Breaker; Emitted "validationResult" rejection] |}
    | inl e => {| outcome := inl e; world := w; trace := [Called Breaker] |}
    end.
Proof.
  intros En Tr. unfold run, validateOpportunity. rewrite En. cbn [negb].
  erewrite run_call_ok by (unfold isTripped; rewrite Tr; reflexivity).
  cbv beta iota zeta. destruct w as [m x]. reflexivity.
Qed.


End Enhanced.

(** X24. While the breaker is tripped the orchestrator does nothing but
    refuse: with validation enabled, the breaker enabled, [active] set and
    the clock before [cooldownUntil], [validateOpportunity] returns the
    rejection "Circuit breaker active" together with the breaker's status,
    reports it as a [validationResult] event, calls neither validator nor
    the provider, and leaves the breaker and its collaborators as they
    were. *)
Theorem tripped_breaker_blocks_validation {rt : Runtime} {X : Type}
    (breakerConfig : CircuitBreakerManager.Config) (now : Q)
    (validateLiquidity : string -> string -> Z -> string -> X -> Outcome Value * X)
    (validatePrices : string -> string -> string -> string -> Q -> X
                      -> Outcome Value * X)
    (getFeeData : X -> Outcome Z * X)
    (getTokenPriceUsd : string -> X -> Outcome Q * X)
    (configuredMaxGasPrice : X -> Outcome (option Q) * X)
    (configuredMinProfitUsd : X -> Outcome Q * X)
    (this : Instance) (opportunity : Opportunity) (w : World X) :
  validationEnabled this = true ->
  CircuitBreakerManager.enabled breakerConfig = true ->
  CircuitBreakerManager.active (CircuitBreakerManager.state (breaker w)) = true ->
  now < CircuitBreakerManager.cooldownUntil (CircuitBreakerManager.state (breaker w)) ->
  exists status,
    CircuitBreakerManager.getStatus breakerConfig (Some (breaker w)) = inr status /\
    let rejection :=
      VObj [("isValid", VBool false);
            ("details",
             VObj [("reason", VStr "Circuit breaker active");
                   ("circuitBreakerStatus", statusValue status)])]%string in
    run (validateOpportunity breakerConfig now validateLiquidity validatePrices
           getFeeData getTokenPriceUsd configuredMaxGasPrice configuredMinProfitUsd
           this opportunity) w
    = {| outcome := inr rejection; world := w;
         trace := [Called Breaker; Emitted "validationResult" rejection] |}.
Proof.
  intros En On A C. eexists. split; [reflexivity|]. cbv zeta.
  rewrite (tripped_run breakerConfig now validateLiquidity validatePrices getFeeData
             getTokenPriceUsd configuredMaxGasPrice configuredMinProfitUsd this
             opportunity w En); [reflexivity|].
  unfold CircuitBreakerManager.isTripped. rewrite On, A. cbn [negb andb].
  apply (proj2 (JsFacts.lt_spec _ _)) in C. now rewrite C.
Qed.

Lemma tripped_breaker_blocks_validation_witness :
  exists status,
    CircuitBreakerManager.getStatus CircuitBreakerManager.sampleConfig
      (Some (breaker trippedWorld)) = inr status /\
    trace (run (validateOpportunity (rt := sampleRuntime)
                  CircuitBreakerManager.sampleConfig 4000
                  (sampleLiquidity (inr ValidationManager.accepted))
                  (samplePrices (inr ValidationManager.accepted))
                  (ValidationManager.sampleFeeData 20) samplePriceFeed
                  sampleMaxGasPrice sampleMinProfitUsd create
                  ValidationManager.sampleOpportunity) trippedWorld)
    = [Called Breaker;
       Emitted "validationResult"
         (VObj [("isValid", VBool false);
                ("details",
                 VObj [("reason", VStr "Circuit breaker active");
                       ("circuitBreakerStatus",
                        statusValue (rt := sampleRuntime) status)])]%string)].
Proof.
  destruct (tripped_breaker_blocks_validation (rt := sampleRuntime)
              CircuitBreakerManager.sampleConfig 4000
              (sampleLiquidity (inr ValidationManager.accepted))
              (samplePrices (inr ValidationManager.accepted))
              (ValidationManager.sampleFeeData 20) samplePriceFeed
              sampleMaxGasPrice sampleMinProfitUsd create
              ValidationManager.sampleOpportunity trippedWorld
              eq_refl eq_refl eq_refl eq_refl) as (status & S & R).
  exists status. split; [exact S|]. cbv zeta in R. rewrite R. reflexivity.
Defined.



End EnhancedPipelineFacts.

(** ** Rejections and failures on the way *)

Module RejectionFacts.
Import JsObject Effects TraceFacts.

(** X26. A provider that fails is a rejection, never an exception.  In the
    base orchestrator a failing [getFeeData] gives the verdict "Error
    checking gas price: ..." with check [gas_price], and neither validator
    is called.  In the orchestrator behind the breaker the gas-cost
    validation returns an object whatever its collaborators do, and a
    failing [getFeeData] gives "Gas validation error: ..." after the
    provider alone was called. *)
Theorem provider_failure_is_rejection {rt : Runtime} {W X : Type}
    (getFeeData : W -> Outcome Z * W)
    (liquidityValidator priceValidator : Opportunity -> W -> Outcome Value * W)
    (this : ValidationManager.Instance) (opportunity : Opportunity)
    (w w1 : W) (e : Error)
    (feeData : X -> Outcome Z * X)
    (getTokenPriceUsd : string -> X -> Outcome Q * X)
    (configuredMaxGasPrice : X -> Outcome (option Q) * X)
    (configuredMinProfitUsd : X -> Outcome Q * X)
    (u : EnhancedValidationManager.World X) (tr : list Event) :
  getFeeData w = (inl e, w1) ->
  run (ValidationManager.validateOpportunity getFeeData liquidityValidator
         priceValidator this opportunity) w
  = {| outcome :=
         inr (VObj [("isValid", VBool false);
                    ("details",
                     VObj [("reason",
                            VStr ("Error checking gas price: " ++ message e));
                           ("check", VStr "gas_price")])]%string);
       world := w1;
       trace := [Called Provider; Threw Provider e] |} /\
  (exists o,
     outcome (EnhancedValidationManager._validateGasCosts feeData getTokenPriceUsd
                configuredMaxGasPrice configuredMinProfitUsd opportunity u tr)
     = inr o) /\
  (forall x1 e',
     feeData (EnhancedValidationManager.ext u) = (inl e', x1) ->
     EnhancedValidationManager._validateGasCosts feeData getTokenPriceUsd
       configuredMaxGasPrice configuredMinProfitUsd opportunity u tr
     = {| outcome :=
            inr [("isValid", VBool false);
                 ("details",
                  VObj [("reason", VStr ("Gas validation error: " ++ message e'));
                        ("error", VStr (message e'))])]%string;
          world := {| EnhancedValidationManager.breaker :=
                        EnhancedValidationManager.breaker u;
                      EnhancedValidationManager.ext := x1 |};
          trace := tr ++ [Called Provider; Threw Provider e'] |}).
Proof.
  intro F. split; [|split].
  - unfold run, ValidationManager.validateOpportunity. rewrite BasePipelineFacts.mtry_mret.
    assert (G : ValidationManager.checkGasPrice getFeeData this w []
                = {| outcome :=
                       inr [("isValid", VBool false);
                            ("details",
                             VObj [("reason",
                                    VStr ("Error checking gas price: " ++ message e));
                                   ("check", VStr "gas_price")])]%string;
                     world := w1;
                     trace := [Called Provider; Threw Provider e] |}).
    { unfold ValidationManager.checkGasPrice. rewrite BasePipelineFacts.mtry_mret.
      rewrite (BasePipelineFacts.run_call_err _ _ _ _ _ _ _ F). reflexivity. }
    rewrite (run_bind_ok _ _ _ _ _ _ _ G). reflexivity.
  - destruct (EnhancedPipelineFacts.gas_costs_run feeData getTokenPriceUsd
                configuredMaxGasPrice configuredMinProfitUsd opportunity u tr)
      as (o & w' & tr' & E & _).
    exists o. now rewrite E.
  - intros x1 e' F'. unfold EnhancedValidationManager._validateGasCosts.
    rewrite BasePipelineFacts.mtry_mret.
    erewrite BasePipelineFacts.run_call_err
      by (unfold EnhancedValidationManager.onExt; rewrite F'; reflexivity).
    reflexivity.
Qed.

Lemma provider_failure_is_rejection_witness :
  trace (run (ValidationManager.validateOpportunity (rt := sampleRuntime)
                (fun w : unit => (inl {| message := "timeout" |}, w))
                (ValidationManager.answering (inr ValidationManager.accepted))
                (ValidationManager.answering (inr ValidationManager.accepted))
                ValidationManager.sampleInstance
                ValidationManager.sampleOpportunity) tt)
  = [Called Provider; Threw Provider {| message := "timeout" |}].
Proof.
  rewrite (proj1 (provider_failure_is_rejection (rt := sampleRuntime)
                    (fun w : unit => (inl {| message := "timeout" |}, w))
                    (ValidationManager.answering (inr ValidationManager.accepted))
                    (ValidationManager.answering (inr ValidationManager.accepted))
                    ValidationManager.sampleInstance
                    ValidationManager.sampleOpportunity tt tt
                    {| message := "timeout" |}
                    (ValidationManager.sampleFeeData 20)
                    EnhancedValidationManager.samplePriceFeed
                    EnhancedValidationManager.sampleMaxGasPrice
                    EnhancedValidationManager.sampleMinProfitUsd
                    EnhancedValidationManager.freshWorld [] eq_refl)).
  reflexivity.
Defined.

(** X27. The base orchestrator stops at the first validator that does not
    pass and hands its answer back unchanged.  When the gas price is within
    the ceiling and the liquidity validator's answer is not truthy under
    [.isValid], that answer is the verdict and the price validator is not
    called; when the liquidity answer passes and the price validator's does
    not, the price validator's answer is the verdict.  An answer that is
    [undefined] or [null] is a "Validation error" rejection instead. *)
Theorem first_rejection_is_the_verdict {rt : Runtime} {W : Type}
    (getFeeData : W -> Outcome Z * W)
    (liquidityValidator priceValidator : Opportunity -> W -> Outcome Value * W)
    (this : ValidationManager.Instance) (opportunity : Opportunity)
    (w w1 w2 : W) (gasPrice : Z) (liquidityCheck : Value) :
  getFeeData w = (inr gasPrice, w1) ->
  ValidationManager.unitsToNumber gasPrice 9 <= ValidationManager.maxGasPrice this ->
  liquidityValidator opportunity w1 = (inr liquidityCheck, w2) ->
  let r :=
    run (ValidationManager.validateOpportunity getFeeData liquidityValidator
           priceValidator this opportunity) w in
  (forall lv,
     prop liquidityCheck "isValid" = inr lv -> truthy lv = false ->
     r = {| outcome := inr liquidityCheck; world := w2;
            trace := [Called Provider; Called LiquidityCheck] |}) /\
  (forall e,
     prop liquidityCheck "isValid" = inl e ->
     r = {| outcome := inr (ValidationManager.errorResult e); world := w2;
            trace := [Called Provider; Called LiquidityCheck] |}) /\
  (forall lv priceCheck w3 pv,
     prop liquidityCheck "isValid" = inr lv -> truthy lv = true ->
     priceValidator opportunity w2 = (inr priceCheck, w3) ->
     prop priceCheck "isValid" = inr pv -> truthy pv = false ->
     r = {| outcome := inr priceCheck; world := w3;
            trace := [Called Provider; Called LiquidityCheck; Called PriceCheck] |}).
Proof.
  intros F L LV. cbv zeta.
  assert (G : ValidationManager.checkGasPrice getFeeData this w []
              = {| outcome :=
                     inr [("isValid", VBool true);
                          ("details",
                           VObj [("gasPrice", VBigInt gasPrice);
                                 ("gasPriceGwei",
                                  VNum (ValidationManager.unitsToNumber gasPrice 9))])
                         ]%string;
                   world := w1; trace := [Called Provider] |}).
  { unfold ValidationManager.checkGasPrice. rewrite BasePipelineFacts.mtry_mret.
    rewrite (run_call_ok _ _ _ _ _ _ _ F).
    apply (proj2 (JsFacts.gt_false _ _)) in L. rewrite L. reflexivity. }
  unfold run, ValidationManager.validateOpportunity.
  rewrite BasePipelineFacts.mtry_mret.
  rewrite (run_bind_ok _ _ _ _ _ _ _ G).
  rewrite LiquidityDepthFacts.isValid_head. cbn [negb].
  rewrite (run_call_ok _ _ _ _ _ _ _ LV).
  split; [|split].
  - intros lv P T. rewrite P, run_lift_ok, T. reflexivity.
  - intros e P. rewrite P, BasePipelineFacts.run_lift_err. reflexivity.
  - intros lv priceCheck w3 pv P T PV PP TP.
    rewrite P, run_lift_ok, T. cbn [negb].
    rewrite (run_call_ok _ _ _ _ _ _ _ PV).
    rewrite PP, run_lift_ok, TP. reflexivity.
Qed.

Lemma first_rejection_is_the_verdict_witness :
  run (ValidationManager.validateOpportunity (rt := sampleRuntime)
         (ValidationManager.sampleFeeData 20)
         (ValidationManager.answering (inr (ValidationManager.rejected "too thin")))
         (ValidationManager.answering (inr ValidationManager.accepted))
         ValidationManager.sampleInstance ValidationManager.sampleOpportunity) tt
  = {| outcome := inr (ValidationManager.rejected "too thin"); world := tt;
       trace := [Called Provider; Called LiquidityCheck] |}.
Proof.
  apply (proj1 (first_rejection_is_the_verdict (rt := sampleRuntime)
                  (ValidationManager.sampleFeeData 20)
                  (ValidationManager.answering
                     (inr (ValidationManager.rejected "too thin")))
                  (ValidationManager.answering (inr ValidationManager.accepted))
                  ValidationManager.sampleInstance
                  ValidationManager.sampleOpportunity tt tt tt 20000000000
                  (ValidationManager.rejected "too thin")
                  eq_refl ltac:(vm_compute; discriminate) eq_refl)
           (VBool false)); reflexivity.
Defined.

(** X28. [calculateProfitability] of the liquidity validator.  It never
    throws.  When the output does not exceed the input it answers "No
    profit" without asking the provider.  It says profitable exactly when
    the output exceeds the input, the provider returned a gas price, and
    the profit, valued at one dollar per token whatever the token, less
    the 0.09% flash-loan fee and the gas cost at 2000 dollars per ETH,
    exceeds the minimum profit (default 10). *)
Theorem liquidity_profitability_gate {rt : Runtime}
    (config : LiquidityValidator.Config) (getFeeData : Outcome (option Z))
    (token : LiquidityValidator.TokenInfo) (amountIn amountOut gasLimit : Z) :
  let answer :=
    LiquidityPipeline.calculateProfitability config getFeeData token
      amountIn amountOut gasLimit in
  ((amountOut <= amountIn)%Z ->
   answer = [("isProfitable", VBool false); ("profit", VBigInt 0);
             ("profitUsd", VNum 0); ("reason", VStr "No profit")]%string) /\
  (truthy (get "isProfitable" answer) = true <->
   (amountIn < amountOut)%Z /\
   exists gasPrice,
     getFeeData = inr (Some gasPrice) /\
     Js.or_default (LiquidityValidator.minProfitUsd config) 10
     < ValidationManager.unitsToNumber (amountOut - amountIn)
         (LiquidityValidator.decimals token) * 1.0
       - (ValidationManager.unitsToNumber (Z.quot (amountIn * 9) 10000)
            (LiquidityValidator.decimals token) * 1.0
          + ValidationManager.unitsToNumber (gasPrice * gasLimit) 18 * 2000)).
Proof.
  cbv zeta. unfold LiquidityPipeline.calculateProfitability.
  destruct (amountOut >? amountIn)%Z eqn:C.
  - assert (NZ : (amountOut - amountIn =? 0)%Z = false) by lia.
    rewrite NZ. split; [lia|].
    destruct getFeeData as [e|[g|]].
    + cbn [bind try_catch]. split; [discriminate|].
      intros (_ & g & H & _). discriminate.
    + cbn [bind try_catch ret get String.eqb Ascii.eqb Bool.eqb truthy].
      split.
      * intro G. apply JsFacts.gt_spec in G.
        split; [lia|]. exists g. split; [reflexivity | exact G].
      * intros (_ & g' & H & G). injection H as <-.
        apply (proj2 (JsFacts.gt_spec _ _)). exact G.
    + cbn [bind try_catch LiquidityPipeline.typeError throw].
      split; [discriminate|].
      intros (_ & g & H & _). discriminate.
  - cbn [Z.eqb]. split; [reflexivity|].
    split; [discriminate | lia].
Qed.

(** X29. What [getStatus] shows.  It is not guarded by [enabled]: on the
    singleton of a disabled breaker, which never got a state, it throws a
    TypeError.  On the singleton the constructor builds when circuit
    breakers are enabled, whatever calls it has served since, it shows
    exactly the last three breaches of the log (all of them when there are
    fewer), in order; and while the breaker is active that list is not
    empty and its last entry carries the deadline the breaker is waiting
    for. *)
Theorem status_shows_latest_breach (cfg : CircuitBreakerManager.Config)
    (ops : list BreakerTimeline.Op) (t0 : Q) (b : CircuitBreakerManager.Breach) :
  (CircuitBreakerManager.enabled cfg = false ->
   CircuitBreakerManager.create cfg t0 = None /\
   CircuitBreakerManager.getStatus cfg (CircuitBreakerManager.create cfg t0)
   = throw "Cannot read properties of undefined (reading 'active')") /\
  (forall m0,
     CircuitBreakerManager.create cfg t0 = Some m0 ->
     let m := BreakerTimeline.after cfg ops m0 in
     exists status,
       CircuitBreakerManager.getStatus cfg (Some m) = inr status /\
       List.length (CircuitBreakerManager.st_recentBreaches status)
       = Nat.min 3 (List.length (CircuitBreakerManager.breaches
                                   (CircuitBreakerManager.state m))) /\
       (exists older,
          CircuitBreakerManager.breaches (CircuitBreakerManager.state m)
          = older ++ CircuitBreakerManager.st_recentBreaches status) /\
       (CircuitBreakerManager.st_active status = true ->
        CircuitBreakerManager.st_recentBreaches status <> [] /\
        CircuitBreakerManager.cooldownUntil (CircuitBreakerManager.state m)
        = CircuitBreakerManager.br_cooldownUntil
            (last (CircuitBreakerManager.st_recentBreaches status) b))).
Proof.
  split.
  - intro Off. unfold CircuitBreakerManager.create. rewrite Off.
    split; reflexivity.
  - intros m0 Built. cbv zeta.
    apply BreakerTimelineFacts.create_fresh in Built. destruct Built as (_ & ->).
    eexists. split; [reflexivity|].
    cbn [CircuitBreakerManager.st_recentBreaches CircuitBreakerManager.st_active].
    change (-3)%Z with (- Z.of_nat 3)%Z.
    destruct (BreakerTimelineFacts.slice_from_exact 3
                (CircuitBreakerManager.breaches
                   (CircuitBreakerManager.state
                      (BreakerTimeline.after cfg ops (CircuitBreakerManager.fresh t0)))))
      as (Len & Suf); [lia|].
    split; [exact Len|]. split; [exact Suf|].
    intro A.
    destruct (BreakerTimelineFacts.audited_after cfg ops t0) as (N & L).
    specialize (N A).
    split.
    + apply BreakerTimelineFacts.slice_from_nonempty; [lia | exact N].
    + rewrite BreakerTimelineFacts.slice_from_last by (lia || exact N).
      now apply L.
Qed.

End RejectionFacts.
(** ** The two profitability gates *)

Module ProfitabilityGateFacts.
Import JsObject Effects ValidationManager.
Import LiquidityValidator (TokenInfo, symbol, address, decimals).




End ProfitabilityGateFacts.
